(** * Ideas & Projects Manager: the persistence layer and its callers

    A shallow embedding of [js/database.js] (class [DatabaseManager]),
    of the parts of [js/project-manager.js] (class [ProjectManager]) and
    [js/file-handler.js] (class [FileHandler]) that write to the
    database, and the properties of the specification proved about them;
    then the loading of the projects, the statistics and the preview
    line of a project card, the file preview of [FileHandler] and
    [Utils.simpleHash], with what the code shows of them.

    Conventions of the embedding.
    - A JavaScript string is the list of its UTF-16 code units.
    - Record ids and counter values are JavaScript numbers that the
      program only ever creates as [1] and [n + 1]; they are modelled as
      integers ([Z]), which is exact below [2^53].
    - An IndexedDB object store with a [keyPath] is a finite map from
      keys to records; [put] files a record under the value of its key
      path.
    - The requests of one IndexedDB transaction run against the
      database in order; when one of them fails the transaction aborts
      and the database is what it was before the transaction. *)

From Stdlib Require Import ZArith NArith List Lia Ascii String.
From stdpp Require Import base option list gmap strings fin_maps fin_sets.

(** ** JavaScript strings *)

Module JsString.

Definition t := list N.

Definition of_ascii (s : string) : t :=
  map N_of_ascii (String.list_ascii_of_string s).

(** ECMAScript [WhiteSpace] and [LineTerminator] code units, the ones
    [String.prototype.trim] strips. *)
Definition is_white_space (c : N) : bool :=
  ((c =? 0x09) || (c =? 0x0A) || (c =? 0x0B) || (c =? 0x0C) || (c =? 0x0D)
   || (c =? 0x20) || (c =? 0xA0) || (c =? 0x1680)
   || ((0x2000 <=? c) && (c <=? 0x200A))
   || (c =? 0x2028) || (c =? 0x2029) || (c =? 0x202F) || (c =? 0x205F)
   || (c =? 0x3000) || (c =? 0xFEFF))%N.

Fixpoint trimStart (s : t) : t :=
  match s with
  | [] => []
  | c :: r => if is_white_space c then trimStart r else s
  end.

Definition trimEnd (s : t) : t := rev (trimStart (rev s)).

(** [s.trim()] *)
Definition trim (s : t) : t := trimEnd (trimStart s).

(** Truthiness of a string: [!s] is [negb (truthy s)]. *)
Definition truthy (s : t) : bool :=
  match s with [] => false | _ :: _ => true end.

(** [a < b] on two strings: code unit by code unit. *)
Fixpoint ltb (a b : t) : bool :=
  match a, b with
  | _, [] => false
  | [], _ :: _ => true
  | x :: a', y :: b' =>
      if (x <? y)%N then true
      else if (x =? y)%N then ltb a' b' else false
  end.

(** [a > b] *)
Definition gtb (a b : t) : bool := ltb b a.

(** [a <= b] *)
Definition leb (a b : t) : bool := negb (ltb b a).

Definition is_high_surrogate (c : N) : bool := ((0xD800 <=? c) && (c <=? 0xDBFF))%N.
Definition is_low_surrogate (c : N) : bool := ((0xDC00 <=? c) && (c <=? 0xDFFF))%N.

(** [new Blob([s]).size]: the length of [s] in UTF-8, a lone surrogate
    being written as U+FFFD. *)
Fixpoint blob_size (s : t) : Z :=
  match s with
  | [] => 0
  | c :: r =>
      if (c <? 0x80)%N then 1 + blob_size r
      else if (c <? 0x800)%N then 2 + blob_size r
      else if is_high_surrogate c then
        match r with
        | d :: r' => if is_low_surrogate d then 4 + blob_size r'
                     else 3 + blob_size r
        | [] => 3
        end
      else 3 + blob_size r
  end%Z.

End JsString.

Abbreviation jsstring := JsString.t.

(** A string literal of the program or of an example. *)
Definition js (s : string) : jsstring := JsString.of_ascii s.

(** ** Records *)

Module Project.
Record t := mk { id : Z; name : jsstring; createdAt : jsstring }.
End Project.

Module File.
Record t := mk {
  name : jsstring; type : jsstring; size : Z; content : jsstring;
  extension : jsstring; isImage : bool }.
End File.

Module Content.
Record t := mk {
  id : Z; projectId : Z; text : jsstring; createdAt : jsstring;
  file : option File.t; updatedAt : option jsstring }.
End Content.

Module Counter.
Record t := mk { name : string; value : Z }.
End Counter.

(** ** Object stores with a key path *)

Class KeyPath (K R : Type) := key_path : R → K.

#[global] Instance project_keyPath : KeyPath Z Project.t := Project.id.
#[global] Instance content_keyPath : KeyPath Z Content.t := Content.id.
#[global] Instance counter_keyPath : KeyPath string Counter.t := Counter.name.

Section object_store.
Context {K : Type} `{Countable K} {R : Type} `{!KeyPath K R}.

(** [store.put(r)] *)
Definition os_put (r : R) (m : gmap K R) : gmap K R := <[key_path r := r]> m.

(** [store.get(k)]: [None] is [undefined] *)
Definition os_get (k : K) (m : gmap K R) : option R := m !! k.

(** [store.delete(k)] *)
Definition os_delete (k : K) (m : gmap K R) : gmap K R := delete k m.

(** [store.getAll()]; the order of the records plays no part below. *)
Definition os_getAll (m : gmap K R) : list R := (map_to_list m).*2.

(** [store.count()] *)
Definition os_count (m : gmap K R) : Z := Z.of_nat (size m).

(** [store.index(f).getAllKeys(v)]: the primary keys of the records
    whose field [f] is [v]. *)
Definition index_getAllKeys (f : R → Z) (v : Z) (m : gmap K R) : list K :=
  (filter (λ kr, f kr.2 = v) (map_to_list m)).*1.

(** [store.index(f).getAll(v)] *)
Definition index_getAll (f : R → Z) (v : Z) (m : gmap K R) : list R :=
  (filter (λ kr, f kr.2 = v) (map_to_list m)).*2.

(** Every record is filed under the value of its key path. *)
Definition os_wf (m : gmap K R) : Prop :=
  map_Forall (λ k r, key_path r = k) m.

#[global] Instance os_wf_dec `{EqDecision K} m : Decision (os_wf m).
Proof. unfold os_wf. apply _. Defined.

End object_store.

(** ** Promises and transactions *)

(** What a promise can be rejected with. [RequestError] is the error of a
    failed IndexedDB request, the only rejection the program produces;
    the other three are the failures the specification names. *)
Inductive failure := RequestError | ValidationError | NotFoundError | StorageError.

Inductive promise (A : Type) :=
  | Resolved (a : A)
  | Rejected (e : failure).
Arguments Resolved {A} a.
Arguments Rejected {A} e.

(** The database [ProjectManagerDB]: its three object stores. *)
Module IDB.
Record t := mk {
  projects : gmap Z Project.t;
  content : gmap Z Content.t;
  counters : gmap string Counter.t }.

Definition set_projects (f : gmap Z Project.t → gmap Z Project.t) (s : t) : t :=
  mk (f (projects s)) (content s) (counters s).
Definition set_content (f : gmap Z Content.t → gmap Z Content.t) (s : t) : t :=
  mk (projects s) (f (content s)) (counters s).
Definition set_counters (f : gmap string Counter.t → gmap string Counter.t) (s : t) : t :=
  mk (projects s) (content s) (f (counters s)).
End IDB.

Abbreviation db := IDB.t.

(** [fault n] tells whether the [n]-th request of a transaction fails. *)
Definition fault := nat → bool.
Definition no_fault : fault := λ _, false.

(** The body of a transaction: it issues requests, numbered from [0],
    against a working copy of the database; [None] is an abort. *)
Definition txn (A : Type) : Type := fault → nat → db → option (A * nat * db).

#[global] Instance txn_ret : MRet txn := λ A a _ n s, Some (a, n, s).

#[global] Instance txn_bind : MBind txn := λ A B k m f n s,
  match m f n s with
  | Some (a, n', s') => k a f n' s'
  | None => None
  end.

(** A read request: its result is handed to [onsuccess]. *)
Definition read {A} (q : db → A) : txn A :=
  λ f n s, if f n then None else Some (q s, S n, s).

(** A write request. *)
Definition write (w : db → db) : txn unit :=
  λ f n s, if f n then None else Some (tt, S n, w s).

(** [l.forEach(x => body(x))] inside a transaction. *)
Fixpoint forEach {A} (l : list A) (body : A → txn unit) : txn unit :=
  match l with
  | [] => mret tt
  | x :: l' => body x;; forEach l' body
  end.

(** [new Promise] around one transaction: the promise is resolved with
    the transaction's result and the working copy becomes the database,
    or a request fails, the promise is rejected with its error and the
    database is left as it was. A promise that the program resolves
    from the handler of the last request is taken to be resolved when
    the transaction completes; a failure of the commit itself is not
    part of the model. *)
Definition transaction {A} (t : txn A) (f : fault) (s : db) : promise A * db :=
  match t f 0%nat s with
  | Some (a, _, s') => (Resolved a, s')
  | None => (Rejected RequestError, s)
  end.

(** ** [DatabaseManager] *)

Module DatabaseManager.

(** [init] on a fresh database: [onupgradeneeded] creates the stores
    and seeds the two counters. *)
Definition init : db :=
  IDB.mk ∅ ∅ (os_put (Counter.mk "contentId" 1)
             (os_put (Counter.mk "projectId" 1) ∅)).

(** The [onsuccess] handler of [getNextId]'s read: the id to hand out
    and the counter record to write back. *)
Definition nextCounter (counterName : string) (result : option Counter.t)
  : Z * Counter.t :=
  let counter := default (Counter.mk counterName 1) result in
  let nextId := Counter.value counter in
  (nextId, Counter.mk (Counter.name counter) (nextId + 1)%Z).

Definition getNextId (counterName : string) : txn Z :=
  result ← read (λ s, os_get counterName (IDB.counters s));
  let '(nextId, counter) := nextCounter counterName result in
  write (IDB.set_counters (os_put counter));;
  mret nextId.

Definition saveProject (project : Project.t) : txn Project.t :=
  write (IDB.set_projects (os_put project));;
  mret project.

Definition getProject (id : Z) : txn (option Project.t) :=
  read (λ s, os_get id (IDB.projects s)).

Definition getAllProjects : txn (list Project.t) :=
  read (λ s, os_getAll (IDB.projects s)).

Definition deleteProject (id : Z) : txn bool :=
  write (IDB.set_projects (os_delete id));;
  contentIds ← read (λ s, index_getAllKeys Content.projectId id (IDB.content s));
  forEach contentIds (λ contentId, write (IDB.set_content (os_delete contentId)));;
  mret true.

Definition saveContent (c : Content.t) : txn Content.t :=
  write (IDB.set_content (os_put c));;
  mret c.

Definition getProjectContent (projectId : Z) : txn (list Content.t) :=
  read (λ s, index_getAll Content.projectId projectId (IDB.content s)).

Definition deleteContent (id : Z) : txn bool :=
  write (IDB.set_content (os_delete id));;
  mret true.

Definition getTotalIdeasCount : txn Z :=
  read (λ s, os_count (IDB.content s)).

Section recent.
(** [isoDaysAgo days] is what [new Date()], [setDate(getDate() - days)]
    and [toISOString()] give at the time of the call. *)
Variable isoDaysAgo : Z → jsstring.

Definition addRecentProject (weekAgoISO : jsstring)
    (recentProjectIds : gset Z) (project : Project.t) : gset Z :=
  if JsString.gtb (Project.createdAt project) weekAgoISO
  then recentProjectIds ∪ {[Project.id project]}
  else recentProjectIds.

Definition addRecentContent (weekAgoISO : jsstring)
    (recentProjectIds : gset Z) (c : Content.t) : gset Z :=
  if JsString.gtb (Content.createdAt c) weekAgoISO
  then recentProjectIds ∪ {[Content.projectId c]}
  else recentProjectIds.

(** The set [recentProjectIds] once both [forEach] loops have run. *)
Definition recentProjectIds (weekAgoISO : jsstring)
    (projects : list Project.t) (contents : list Content.t) : gset Z :=
  foldl (addRecentContent weekAgoISO)
        (foldl (addRecentProject weekAgoISO) ∅ projects) contents.

(** [days] is [None] when the argument is left out. *)
Definition getRecentProjectsCount (days : option Z) : txn Z :=
  let weekAgoISO := isoDaysAgo (default 7%Z days) in
  projects ← read (λ s, os_getAll (IDB.projects s));
  contents ← read (λ s, os_getAll (IDB.content s));
  mret (Z.of_nat (size (recentProjectIds weekAgoISO projects contents))).
End recent.

(** The calls that write, each awaited before the next is made. *)
Inductive call :=
  | GetNextId (counterName : string)
  | SaveProject (project : Project.t)
  | DeleteProject (id : Z)
  | SaveContent (c : Content.t)
  | DeleteContent (id : Z).

Definition exec (c : call) (s : db) : db :=
  match c with
  | GetNextId counterName => (transaction (getNextId counterName) no_fault s).2
  | SaveProject project => (transaction (saveProject project) no_fault s).2
  | DeleteProject id => (transaction (deleteProject id) no_fault s).2
  | SaveContent c => (transaction (saveContent c) no_fault s).2
  | DeleteContent id => (transaction (deleteContent id) no_fault s).2
  end.

Definition run (calls : list call) (s : db) : db :=
  foldl (λ s c, exec c s) s calls.

End DatabaseManager.

(** ** Calls of [getNextId] in flight together

    Each call creates a [readwrite] transaction on [counters], issues
    [store.get], and issues [store.put] from the handler of the read.
    IndexedDB starts a [readwrite] transaction only once no other
    transaction on the same store is running, and a transaction stays
    running while a handler of one of its requests issues a new
    request. [running] is the call whose transaction is running; a
    schedule names, step after step, the call whose next event fires,
    and the event of a call that cannot fire yet is no step at all. *)

Module Concurrent.

Inductive phase :=
  (** the transaction is created and has not started *)
  | Waiting
  (** the transaction has started, [store.get] is issued *)
  | Reading
  (** the handler of the read has run, [store.put(counter)] is issued *)
  | Writing (nextId : Z) (counter : Counter.t)
  (** the handler of the write has run: the promise is resolved *)
  | Done (nextId : Z).

Record t := mk {
  store : db;
  running : option nat;
  calls : list phase }.


Definition step (counterName : string) (i : nat) (σ : t) : t :=
  match calls σ !! i with
  | Some Waiting =>
      match running σ with
      | None => mk (store σ) (Some i) (<[i := Reading]> (calls σ))
      | Some _ => σ
      end
  | Some Reading =>
      let '(nextId, counter) :=
        DatabaseManager.nextCounter counterName
          (os_get counterName (IDB.counters (store σ))) in
      mk (store σ) (running σ) (<[i := Writing nextId counter]> (calls σ))
  | Some (Writing nextId counter) =>
      mk (IDB.set_counters (os_put counter) (store σ)) None
         (<[i := Done nextId]> (calls σ))
  | Some (Done _) | None => σ
  end.

Definition run (counterName : string) (schedule : list nat) (σ : t) : t :=
  foldl (λ σ i, step counterName i σ) σ schedule.

(** The value a call has resolved its promise with. *)
Definition result (ph : phase) : option Z :=
  match ph with
  | Done nextId => Some nextId
  | _ => None
  end.




End Concurrent.

(** ** [ProjectManager] and [FileHandler]

    The state is what the two objects keep between calls and what the
    user is shown by [Utils.showToast] and [alert]. What a call reads
    from the page (the value of an input, the answer to a [prompt]) and
    from the clock is an argument; [faults k] is the fault of the
    [k]-th database call it makes. The rendering that follows a write
    ([updateDisplay], [updateProjectDetail], [updateStatistics]) only
    reads the database and is left out, as are the flags of
    [editingFileInContent]. Every call catches what its database calls
    reject with, so its own promise is always resolved. *)

Inductive notice :=
  | Toast (msg : string)
  | Alert (msg : string).

Definition faults := nat → fault.
Definition no_faults : faults := λ _, no_fault.

Module ProjectManager.

Record t := mk {
  db : IDB.t;
  projects : list Project.t;
  currentProject : option Project.t;
  (** [this.fileHandler.currentFileContent] *)
  currentFileContent : option File.t;
  notices : list notice }.

Definition set_db (d : IDB.t) (st : t) : t :=
  mk d (projects st) (currentProject st) (currentFileContent st) (notices st).

(** [Utils.showToast(msg)] *)
Definition showToast (msg : string) (st : t) : t :=
  mk (db st) (projects st) (currentProject st) (currentFileContent st)
     (notices st ++ [Toast msg]).

(** [alert(msg)] *)
Definition alert (msg : string) (st : t) : t :=
  mk (db st) (projects st) (currentProject st) (currentFileContent st)
     (notices st ++ [Alert msg]).

(** The application once [init] has opened a fresh database. *)
Definition initial : t := mk DatabaseManager.init [] None None [].

(** [handleFileSelect] once the file has been read. *)
Definition selectFile (file : File.t) (st : t) : t :=
  mk (db st) (projects st) (currentProject st) (Some file) (notices st).

(** [fileHandler.clearFilePreview()] *)
Definition clearFilePreview (st : t) : t :=
  mk (db st) (projects st) (currentProject st) None (notices st).

Definition showMainView (st : t) : t :=
  mk (db st) (projects st) None None (notices st).

Definition createProject (value now : jsstring) (fl : faults) (st : t)
  : promise unit * t :=
  let projectName := JsString.trim value in
  if negb (JsString.truthy projectName) then (Resolved tt, st)
  else
    match transaction (DatabaseManager.getNextId "projectId") (fl 0%nat) (db st) with
    | (Resolved projectId, d) =>
        let newProject := Project.mk projectId projectName now in
        match transaction (DatabaseManager.saveProject newProject) (fl 1%nat) d with
        | (Resolved _, d') =>
            (Resolved tt,
             mk d' (projects st ++ [newProject]) (currentProject st)
                (currentFileContent st) (notices st))
        | (Rejected _, d') =>
            (Resolved tt,
             showToast "Failed to create project. Please try again." (set_db d' st))
        end
    | (Rejected _, d) =>
        (Resolved tt,
         showToast "Failed to create project. Please try again." (set_db d st))
    end.

Definition addContent (value now : jsstring) (fl : faults) (st : t)
  : promise unit * t :=
  match currentProject st with
  | None => (Resolved tt, st)
  | Some currentProject =>
      let contentText := JsString.trim value in
      let fileContent := currentFileContent st in
      if negb (JsString.truthy contentText) && negb (bool_decide (is_Some fileContent))
      then (Resolved tt, st)
      else
        match transaction (DatabaseManager.getNextId "contentId") (fl 0%nat) (db st) with
        | (Resolved contentId, d) =>
            let newContent :=
              Content.mk contentId (Project.id currentProject) contentText now
                (match fileContent with
                 | Some fileContent =>
                     Some (File.mk (File.name fileContent) (File.type fileContent)
                             (File.size fileContent) (File.content fileContent)
                             (File.extension fileContent)
                             (File.isImage fileContent || false))
                 | None => None
                 end)
                None in
            match transaction (DatabaseManager.saveContent newContent) (fl 1%nat) d with
            | (Resolved _, d') => (Resolved tt, clearFilePreview (set_db d' st))
            | (Rejected _, d') =>
                (Resolved tt, showToast "Failed to add idea. Please try again." (set_db d' st))
            end
        | (Rejected _, d) =>
            (Resolved tt, showToast "Failed to add idea. Please try again." (set_db d st))
        end
  end.

Definition openProject (projectId : Z) (fl : faults) (st : t) : promise unit * t :=
  match transaction (DatabaseManager.getProject projectId) (fl 0%nat) (db st) with
  | (Resolved None, _) => (Resolved tt, st)
  | (Resolved (Some project), d) =>
      (Resolved tt,
       mk d (projects st) (Some project) (currentFileContent st) (notices st))
  | (Rejected _, d) => (Resolved tt, showToast "Failed to open project." (set_db d st))
  end.

(** [localProject.name = name] on the first project of the list with
    the id. *)
Fixpoint renameLocal (projectId : Z) (name : jsstring) (l : list Project.t)
  : list Project.t :=
  match l with
  | [] => []
  | p :: l' =>
      if bool_decide (Project.id p = projectId)
      then Project.mk (Project.id p) name (Project.createdAt p) :: l'
      else p :: renameLocal projectId name l'
  end.

(** [answer] is what [prompt] returns: [None] when it is dismissed. *)
Definition editProject (projectId : Z) (answer : option jsstring)
    (fl : faults) (st : t) : promise unit * t :=
  match transaction (DatabaseManager.getProject projectId) (fl 0%nat) (db st) with
  | (Resolved None, _) => (Resolved tt, st)
  | (Resolved (Some project), d) =>
      match answer with
      | Some newName =>
          if JsString.truthy newName && JsString.truthy (JsString.trim newName) then
            let project :=
              Project.mk (Project.id project) (JsString.trim newName)
                         (Project.createdAt project) in
            match transaction (DatabaseManager.saveProject project) (fl 1%nat) d with
            | (Resolved _, d') =>
                (Resolved tt,
                 mk d' (renameLocal projectId (Project.name project) (projects st))
                    (match currentProject st with
                     | Some cur =>
                         if bool_decide (Project.id cur = projectId)
                         then Some (Project.mk (Project.id cur) (Project.name project)
                                               (Project.createdAt cur))
                         else Some cur
                     | None => None
                     end)
                    (currentFileContent st) (notices st))
            | (Rejected _, d') =>
                (Resolved tt, showToast "Failed to edit project." (set_db d' st))
            end
          else (Resolved tt, set_db d st)
      | None => (Resolved tt, set_db d st)
      end
  | (Rejected _, d) => (Resolved tt, showToast "Failed to edit project." (set_db d st))
  end.

(** [this.projects.splice(projectIndex, 1)] at the first project with
    the id. *)
Fixpoint removeLocal (projectId : Z) (l : list Project.t) : list Project.t :=
  match l with
  | [] => []
  | p :: l' =>
      if bool_decide (Project.id p = projectId) then l'
      else p :: removeLocal projectId l'
  end.

Definition deleteProject (projectId : Z) (fl : faults) (st : t) : promise unit * t :=
  let st :=
    match currentProject st with
    | Some cur => if bool_decide (Project.id cur = projectId) then showMainView st else st
    | None => st
    end in
  match transaction (DatabaseManager.deleteProject projectId) (fl 0%nat) (db st) with
  | (Resolved _, d) =>
      (Resolved tt,
       mk d (removeLocal projectId (projects st)) (currentProject st)
          (currentFileContent st) (notices st))
  | (Rejected _, d) => (Resolved tt, showToast "Failed to delete project." (set_db d st))
  end.

(** [projectContent.find(c => c.id === contentId)] *)
Definition findContent (contentId : Z) (projectContent : list Content.t)
  : option Content.t :=
  List.find (λ c, bool_decide (Content.id c = contentId)) projectContent.

(** [textarea] is the value of the item's text area, [None] when the
    item is not being edited. *)
Definition saveContentEdit (contentId : Z) (textarea : option jsstring)
    (now : jsstring) (fl : faults) (st : t) : promise unit * t :=
  match currentProject st with
  | None => (Resolved tt, st)
  | Some cur =>
      match transaction (DatabaseManager.getProjectContent (Project.id cur))
              (fl 0%nat) (db st) with
      | (Resolved projectContent, d) =>
          match findContent contentId projectContent, textarea with
          | None, _ => (Resolved tt, set_db d st)
          | Some _, None => (Resolved tt, set_db d st)
          | Some c, Some value =>
              let newText := JsString.trim value in
              if negb (JsString.truthy newText) && negb (bool_decide (is_Some (Content.file c)))
              then
                (Resolved tt,
                 alert "Content cannot be empty unless it has a file attachment!"
                       (set_db d st))
              else
                let c :=
                  Content.mk (Content.id c) (Content.projectId c) newText
                             (Content.createdAt c) (Content.file c) (Some now) in
                match transaction (DatabaseManager.saveContent c) (fl 1%nat) d with
                | (Resolved _, d') => (Resolved tt, set_db d' st)
                | (Rejected _, d') =>
                    (Resolved tt, showToast "Failed to save content." (set_db d' st))
                end
          end
      | (Rejected _, d) => (Resolved tt, showToast "Failed to save content." (set_db d st))
      end
  end.

Definition deleteContent (contentId : Z) (fl : faults) (st : t) : promise unit * t :=
  match currentProject st with
  | None => (Resolved tt, st)
  | Some _ =>
      match transaction (DatabaseManager.deleteContent contentId) (fl 0%nat) (db st) with
      | (Resolved _, d) => (Resolved tt, set_db d st)
      | (Rejected _, d) => (Resolved tt, showToast "Failed to delete content." (set_db d st))
      end
  end.

End ProjectManager.

Module FileHandler.
Import ProjectManager.

(** [textarea] is the value of the file editor of the item, [None]
    when there is none. With no project open the read of
    [currentProject.id] throws, which the [catch] reports. *)
Definition saveContentFileEdit (contentId : Z) (textarea : option jsstring)
    (now : jsstring) (fl : faults) (st : t) : promise unit * t :=
  match textarea with
  | None => (Resolved tt, st)
  | Some newFileContent =>
      match currentProject st with
      | None => (Resolved tt, showToast "Failed to save file content." st)
      | Some cur =>
          match transaction (DatabaseManager.getProjectContent (Project.id cur))
                  (fl 0%nat) (db st) with
          | (Resolved projectContent, d) =>
              match findContent contentId projectContent with
              | None => (Resolved tt, set_db d st)
              | Some c =>
                  match Content.file c with
                  | None => (Resolved tt, set_db d st)
                  | Some file =>
                      let file :=
                        File.mk (File.name file) (File.type file)
                                (JsString.blob_size newFileContent) newFileContent
                                (File.extension file) (File.isImage file) in
                      let c :=
                        Content.mk (Content.id c) (Content.projectId c) (Content.text c)
                                   (Content.createdAt c) (Some file) (Some now) in
                      match transaction (DatabaseManager.saveContent c) (fl 1%nat) d with
                      | (Resolved _, d') =>
                          (Resolved tt, showToast "File content saved!" (set_db d' st))
                      | (Rejected _, d') =>
                          (Resolved tt,
                           showToast "Failed to save file content." (set_db d' st))
                      end
                  end
              end
          | (Rejected _, d) =>
              (Resolved tt, showToast "Failed to save file content." (set_db d st))
          end
      end
  end.

End FileHandler.

(** ** What the user does *)

Module App.
Import ProjectManager.

Inductive action :=
  | CreateProject (value now : jsstring) (fl : faults)
  | SelectFile (file : File.t)
  | ClearFilePreview
  | OpenProject (projectId : Z) (fl : faults)
  | ShowMainView
  | AddContent (value now : jsstring) (fl : faults)
  | EditProject (projectId : Z) (answer : option jsstring) (fl : faults)
  | DeleteProject (projectId : Z) (fl : faults)
  | SaveContentEdit (contentId : Z) (textarea : option jsstring) (now : jsstring)
                    (fl : faults)
  | SaveContentFileEdit (contentId : Z) (textarea : option jsstring) (now : jsstring)
                        (fl : faults)
  | DeleteContent (contentId : Z) (fl : faults).

Definition step (a : action) (st : t) : t :=
  match a with
  | CreateProject value now fl => (createProject value now fl st).2
  | SelectFile file => selectFile file st
  | ClearFilePreview => clearFilePreview st
  | OpenProject projectId fl => (openProject projectId fl st).2
  | ShowMainView => showMainView st
  | AddContent value now fl => (addContent value now fl st).2
  | EditProject projectId answer fl => (editProject projectId answer fl st).2
  | DeleteProject projectId fl => (deleteProject projectId fl st).2
  | SaveContentEdit contentId textarea now fl =>
      (saveContentEdit contentId textarea now fl st).2
  | SaveContentFileEdit contentId textarea now fl =>
      (FileHandler.saveContentFileEdit contentId textarea now fl st).2
  | DeleteContent contentId fl => (deleteContent contentId fl st).2
  end.

Definition run (actions : list action) (st : t) : t :=
  foldl (λ st a, step a st) st actions.

End App.

(** ** Loading the projects and showing the statistics *)

Module ProjectManagerView.

(** [loadProjects]: [this.projects] becomes what the database lists, or
    the empty list, with a notice, when the database call fails. *)
Definition loadProjects (fl : faults) (st : ProjectManager.t)
  : promise unit * ProjectManager.t :=
  match transaction DatabaseManager.getAllProjects (fl 0%nat) (ProjectManager.db st) with
  | (Resolved projects, d) =>
      (Resolved tt,
       ProjectManager.mk d projects (ProjectManager.currentProject st)
         (ProjectManager.currentFileContent st) (ProjectManager.notices st))
  | (Rejected _, d) =>
      (Resolved tt,
       ProjectManager.showToast "Failed to load projects."
         (ProjectManager.mk d [] (ProjectManager.currentProject st)
            (ProjectManager.currentFileContent st) (ProjectManager.notices st)))
  end.

(** The application once [init] has opened the database [d] and loaded
    its projects. *)
Definition opened (fl : faults) (d : db) : ProjectManager.t :=
  (loadProjects fl (ProjectManager.mk d [] None None [])).2.

(** The text of a statistics element: a number, or ['?']. *)
Inductive shown :=
  | Number (n : Z)
  | QuestionMark.

Record statistics := mkStatistics {
  totalProjects : Z;
  totalIdeas : shown;
  recentActivity : shown }.

Section statistics.
Variable isoDaysAgo : Z → jsstring.

(** [updateStatistics]: what the three elements show afterwards. *)
Definition updateStatistics (fl : faults) (st : ProjectManager.t) : statistics :=
  let totalProjects := Z.of_nat (length (ProjectManager.projects st)) in
  match transaction DatabaseManager.getTotalIdeasCount (fl 0%nat) (ProjectManager.db st) with
  | (Resolved totalIdeas, d) =>
      match transaction (DatabaseManager.getRecentProjectsCount isoDaysAgo None)
              (fl 1%nat) d with
      | (Resolved recentActivity, _) =>
          mkStatistics totalProjects (Number totalIdeas) (Number recentActivity)
      | (Rejected _, _) => mkStatistics totalProjects QuestionMark QuestionMark
      end
  | (Rejected _, _) => mkStatistics totalProjects QuestionMark QuestionMark
  end.
End statistics.

(** The preview line of a project card, in [createProjectElement]. *)
Definition previewText (projectContent : list Content.t) : jsstring :=
  match last projectContent with
  | Some c =>
      if JsString.truthy (Content.text c) then Content.text c
      else
        match Content.file c with
        | Some file =>
            if File.isImage file then js "Image attachment" else js "File attachment"
        | None => js "Empty content"
        end
  | None => js "No ideas added yet..."
  end.

End ProjectManagerView.

(** ** [Utils.simpleHash] *)

Module Utils.

(** [ToInt32]: what [<<] and [&] do to their operands and result. *)
Definition toInt32 (z : Z) : Z := ((z + 2 ^ 31) mod 2 ^ 32 - 2 ^ 31)%Z.

(** [a << n] *)
Definition shl (a n : Z) : Z := toInt32 (Z.shiftl (toInt32 a) n).

(** [a & b] *)
Definition bitand (a b : Z) : Z := toInt32 (Z.land (toInt32 a) (toInt32 b)).

(** One turn of the loop, [char] being [content.charCodeAt(i)]. *)
Definition hashStep (hash : Z) (char : N) : Z :=
  let hash := (shl hash 5 - hash + Z.of_N char)%Z in
  bitand hash hash.

(** The digit [d] of [toString(16)]. *)
Definition hexDigit (d : N) : N := (if d <? 10 then 48 + d else 87 + d)%N.

Fixpoint hexDigits (fuel : nat) (n : N) (acc : jsstring) : jsstring :=
  match fuel with
  | O => acc
  | S fuel =>
      let acc := hexDigit (n mod 16) :: acc in
      if (n / 16 =? 0)%N then acc else hexDigits fuel (n / 16) acc
  end.

(** [n.toString(16)] for an integer [n >= 0]. *)
Definition toString16 (n : N) : jsstring := hexDigits (S (N.to_nat (N.log2 n))) n [].

Definition simpleHash (content : jsstring) : jsstring :=
  if bool_decide (length content = 0%nat) then js "0"
  else toString16 (Z.to_N (Z.abs (foldl hashStep 0%Z content))).

End Utils.

(** ** The file preview of [FileHandler]

    The file chosen for the next idea, as [FileHandler] keeps it until
    [addContent] takes it: the file as it is now, the file as it was
    read, and whether its text is being edited. What is drawn on the
    page is left out. *)

Module FilePreview.

Record t := mk {
  currentFileContent : option File.t;
  originalFileContent : option File.t;
  fileEditMode : bool;
  notices : list notice }.

(** The state the constructor leaves. *)
Definition initial : t := mk None None false [].

(** [s.startsWith(p)] *)
Fixpoint startsWith (p s : jsstring) : bool :=
  match p, s with
  | [], _ => true
  | _ :: _, [] => false
  | x :: p', y :: s' => (x =? y)%N && startsWith p' s'
  end.

(** [s.split(sep)] for a separator of one code unit. *)
Fixpoint split (sep : N) (s : jsstring) : list jsstring :=
  match s with
  | [] => [[]]
  | c :: r =>
      if (c =? sep)%N then [] :: split sep r
      else
        match split sep r with
        | piece :: pieces => (c :: piece) :: pieces
        | [] => [[c]]
        end
  end.

Definition clearFilePreview (st : t) : t := mk None None false (notices st).

(** [handleFileSelect] when no file has been chosen. *)
Definition noFileChosen (st : t) : t := clearFilePreview st.

(** The [onerror] handler of [handleFileSelect]. *)
Definition readFailed (st : t) : t :=
  clearFilePreview
    (mk (currentFileContent st) (originalFileContent st) (fileEditMode st)
        (notices st ++ [Toast "Error reading file. Please try again."])).

Definition toggleFileEdit (st : t) : t :=
  match currentFileContent st with
  | None => st
  | Some file =>
      if File.isImage file then st
      else mk (currentFileContent st) (originalFileContent st)
              (negb (fileEditMode st)) (notices st)
  end.

(** [editor] is the value of the element [fileContentEditor], [None]
    when there is no such element. *)
Definition saveFileEdit (editor : option jsstring) (st : t) : t :=
  match editor, currentFileContent st with
  | Some newContent, Some file =>
      mk (Some (File.mk (File.name file) (File.type file)
                  (JsString.blob_size newContent) newContent
                  (File.extension file) (File.isImage file)))
         (originalFileContent st) false
         (notices st ++ [Toast "File content updated!"])
  | _, _ => st
  end.

(** [None]: the call throws, [this.currentFileContent] being [null]
    when its [content] is assigned. *)
Definition resetFileContent (st : t) : option t :=
  match originalFileContent st with
  | None => Some st
  | Some original =>
      match currentFileContent st with
      | None => None
      | Some file =>
          Some (mk (Some (File.mk (File.name file) (File.type file)
                            (File.size original) (File.content original)
                            (File.extension file) (File.isImage file)))
                   (originalFileContent st) (fileEditMode st)
                   (notices st ++ [Toast "File content reset to original!"]))
      end
  end.

Definition cancelFileEdit (st : t) : t :=
  mk (currentFileContent st) (originalFileContent st) false (notices st).

Section lower_case.
(** [s.toLowerCase()] *)
Variable toLowerCase : jsstring → jsstring.

(** [name.split('.').pop()?.toLowerCase()]; [split] gives at least one
    piece. *)
Definition extensionOf (name : jsstring) : jsstring :=
  toLowerCase (default [] (last (split 0x2E name))).

(** The [onload] handler of [handleFileSelect], [result] being what the
    reader has read of a file with that name, type and size. *)
Definition fileLoaded (name type : jsstring) (size : Z) (result : jsstring)
    (st : t) : t :=
  let isImage := startsWith (js "image/") type in
  let extension := extensionOf name in
  let file :=
    if isImage then
      File.mk name type size result
              (if JsString.truthy extension then extension else js "img") true
    else
      File.mk name (if JsString.truthy type then type else js "text/plain") size result
              (if JsString.truthy extension then extension else js "txt") false in
  mk (Some file) (Some file) false (notices st).

Definition updateFileName (newName : jsstring) (st : t) : t :=
  match currentFileContent st with
  | None => st
  | Some file =>
      if negb (JsString.truthy (JsString.trim newName)) then st
      else
        let trimmedName := JsString.trim newName in
        let newExtension := extensionOf trimmedName in
        let extension :=
          if JsString.truthy newExtension
             && negb (bool_decide (newExtension = trimmedName))
          then newExtension else File.extension file in
        mk (Some (File.mk trimmedName (File.type file) (File.size file)
                    (File.content file) extension (File.isImage file)))
           (originalFileContent st) (fileEditMode st) (notices st)
  end.

(** What happens to the preview. *)
Inductive action :=
  | FileLoaded (name type : jsstring) (size : Z) (result : jsstring)
  | NoFileChosen
  | ReadFailed
  | ToggleFileEdit
  | SaveFileEdit (editor : option jsstring)
  | ResetFileContent
  | CancelFileEdit
  | UpdateFileName (newName : jsstring)
  | ClearFilePreview.

(** A call that throws leaves the state as it is. *)
Definition step (a : action) (st : t) : t :=
  match a with
  | FileLoaded name type size result => fileLoaded name type size result st
  | NoFileChosen => noFileChosen st
  | ReadFailed => readFailed st
  | ToggleFileEdit => toggleFileEdit st
  | SaveFileEdit editor => saveFileEdit editor st
  | ResetFileContent => default st (resetFileContent st)
  | CancelFileEdit => cancelFileEdit st
  | UpdateFileName newName => updateFileName newName st
  | ClearFilePreview => clearFilePreview st
  end.

Definition run (actions : list action) (st : t) : t :=
  foldl (λ st a, step a st) st actions.

(** The actions that work on the file that has been loaded. *)
Definition editing (a : action) : bool :=
  match a with
  | ToggleFileEdit | SaveFileEdit _ | ResetFileContent | CancelFileEdit
  | UpdateFileName _ => true
  | FileLoaded _ _ _ _ | NoFileChosen | ReadFailed | ClearFilePreview => false
  end.

End lower_case.

End FilePreview.

(** ** Facts about object stores *)

Section object_store_facts.
Context {K : Type} `{Countable K} {R : Type} `{!KeyPath K R}.

Lemma os_wf_empty : os_wf (∅ : gmap K R).
Proof. intros k r. by rewrite lookup_empty. Qed.

Lemma os_wf_put (r : R) (m : gmap K R) : os_wf m → os_wf (os_put r m).
Proof.
  intros Hm k r'. unfold os_put. rewrite lookup_insert.
  case_decide; [naive_solver | apply Hm].
Qed.

Lemma os_wf_delete (k : K) (m : gmap K R) : os_wf m → os_wf (os_delete k m).
Proof.
  intros Hm k' r. unfold os_delete. rewrite lookup_delete.
  case_decide; [done | apply Hm].
Qed.

Lemma os_get_put (r : R) (m : gmap K R) : os_get (key_path r) (os_put r m) = Some r.
Proof. apply lookup_insert_eq. Qed.

Lemma os_get_put_ne (k : K) (r : R) (m : gmap K R) : key_path r ≠ k → os_get k (os_put r m) = os_get k m.
Proof. intros. by apply lookup_insert_ne. Qed.

Lemma elem_of_index_getAllKeys (f : R → Z) v (m : gmap K R) k :
  k ∈ index_getAllKeys f v m ↔ ∃ r, m !! k = Some r ∧ f r = v.
Proof.
  unfold index_getAllKeys. rewrite list_elem_of_fmap. split.
  - intros [[k' r] [-> [Hf Hin]%list_elem_of_filter]].
    exists r. by apply elem_of_map_to_list in Hin.
  - intros (r & Hk & Hf). exists (k, r). split; [done |].
    apply list_elem_of_filter. split; [done | by apply elem_of_map_to_list].
Qed.

Lemma elem_of_index_getAll (f : R → Z) v (m : gmap K R) r :
  r ∈ index_getAll f v m ↔ ∃ k, m !! k = Some r ∧ f r = v.
Proof.
  unfold index_getAll. rewrite list_elem_of_fmap. split.
  - intros [[k r'] [-> [Hf Hin]%list_elem_of_filter]].
    exists k. by apply elem_of_map_to_list in Hin.
  - intros (k & Hk & Hf). exists (k, r). split; [done |].
    apply list_elem_of_filter. split; [done | by apply elem_of_map_to_list].
Qed.

Lemma elem_of_os_getAll (m : gmap K R) r : r ∈ os_getAll m ↔ ∃ k, m !! k = Some r.
Proof.
  unfold os_getAll. rewrite list_elem_of_fmap. split.
  - intros [[k r'] [-> Hin]]. exists k. by apply elem_of_map_to_list in Hin.
  - intros [k Hk]. exists (k, r). split; [done | by apply elem_of_map_to_list].
Qed.

(** Deleting the keys of a list one after the other. *)
Lemma lookup_foldl_delete (ks : list K) (m : gmap K R) k :
  foldl (λ acc k', os_delete k' acc) m ks !! k
  = if decide (k ∈ ks) then None else m !! k.
Proof.
  revert m. induction ks as [| k0 ks IH]; intros m; simpl.
  - destruct (decide (k ∈ [])) as [Hin | _]; [by apply not_elem_of_nil in Hin | done].
  - rewrite IH. unfold os_delete.
    destruct (decide (k ∈ ks)) as [Hin | Hin].
    + rewrite decide_True; [done | by right].
    + destruct (decide (k0 = k)) as [-> | Hne].
      * rewrite lookup_delete_eq, decide_True; [done | by left].
      * rewrite lookup_delete_ne, decide_False; [done | | done].
        by intros [-> | ?]%elem_of_cons.
Qed.

End object_store_facts.

(** ** The order on strings *)

Module JsStringFacts.
Import JsString.

Lemma ltb_irrefl a : ltb a a = false.
Proof.
  induction a as [| x a IH]; [done |]. simpl.
  by rewrite N.ltb_irrefl, N.eqb_refl.
Qed.

Lemma leb_refl a : leb a a = true.
Proof. unfold leb. by rewrite ltb_irrefl. Qed.


Lemma ltb_false_trans c b a :
  ltb b a = false → ltb c b = false → ltb c a = false.
Proof.
  revert b a. induction c as [| x c IH]; intros [| y b] [| z a]; simpl; try done.
  destruct (N.ltb_spec y z), (N.eqb_spec y z), (N.ltb_spec x y),
    (N.eqb_spec x y), (N.ltb_spec x z), (N.eqb_spec x z);
    try done; try lia; eauto.
Qed.

Lemma leb_trans a b c : leb a b = true → leb b c = true → leb a c = true.
Proof.
  unfold leb. rewrite !negb_true_iff. intros Hab Hbc.
  by apply (ltb_false_trans c b a).
Qed.

End JsStringFacts.

(** ** Running transactions *)

Ltac unfold_txn :=
  unfold transaction, mbind, txn_bind, mret, txn_ret, read, write, no_fault.

(** Settles a decidable statement about concrete data by evaluation. *)
Ltac by_computation := apply (bool_decide_unpack _); vm_compute; exact I.

Lemma set_content_id s : IDB.set_content (λ m, m) s = s.
Proof. by destruct s. Qed.

(** The loop of [deleteProject]: without a fault it deletes every key. *)
Lemma forEach_delete_ok (ks : list Z) n s :
  forEach ks (λ contentId, write (IDB.set_content (os_delete contentId))) no_fault n s
  = Some (tt, (n + length ks)%nat,
          IDB.set_content (λ m, foldl (λ acc k, os_delete k acc) m ks) s).
Proof.
  revert n s. induction ks as [| k ks IH]; intros n s; simpl.
  - unfold_txn. rewrite set_content_id. do 3 f_equal. lia.
  - unfold mbind, txn_bind at 1. unfold write at 1, no_fault at 1.
    rewrite IH. do 3 f_equal. lia.
Qed.

(** With faults it either aborts or does the same as without. *)
Lemma forEach_delete_fault (ks : list Z) f n s :
  forEach ks (λ contentId, write (IDB.set_content (os_delete contentId))) f n s = None
  ∨ forEach ks (λ contentId, write (IDB.set_content (os_delete contentId))) f n s
    = forEach ks (λ contentId, write (IDB.set_content (os_delete contentId))) no_fault n s.
Proof.
  revert n s. induction ks as [| k ks IH]; intros n s; simpl.
  - by right.
  - unfold mbind, txn_bind, write at 1 3, no_fault at 2.
    destruct (f n); [by left | apply IH].
Qed.

Module DatabaseManagerFacts.
Import DatabaseManager.

(** The value [getNextId] reads: the stored one, or [1] when the
    counter has no row. *)
Definition currentValue (counterName : string) (s : db) : Z :=
  default 1%Z (Counter.value <$> IDB.counters s !! counterName).


Lemma getNextId_ok counterName s :
  os_wf (IDB.counters s) →
  transaction (getNextId counterName) no_fault s
  = (Resolved (currentValue counterName s),
     IDB.set_counters
       (<[counterName := Counter.mk counterName (currentValue counterName s + 1)]>) s).
Proof.
  intros Hwf. unfold getNextId, nextCounter, currentValue, os_get. unfold_txn.
  destruct (IDB.counters s !! counterName) as [c |] eqn:Hc; simpl.
  - apply Hwf in Hc. unfold key_path, counter_keyPath in Hc.
    unfold os_put, key_path, counter_keyPath. simpl. by rewrite Hc.
  - done.
Qed.

Lemma getNextId_atomic counterName f s :
  transaction (getNextId counterName) f s
  = transaction (getNextId counterName) no_fault s
  ∨ transaction (getNextId counterName) f s = (Rejected RequestError, s).
Proof.
  unfold getNextId, nextCounter. unfold_txn.
  destruct (f 0%nat); [by right |].
  destruct (f 1%nat); [by right | by left].
Qed.

Lemma os_wf_counters_next counterName v s :
  os_wf (IDB.counters s) →
  os_wf (IDB.counters (IDB.set_counters (<[counterName := Counter.mk counterName v]>) s)).
Proof. intros Hwf. exact (os_wf_put (Counter.mk counterName v) _ Hwf). Qed.




Lemma init_wf : os_wf (IDB.counters init).
Proof. unfold init. simpl. apply os_wf_put, os_wf_put, os_wf_empty. Qed.


(** *** Deleting content *)

Lemma deleteContent_fault id f s :
  transaction (deleteContent id) f s
  = (if f 0%nat then (Rejected RequestError, s)
     else (Resolved true, IDB.set_content (os_delete id) s)).
Proof. unfold deleteContent. unfold_txn. by destruct (f 0%nat). Qed.

Lemma set_content_delete_absent id s :
  IDB.content s !! id = None → IDB.set_content (os_delete id) s = s.
Proof.
  intros Hid. destruct s as [ps cs ns]. unfold IDB.set_content, os_delete. simpl in *.
  by rewrite delete_id.
Qed.

(** Once an id has been deleted it is absent, whatever was there. *)
Lemma deleteContent_gone id s :
  IDB.content (transaction (deleteContent id) no_fault s).2 !! id = None.
Proof. rewrite deleteContent_fault. simpl. apply lookup_delete_eq. Qed.

(** C8. Deleting a content id that is not in the store resolves with
    [true] and leaves the database as it is, and whatever request
    fails it neither changes the database nor is rejected with
    [NotFoundError]; in particular a second delete of an id, present or
    not before the first, resolves with [true] and changes nothing. *)
Theorem deleteContent_absent (id : Z) (s : db) :
  (IDB.content s !! id = None →
   transaction (deleteContent id) no_fault s = (Resolved true, s)
   ∧ ∀ f, (transaction (deleteContent id) f s).2 = s
          ∧ (transaction (deleteContent id) f s).1 ≠ Rejected NotFoundError)
  ∧ (let s1 := (transaction (deleteContent id) no_fault s).2 in
     transaction (deleteContent id) no_fault s1 = (Resolved true, s1)).
Proof.
  assert (Habsent : ∀ s', IDB.content s' !! id = None →
                          transaction (deleteContent id) no_fault s' = (Resolved true, s')).
  { intros s' Hid. rewrite deleteContent_fault. simpl.
    by rewrite set_content_delete_absent. }
  split.
  - intros Hid. split; [by apply Habsent |].
    intros f. rewrite deleteContent_fault. destruct (f 0%nat); simpl; [done |].
    by rewrite set_content_delete_absent.
  - apply Habsent, deleteContent_gone.
Qed.

Definition content7 : Content.t :=
  Content.mk 7 1 (js "idea") (js "2024-05-01T10:00:00.000Z") None None.

Lemma deleteContent_absent_witness :
  IDB.content init !! 7%Z = None
  ∧ transaction (deleteContent 7) no_fault init = (Resolved true, init)
  ∧ (let s1 := (transaction (deleteContent 7) no_fault
                  (IDB.set_content (os_put content7) init)).2 in
     transaction (deleteContent 7) no_fault s1 = (Resolved true, s1)).
Proof.
  assert (Habsent : IDB.content init !! 7%Z = None) by reflexivity.
  split; [exact Habsent |]. split.
  - exact (proj1 (proj1 (deleteContent_absent 7 init) Habsent)).
  - exact (proj2 (deleteContent_absent 7 (IDB.set_content (os_put content7) init))).
Defined.

(** *** Cascade delete *)

(** The database after [deleteProject(id)] has gone through. *)
Definition cascade (id : Z) (s : db) : db :=
  IDB.set_content
    (λ m, foldl (λ acc k, os_delete k acc) m
            (index_getAllKeys Content.projectId id (IDB.content s)))
    (IDB.set_projects (os_delete id) s).

Lemma deleteProject_fault id f s :
  deleteProject id f 0%nat s = None
  ∨ ∃ n, deleteProject id f 0%nat s = Some (true, n, cascade id s).
Proof.
  unfold deleteProject, mbind, txn_bind.
  set (body := λ contentId : Z, write (IDB.set_content (os_delete contentId))).
  unfold write, read, mret, txn_ret.
  destruct (f 0%nat); [by left |].
  destruct (f 1%nat); [by left |].
  subst body. simpl.
  match goal with
  | |- context [forEach ?ks ?b f ?n ?s1] =>
      destruct (forEach_delete_fault ks f n s1) as [-> | ->]
  end; [by left |].
  right. rewrite forEach_delete_ok. by eexists.
Qed.

Lemma deleteProject_ok id s :
  transaction (deleteProject id) no_fault s = (Resolved true, cascade id s).
Proof.
  unfold deleteProject, transaction, mbind, txn_bind.
  set (body := λ contentId : Z, write (IDB.set_content (os_delete contentId))).
  unfold write, read, mret, txn_ret, no_fault at 1 2.
  subst body. simpl. by rewrite forEach_delete_ok.
Qed.

Lemma deleteProject_atomic id f s :
  transaction (deleteProject id) f s = (Resolved true, cascade id s)
  ∨ transaction (deleteProject id) f s = (Rejected RequestError, s).
Proof.
  unfold transaction.
  destruct (deleteProject_fault id f s) as [-> | [n ->]]; [by right | by left].
Qed.

Lemma lookup_content_cascade id s k :
  IDB.content (cascade id s) !! k
  = match IDB.content s !! k with
    | Some c => if decide (Content.projectId c = id) then None else Some c
    | None => None
    end.
Proof.
  unfold cascade. simpl. rewrite lookup_foldl_delete.
  destruct (decide (k ∈ _)) as [Hin | Hin].
  - apply elem_of_index_getAllKeys in Hin as (c & -> & Hc).
    by rewrite decide_True.
  - destruct (IDB.content s !! k) as [c |] eqn:Hk; [| done].
    rewrite decide_False; [done |].
    intros Hc. apply Hin, elem_of_index_getAllKeys. eauto.
Qed.

Lemma index_getAll_cascade id s :
  index_getAll Content.projectId id (IDB.content (cascade id s)) = [].
Proof.
  apply elem_of_nil_inv. intros c [k [Hk Hc]]%elem_of_index_getAll.
  rewrite lookup_content_cascade in Hk.
  destruct (IDB.content s !! k) as [c' |]; [| done].
  case_decide; naive_solver.
Qed.

(** C2. [deleteProject(id)] resolves, and afterwards the project [id]
    is absent, no content record has [projectId = id] (the listing for
    [id] is empty), every other project record and every content
    record of another project is as before, no record appears, and the
    counters are untouched; under any failure of a request the
    database is either that one or the one before the call. *)
Theorem deleteProject_cascade (id : Z) (s : db) :
  ∃ s',
    transaction (deleteProject id) no_fault s = (Resolved true, s')
    ∧ transaction (getProject id) no_fault s' = (Resolved None, s')
    ∧ (∀ k c, IDB.content s' !! k = Some c → Content.projectId c ≠ id)
    ∧ transaction (getProjectContent id) no_fault s' = (Resolved [], s')
    ∧ (∀ k, k ≠ id → IDB.projects s' !! k = IDB.projects s !! k)
    ∧ (∀ k c, IDB.content s !! k = Some c → Content.projectId c ≠ id →
              IDB.content s' !! k = Some c)
    ∧ (∀ k c, IDB.content s' !! k = Some c → IDB.content s !! k = Some c)
    ∧ IDB.counters s' = IDB.counters s
    ∧ ∀ f, transaction (deleteProject id) f s = (Resolved true, s')
           ∨ transaction (deleteProject id) f s = (Rejected RequestError, s).
Proof.
  exists (cascade id s). split; [apply deleteProject_ok |].
  split.
  { unfold getProject. unfold_txn. unfold os_get, cascade. simpl.
    unfold os_delete. by rewrite lookup_delete_eq. }
  split.
  { intros k c. rewrite lookup_content_cascade.
    destruct (IDB.content s !! k); [| done]. case_decide; naive_solver. }
  split.
  { unfold getProjectContent. unfold_txn. by rewrite index_getAll_cascade. }
  split.
  { intros k Hk. unfold cascade, os_delete. simpl. by rewrite lookup_delete_ne. }
  split.
  { intros k c Hk Hc. rewrite lookup_content_cascade, Hk. by rewrite decide_False. }
  split.
  { intros k c. rewrite lookup_content_cascade.
    destruct (IDB.content s !! k); [| done]. case_decide; naive_solver. }
  split; [done |].
  intros f. apply deleteProject_atomic.
Qed.

(** Two projects: the first owns two ideas, the second owns one. *)
Definition first : Project.t :=
  Project.mk 1 (js "First") (js "2024-05-01T10:00:00.000Z").
Definition second : Project.t :=
  Project.mk 2 (js "Second") (js "2024-05-01T11:00:00.000Z").
Definition idea (id projectId : Z) : Content.t :=
  Content.mk id projectId (js "idea")
             (js "2024-05-02T10:00:00.000Z") None None.

Definition twoProjects : db :=
  run [SaveProject first; SaveProject second;
       SaveContent (idea 1 1); SaveContent (idea 2 1); SaveContent (idea 3 2)] init.

Lemma deleteProject_cascade_witness :
  ∃ s',
    transaction (deleteProject 1) no_fault twoProjects = (Resolved true, s')
    ∧ IDB.projects s' !! 2%Z = Some second
    ∧ IDB.content s' !! 3%Z = Some (idea 3 2)
    ∧ transaction (getProjectContent 1) no_fault s' = (Resolved [], s').
Proof.
  destruct (deleteProject_cascade 1 twoProjects)
    as (s' & H1 & _ & _ & H4 & H5 & H6 & _).
  exists s'. split; [exact H1 |]. split; [| split; [| exact H4]].
  - rewrite (H5 2%Z) by discriminate. reflexivity.
  - apply (H6 3%Z); [reflexivity | discriminate].
Defined.

(** *** Recent activity *)

Lemma elem_of_foldl_addRecentProject w (ps : list Project.t) (acc : gset Z) v :
  v ∈ foldl (addRecentProject w) acc ps
  ↔ v ∈ acc ∨ ∃ p, p ∈ ps ∧ JsString.gtb (Project.createdAt p) w = true
                   ∧ Project.id p = v.
Proof.
  revert acc. induction ps as [| p ps IH]; intros acc; simpl.
  - split; [by left |]. intros [? | (p & Hp & _)]; [done |].
    by apply not_elem_of_nil in Hp.
  - rewrite IH. unfold addRecentProject.
    destruct (JsString.gtb (Project.createdAt p) w) eqn:Hw.
    + rewrite elem_of_union, elem_of_singleton. split.
      * intros [[? | ->] | (q & Hq & ? & ?)]; [by left | |].
        -- right. exists p. split; [left |]; done.
        -- right. exists q. split; [by right | done].
      * intros [? | (q & [-> | Hq]%elem_of_cons & ? & ?)].
        -- by left; left.
        -- left; right. done.
        -- right. eauto.
    + split.
      * intros [? | (q & Hq & ? & ?)]; [by left |].
        right. exists q. split; [by right | done].
      * intros [? | (q & [-> | Hq]%elem_of_cons & ? & ?)];
          [by left | congruence | right; eauto].
Qed.

Lemma elem_of_foldl_addRecentContent w (cs : list Content.t) (acc : gset Z) v :
  v ∈ foldl (addRecentContent w) acc cs
  ↔ v ∈ acc ∨ ∃ c, c ∈ cs ∧ JsString.gtb (Content.createdAt c) w = true
                   ∧ Content.projectId c = v.
Proof.
  revert acc. induction cs as [| c cs IH]; intros acc; simpl.
  - split; [by left |]. intros [? | (c & Hc & _)]; [done |].
    by apply not_elem_of_nil in Hc.
  - rewrite IH. unfold addRecentContent.
    destruct (JsString.gtb (Content.createdAt c) w) eqn:Hw.
    + rewrite elem_of_union, elem_of_singleton. split.
      * intros [[? | ->] | (q & Hq & ? & ?)]; [by left | |].
        -- right. exists c. split; [left |]; done.
        -- right. exists q. split; [by right | done].
      * intros [? | (q & [-> | Hq]%elem_of_cons & ? & ?)].
        -- by left; left.
        -- left; right. done.
        -- right. eauto.
    + split.
      * intros [? | (q & Hq & ? & ?)]; [by left |].
        right. exists q. split; [by right | done].
      * intros [? | (q & [-> | Hq]%elem_of_cons & ? & ?)];
          [by left | congruence | right; eauto].
Qed.

(** What [recentProjectIds] holds for a database. *)
Lemma elem_of_recentProjectIds w s v :
  v ∈ recentProjectIds w (os_getAll (IDB.projects s)) (os_getAll (IDB.content s))
  ↔ (∃ k p, IDB.projects s !! k = Some p
            ∧ JsString.gtb (Project.createdAt p) w = true ∧ Project.id p = v)
    ∨ (∃ k c, IDB.content s !! k = Some c
              ∧ JsString.gtb (Content.createdAt c) w = true
              ∧ Content.projectId c = v).
Proof.
  unfold recentProjectIds.
  rewrite elem_of_foldl_addRecentContent, elem_of_foldl_addRecentProject.
  split.
  - intros [[Hv | (p & [k Hk]%elem_of_os_getAll & ? & ?)]
           | (c & [k Hk]%elem_of_os_getAll & ? & ?)].
    + by apply not_elem_of_empty in Hv.
    + left. eauto.
    + right. eauto.
  - intros [(k & p & Hk & ? & ?) | (k & c & Hk & ? & ?)].
    + left; right. exists p. split; [apply elem_of_os_getAll; eauto | done].
    + right. exists c. split; [apply elem_of_os_getAll; eauto | done].
Qed.


Section recent_activity.
Variable isoDaysAgo : Z → jsstring.
(** The time of the call, as [new Date().toISOString()] gives it. *)
Variable nowISO : jsstring.



(** No record is stamped later than now: what a clock that never
    goes back gives. *)
Definition no_future (s : db) : Prop :=
  map_Forall (λ _ p, JsString.leb (Project.createdAt p) nowISO = true)
             (IDB.projects s)
  ∧ map_Forall (λ _ c, JsString.leb (Content.createdAt c) nowISO = true)
               (IDB.content s).






End recent_activity.






End DatabaseManagerFacts.

(** ** Facts about [ProjectManager] and [FileHandler] *)

Module ProjectManagerFacts.
Import DatabaseManagerFacts.

Lemma trim_nil : JsString.trim [] = [].
Proof. done. Qed.

Lemma truthy_trim s : JsString.truthy (JsString.trim s) = true → JsString.truthy s = true.
Proof. by destruct s. Qed.

Lemma not_truthy s : JsString.truthy s = false ↔ s = [].
Proof. by destruct s. Qed.

(** *** The database calls, with faults *)

Lemma getProject_fault id f s :
  transaction (DatabaseManager.getProject id) f s
  = (if f 0%nat then Rejected RequestError else Resolved (IDB.projects s !! id), s).
Proof. unfold DatabaseManager.getProject. unfold_txn. by destruct (f 0%nat). Qed.

Lemma getProjectContent_fault id f s :
  transaction (DatabaseManager.getProjectContent id) f s
  = (if f 0%nat then Rejected RequestError
     else Resolved (index_getAll Content.projectId id (IDB.content s)), s).
Proof. unfold DatabaseManager.getProjectContent. unfold_txn. by destruct (f 0%nat). Qed.

Lemma saveProject_fault project f s :
  transaction (DatabaseManager.saveProject project) f s
  = (if f 0%nat then (Rejected RequestError, s)
     else (Resolved project, IDB.set_projects (os_put project) s)).
Proof. unfold DatabaseManager.saveProject. unfold_txn. by destruct (f 0%nat). Qed.

Lemma saveContent_fault c f s :
  transaction (DatabaseManager.saveContent c) f s
  = (if f 0%nat then (Rejected RequestError, s)
     else (Resolved c, IDB.set_content (os_put c) s)).
Proof. unfold DatabaseManager.saveContent. unfold_txn. by destruct (f 0%nat). Qed.

(** [getNextId] only ever touches the counters. *)
Lemma getNextId_frame counterName f s :
  IDB.projects (transaction (DatabaseManager.getNextId counterName) f s).2
  = IDB.projects s
  ∧ IDB.content (transaction (DatabaseManager.getNextId counterName) f s).2
    = IDB.content s.
Proof.
  unfold DatabaseManager.getNextId, DatabaseManager.nextCounter. unfold_txn.
  destruct (f 0%nat); [done |]. by destruct (f 1%nat).
Qed.

Lemma getNextId_wf counterName f s :
  os_wf (IDB.counters s) →
  os_wf (IDB.counters (transaction (DatabaseManager.getNextId counterName) f s).2).
Proof.
  intros Hwf. destruct (getNextId_atomic counterName f s) as [-> | ->]; [| done].
  rewrite getNextId_ok by done. by apply os_wf_counters_next.
Qed.

Lemma deleteProject_content_sub id f s k c :
  IDB.content (transaction (DatabaseManager.deleteProject id) f s).2 !! k = Some c →
  IDB.content s !! k = Some c.
Proof.
  destruct (deleteProject_atomic id f s) as [-> | ->]; [| done]. cbn [snd].
  rewrite lookup_content_cascade. destruct (IDB.content s !! k); [| done].
  by case_decide.
Qed.

(** *** The content invariant *)

(** Every content record has a non-empty text or a file. *)
Definition content_ok (d : db) : Prop :=
  map_Forall (λ _ c, JsString.truthy (Content.text c) = true ∨ is_Some (Content.file c))
             (IDB.content d).

Lemma content_ok_sub d d' :
  (∀ k c, IDB.content d' !! k = Some c → IDB.content d !! k = Some c) →
  content_ok d → content_ok d'.
Proof. intros Hsub Hd k c Hk. apply (Hd k), Hsub, Hk. Qed.

Lemma content_ok_eq d d' :
  IDB.content d' = IDB.content d → content_ok d → content_ok d'.
Proof. intros Heq. apply content_ok_sub. by rewrite Heq. Qed.

Lemma content_ok_put c d :
  JsString.truthy (Content.text c) = true ∨ is_Some (Content.file c) →
  content_ok d → content_ok (IDB.set_content (os_put c) d).
Proof. intros Hc Hd. by apply map_Forall_insert_2. Qed.

Lemma content_ok_getNextId counterName f d :
  content_ok d →
  content_ok (transaction (DatabaseManager.getNextId counterName) f d).2.
Proof. apply content_ok_eq, getNextId_frame. Qed.

Lemma content_ok_init : content_ok DatabaseManager.init.
Proof. apply map_Forall_empty. Qed.

(** A record found in a listing of the store is a record of the store. *)
Lemma findContent_stored contentId projectId d c :
  ProjectManager.findContent contentId
    (index_getAll Content.projectId projectId (IDB.content d)) = Some c →
  ∃ k, IDB.content d !! k = Some c.
Proof.
  intros [Hin _]%find_some. apply list_elem_of_In, elem_of_index_getAll in Hin.
  destruct Hin as (k & Hk & _). eauto.
Qed.

Lemma createProject_content_ok value now fl st :
  content_ok (ProjectManager.db st) →
  content_ok (ProjectManager.db (ProjectManager.createProject value now fl st).2).
Proof.
  intros Hok. unfold ProjectManager.createProject.
  destruct (negb _); [done |].
  pose proof (content_ok_getNextId "projectId" (fl 0%nat) _ Hok) as H1.
  destruct (transaction (DatabaseManager.getNextId _) _ _) as [[projectId | e] d];
    [| done].
  rewrite saveProject_fault. by destruct (fl 1%nat 0%nat).
Qed.

Lemma addContent_content_ok value now fl st :
  content_ok (ProjectManager.db st) →
  content_ok (ProjectManager.db (ProjectManager.addContent value now fl st).2).
Proof.
  intros Hok. unfold ProjectManager.addContent.
  destruct (ProjectManager.currentProject st) as [cur |]; [| done].
  destruct (negb (JsString.truthy _) && _) eqn:Hguard; [done |].
  pose proof (content_ok_getNextId "contentId" (fl 0%nat) _ Hok) as H1.
  destruct (transaction (DatabaseManager.getNextId _) _ _) as [[contentId | e] d];
    [| done].
  rewrite saveContent_fault. destruct (fl 1%nat 0%nat); [done |].
  simpl in *. apply content_ok_put; [| done]. simpl.
  destruct (JsString.truthy (JsString.trim value)); [by left |].
  destruct (ProjectManager.currentFileContent st); [by right |].
  by rewrite bool_decide_eq_false_2 in Hguard by (by intros [? ?]).
Qed.

Lemma saveContentEdit_content_ok contentId textarea now fl st :
  content_ok (ProjectManager.db st) →
  content_ok
    (ProjectManager.db (ProjectManager.saveContentEdit contentId textarea now fl st).2).
Proof.
  intros Hok. unfold ProjectManager.saveContentEdit.
  destruct (ProjectManager.currentProject st) as [cur |]; [| done].
  rewrite getProjectContent_fault. destruct (fl 0%nat 0%nat); [done |].
  destruct (ProjectManager.findContent _ _) as [c |]; [| done].
  destruct textarea as [value |]; [| done].
  destruct (negb (JsString.truthy _) && _) eqn:Hguard; [done |].
  rewrite saveContent_fault. destruct (fl 1%nat 0%nat); [done |].
  simpl in *. apply content_ok_put; [| done]. simpl.
  destruct (JsString.truthy (JsString.trim value)); [by left |].
  right. simpl in Hguard. apply negb_false_iff in Hguard.
  by apply bool_decide_eq_true in Hguard.
Qed.

Lemma saveContentFileEdit_content_ok contentId textarea now fl st :
  content_ok (ProjectManager.db st) →
  content_ok
    (ProjectManager.db (FileHandler.saveContentFileEdit contentId textarea now fl st).2).
Proof.
  intros Hok. unfold FileHandler.saveContentFileEdit.
  destruct textarea as [newFileContent |]; [| done].
  destruct (ProjectManager.currentProject st) as [cur |]; [| done].
  rewrite getProjectContent_fault. destruct (fl 0%nat 0%nat); [done |].
  destruct (ProjectManager.findContent _ _) as [c |]; [| done].
  destruct (Content.file c) as [file |]; [| done].
  rewrite saveContent_fault. destruct (fl 1%nat 0%nat); [done |].
  simpl. apply content_ok_put; [| done]. by right.
Qed.

Lemma editProject_content_ok projectId answer fl st :
  content_ok (ProjectManager.db st) →
  content_ok (ProjectManager.db (ProjectManager.editProject projectId answer fl st).2).
Proof.
  intros Hok. unfold ProjectManager.editProject.
  rewrite getProject_fault. destruct (fl 0%nat 0%nat); [done |].
  destruct (IDB.projects _ !! projectId) as [project |]; [| done].
  destruct answer as [newName |]; [| done].
  destruct (JsString.truthy newName && _); [| done].
  rewrite saveProject_fault. by destruct (fl 1%nat 0%nat).
Qed.

Lemma deleteProject_content_ok projectId fl st :
  content_ok (ProjectManager.db st) →
  content_ok (ProjectManager.db (ProjectManager.deleteProject projectId fl st).2).
Proof.
  intros Hok. unfold ProjectManager.deleteProject.
  set (st1 := match ProjectManager.currentProject st with
              | Some cur => _ | None => _ end).
  assert (Hst1 : ProjectManager.db st1 = ProjectManager.db st).
  { subst st1. destruct (ProjectManager.currentProject st); [| done].
    by case_bool_decide. }
  assert (Hok1 : content_ok
                   (transaction (DatabaseManager.deleteProject projectId) (fl 0%nat)
                      (ProjectManager.db st1)).2).
  { rewrite Hst1. eapply content_ok_sub; [| done].
    intros k c. apply deleteProject_content_sub. }
  by destruct (transaction (DatabaseManager.deleteProject _) _ _) as [[r | e] d].
Qed.

Lemma deleteContent_content_ok contentId fl st :
  content_ok (ProjectManager.db st) →
  content_ok (ProjectManager.db (ProjectManager.deleteContent contentId fl st).2).
Proof.
  intros Hok. unfold ProjectManager.deleteContent.
  destruct (ProjectManager.currentProject st); [| done].
  rewrite deleteContent_fault. destruct (fl 0%nat 0%nat); [done |].
  simpl. by apply map_Forall_delete.
Qed.

Lemma openProject_db projectId fl st :
  ProjectManager.db (ProjectManager.openProject projectId fl st).2 = ProjectManager.db st.
Proof.
  unfold ProjectManager.openProject. rewrite getProject_fault.
  destruct (fl 0%nat 0%nat); [done |].
  by destruct (IDB.projects _ !! projectId).
Qed.

Lemma step_content_ok a st :
  content_ok (ProjectManager.db st) → content_ok (ProjectManager.db (App.step a st)).
Proof.
  destruct a; simpl; try done.
  - apply createProject_content_ok.
  - by rewrite openProject_db.
  - apply addContent_content_ok.
  - apply editProject_content_ok.
  - apply deleteProject_content_ok.
  - apply saveContentEdit_content_ok.
  - apply saveContentFileEdit_content_ok.
  - apply deleteContent_content_ok.
Qed.

Lemma run_content_ok actions st :
  content_ok (ProjectManager.db st) →
  content_ok (ProjectManager.db (App.run actions st)).
Proof.
  revert st. induction actions as [| a actions IH]; intros st Hok; [done |].
  apply IH. by apply step_content_ok.
Qed.

(** C5. Adding content, saving a text edit and saving a file edit each
    leave a database in which every content record has a non-empty text
    or a file, when they start from one, whatever they are given and
    whichever request fails; so does every other action; hence every
    content record of every database the application reaches from its
    start has a non-empty text or a file. *)
Theorem content_invariant :
  (∀ value now fl st,
      content_ok (ProjectManager.db st) →
      content_ok (ProjectManager.db (ProjectManager.addContent value now fl st).2))
  ∧ (∀ contentId textarea now fl st,
        content_ok (ProjectManager.db st) →
        content_ok
          (ProjectManager.db
             (ProjectManager.saveContentEdit contentId textarea now fl st).2))
  ∧ (∀ contentId textarea now fl st,
        content_ok (ProjectManager.db st) →
        content_ok
          (ProjectManager.db
             (FileHandler.saveContentFileEdit contentId textarea now fl st).2))
  ∧ (∀ a st, content_ok (ProjectManager.db st) →
             content_ok (ProjectManager.db (App.step a st)))
  ∧ (∀ actions k c,
        IDB.content (ProjectManager.db (App.run actions ProjectManager.initial)) !! k
        = Some c →
        JsString.truthy (Content.text c) = true ∨ is_Some (Content.file c)).
Proof.
  split; [apply addContent_content_ok |].
  split; [apply saveContentEdit_content_ok |].
  split; [apply saveContentFileEdit_content_ok |].
  split; [apply step_content_ok |].
  intros actions k c Hk.
  by apply (run_content_ok actions ProjectManager.initial content_ok_init k c).
Qed.

Definition t0 : jsstring := js "2024-05-02T08:00:00.000Z".

Definition notes : File.t :=
  File.mk (js "notes.txt") (js "text/plain") 5
          (js "hello") (js "txt") false.

(** A session: a project is created and opened, an idea is added, a
    file is added without text, emptying the text of the first idea is
    refused, and the file is edited down to nothing. *)
Definition session : list App.action :=
  [App.CreateProject (js "Ideas") t0 no_faults;
   App.OpenProject 1 no_faults;
   App.AddContent (js "hello") t0 no_faults;
   App.SelectFile notes;
   App.AddContent (js "  ") t0 no_faults;
   App.SaveContentEdit 1 (Some (js " ")) t0 no_faults;
   App.SaveContentFileEdit 2 (Some []) t0 no_faults].

Lemma content_invariant_witness :
  content_ok (ProjectManager.db (App.run session ProjectManager.initial))
  ∧ size (IDB.content (ProjectManager.db (App.run session ProjectManager.initial))) = 2%nat
  ∧ (Content.text <$>
       IDB.content (ProjectManager.db (App.run session ProjectManager.initial)) !! 1%Z)
    = Some (js "hello").
Proof.
  split; [| split; reflexivity].
  intros k c Hk.
  exact (proj2 (proj2 (proj2 (proj2 content_invariant))) session k c Hk).
Defined.

(** *** Adding content *)

(** The record [addContent] builds. *)
Definition newContent (contentId : Z) (p : Project.t) (text now : jsstring)
    (file : option File.t) : Content.t :=
  Content.mk contentId (Project.id p) text now file None.

Lemma file_copy (f : File.t) :
  File.mk (File.name f) (File.type f) (File.size f) (File.content f)
          (File.extension f) (File.isImage f || false) = f.
Proof. destruct f. simpl. by rewrite orb_false_r. Qed.

Lemma addContent_ok value now st p :
  ProjectManager.currentProject st = Some p →
  os_wf (IDB.counters (ProjectManager.db st)) →
  JsString.truthy (JsString.trim value) = true
  ∨ is_Some (ProjectManager.currentFileContent st) →
  let contentId := currentValue "contentId" (ProjectManager.db st) in
  ProjectManager.addContent value now no_faults st
  = (Resolved tt,
     ProjectManager.mk
       (IDB.set_content
          (os_put (newContent contentId p (JsString.trim value) now
                     (ProjectManager.currentFileContent st)))
          (IDB.set_counters
             (<["contentId" := Counter.mk "contentId" (contentId + 1)]>)
             (ProjectManager.db st)))
       (ProjectManager.projects st) (Some p) None (ProjectManager.notices st)).
Proof.
  intros Hcur Hwf Hin contentId. unfold ProjectManager.addContent. rewrite Hcur.
  assert (negb (JsString.truthy (JsString.trim value))
          && negb (bool_decide (is_Some (ProjectManager.currentFileContent st))) = false)
    as ->.
  { destruct Hin as [-> | Hf]; [done |].
    rewrite (bool_decide_eq_true_2 _ Hf). apply andb_false_r. }
  unfold no_faults. rewrite getNextId_ok by done.
  rewrite saveContent_fault. unfold no_fault.
  unfold ProjectManager.clearFilePreview, ProjectManager.set_db, newContent.
  cbn [ProjectManager.db ProjectManager.projects ProjectManager.currentProject
       ProjectManager.notices].
  rewrite Hcur. subst contentId.
  destruct (ProjectManager.currentFileContent st) as [f |]; [| done].
  by rewrite file_copy.
Qed.

Lemma saveContent_ok c s :
  transaction (DatabaseManager.saveContent c) no_fault s
  = (Resolved c, IDB.set_content (os_put c) s).
Proof. by rewrite saveContent_fault. Qed.

(** C6. With a project open, whatever its id and whether or not a
    project with that id is stored, and with storage that does not
    fail, [addContent] with a text that is not empty once trimmed
    stores a content record carrying that [projectId], without a
    failure notice and without touching the projects; and
    [saveContent] stores whatever record it is given. No step looks the
    project up. *)
Theorem addContent_permissive (value now : jsstring) (st : ProjectManager.t)
    (p : Project.t) :
  ProjectManager.currentProject st = Some p →
  os_wf (IDB.counters (ProjectManager.db st)) →
  JsString.truthy (JsString.trim value) = true →
  (∃ c st',
      ProjectManager.addContent value now no_faults st = (Resolved tt, st')
      ∧ IDB.content (ProjectManager.db st') !! Content.id c = Some c
      ∧ Content.projectId c = Project.id p
      ∧ Content.text c = JsString.trim value
      ∧ Content.createdAt c = now
      ∧ Content.id c = currentValue "contentId" (ProjectManager.db st)
      ∧ IDB.projects (ProjectManager.db st') = IDB.projects (ProjectManager.db st)
      ∧ ProjectManager.notices st' = ProjectManager.notices st)
  ∧ (∀ c s, ∃ s',
        transaction (DatabaseManager.saveContent c) no_fault s = (Resolved c, s')
        ∧ IDB.content s' !! Content.id c = Some c
        ∧ IDB.projects s' = IDB.projects s).
Proof.
  intros Hcur Hwf Htext. split.
  - eexists _, _. split; [apply (addContent_ok value now st p); auto |].
    split; [apply lookup_insert_eq |]. done.
  - intros c s. eexists. split; [apply saveContent_ok |].
    split; [apply lookup_insert_eq | done].
Qed.

(** A project that was never stored, open in the detail view. *)
Definition ghost : Project.t := Project.mk 42 (js "ghost") (js "2024-05-01T10:00:00.000Z").

Definition ghostOpen : ProjectManager.t :=
  ProjectManager.mk DatabaseManager.init [] (Some ghost) None [].

Lemma addContent_permissive_witness :
  IDB.projects (ProjectManager.db ghostOpen) !! 42%Z = None
  ∧ ∃ c st',
      ProjectManager.addContent (js " hello ") (js "2024-05-02T08:00:00.000Z")
        no_faults ghostOpen = (Resolved tt, st')
      ∧ IDB.content (ProjectManager.db st') !! Content.id c = Some c
      ∧ Content.projectId c = 42%Z.
Proof.
  split; [reflexivity |].
  assert (Hwf : os_wf (IDB.counters (ProjectManager.db ghostOpen))) by by_computation.
  destruct (proj1 (addContent_permissive (js " hello ") (js "2024-05-02T08:00:00.000Z")
                     ghostOpen ghost eq_refl Hwf eq_refl))
    as (c & st' & H1 & H2 & H3 & _).
  exists c, st'. split; [exact H1 |]. split; [exact H2 | exact H3].
Defined.

(** *** Validation *)

Lemma createProject_blank value now fl st :
  JsString.trim value = [] →
  ProjectManager.createProject value now fl st = (Resolved tt, st).
Proof. intros Hv. unfold ProjectManager.createProject. by rewrite Hv. Qed.

Lemma addContent_blank value now fl st :
  JsString.trim value = [] →
  ProjectManager.currentFileContent st = None →
  ProjectManager.addContent value now fl st = (Resolved tt, st).
Proof.
  intros Hv Hf. unfold ProjectManager.addContent.
  destruct (ProjectManager.currentProject st); [| done].
  by rewrite Hv, Hf.
Qed.

Lemma createProject_resolves value now fl st :
  (ProjectManager.createProject value now fl st).1 = Resolved tt.
Proof.
  unfold ProjectManager.createProject. destruct (negb _); [done |].
  destruct (transaction (DatabaseManager.getNextId _) _ _) as [[projectId | e] d];
    [| done].
  by destruct (transaction (DatabaseManager.saveProject _) _ _) as [[r | e] d'].
Qed.

Lemma addContent_resolves value now fl st :
  (ProjectManager.addContent value now fl st).1 = Resolved tt.
Proof.
  unfold ProjectManager.addContent.
  destruct (ProjectManager.currentProject st); [| done].
  destruct (negb _ && _); [done |].
  destruct (transaction (DatabaseManager.getNextId _) _ _) as [[contentId | e] d];
    [| done].
  by destruct (transaction (DatabaseManager.saveContent _) _ _) as [[r | e] d'].
Qed.

(** C4, as the specification states it, fails: [createProject] with a
    blank name is not rejected with [ValidationError]; its promise is
    resolved and nothing at all has changed, notices included. *)
Lemma createProject_blank_not_rejected :
  (ProjectManager.createProject (js "   ") (js "2024-05-02T08:00:00.000Z")
     no_faults ProjectManager.initial).1 ≠ Rejected ValidationError
  ∧ ProjectManager.createProject (js "   ") (js "2024-05-02T08:00:00.000Z")
      no_faults ProjectManager.initial
    = (Resolved tt, ProjectManager.initial).
Proof. split; [| reflexivity]. rewrite createProject_resolves. discriminate. Qed.

(** C4, amended. A name that is empty once trimmed makes
    [createProject] do nothing: its promise is resolved and the state,
    notices included, is unchanged; so does [addContent] when the
    trimmed text is empty and no file is selected; neither call is ever
    rejected. With a project open and storage that does not fail,
    [addContent] with an empty text and a file stores a record with that
    file, and [addContent] with a non-empty text and no file stores a
    record with that text, both without a failure notice. *)
Theorem validation_is_silent :
  (∀ value now fl st,
      JsString.trim value = [] →
      ProjectManager.createProject value now fl st = (Resolved tt, st))
  ∧ (∀ value now fl st,
        JsString.trim value = [] →
        ProjectManager.currentFileContent st = None →
        ProjectManager.addContent value now fl st = (Resolved tt, st))
  ∧ (∀ value now fl st,
        (ProjectManager.createProject value now fl st).1 = Resolved tt
        ∧ (ProjectManager.addContent value now fl st).1 = Resolved tt)
  ∧ (∀ value now st p file,
        ProjectManager.currentProject st = Some p →
        os_wf (IDB.counters (ProjectManager.db st)) →
        JsString.trim value = [] →
        ProjectManager.currentFileContent st = Some file →
        ∃ c st',
          ProjectManager.addContent value now no_faults st = (Resolved tt, st')
          ∧ IDB.content (ProjectManager.db st') !! Content.id c = Some c
          ∧ Content.text c = [] ∧ Content.file c = Some file
          ∧ ProjectManager.notices st' = ProjectManager.notices st)
  ∧ (∀ value now st p,
        ProjectManager.currentProject st = Some p →
        os_wf (IDB.counters (ProjectManager.db st)) →
        JsString.truthy (JsString.trim value) = true →
        ProjectManager.currentFileContent st = None →
        ∃ c st',
          ProjectManager.addContent value now no_faults st = (Resolved tt, st')
          ∧ IDB.content (ProjectManager.db st') !! Content.id c = Some c
          ∧ Content.text c = JsString.trim value ∧ Content.file c = None
          ∧ ProjectManager.notices st' = ProjectManager.notices st).
Proof.
  split; [apply createProject_blank |].
  split; [apply addContent_blank |].
  split; [intros; split; [apply createProject_resolves | apply addContent_resolves] |].
  split.
  - intros value now st p file Hcur Hwf Hv Hf.
    eexists _, _. split; [apply (addContent_ok value now st p); [done | done |] |].
    + right. by rewrite Hf.
    + split; [apply lookup_insert_eq |]. simpl. by rewrite Hv, Hf.
  - intros value now st p Hcur Hwf Hv Hf.
    eexists _, _. split; [apply (addContent_ok value now st p); auto |].
    split; [apply lookup_insert_eq |]. simpl. by rewrite Hf.
Qed.

Definition readme : File.t :=
  File.mk (js "readme.txt") (js "text/plain") 5 (js "hello") (js "txt") false.

Lemma validation_is_silent_witness :
  ProjectManager.createProject (js " ") (js "2024-05-02T08:00:00.000Z") no_faults
    ProjectManager.initial = (Resolved tt, ProjectManager.initial)
  ∧ ∃ c st',
      ProjectManager.addContent (js "") (js "2024-05-02T08:00:00.000Z") no_faults
        (ProjectManager.selectFile readme ghostOpen) = (Resolved tt, st')
      ∧ IDB.content (ProjectManager.db st') !! Content.id c = Some c
      ∧ Content.file c = Some readme.
Proof.
  split.
  - exact (proj1 validation_is_silent (js " ") (js "2024-05-02T08:00:00.000Z")
             no_faults ProjectManager.initial eq_refl).
  - assert (Hwf : os_wf (IDB.counters
                           (ProjectManager.db (ProjectManager.selectFile readme ghostOpen))))
      by by_computation.
    destruct (proj1 (proj2 (proj2 (proj2 validation_is_silent)))
                (js "") (js "2024-05-02T08:00:00.000Z")
                (ProjectManager.selectFile readme ghostOpen) ghost readme
                eq_refl Hwf eq_refl eq_refl)
      as (c & st' & H1 & H2 & _ & H4 & _).
    exists c, st'. split; [exact H1 |]. split; [exact H2 | exact H4].
Defined.

(** *** Renaming *)

Lemma editProject_ok projectId newName st p :
  IDB.projects (ProjectManager.db st) !! projectId = Some p →
  JsString.truthy (JsString.trim newName) = true →
  ProjectManager.db
    (ProjectManager.editProject projectId (Some newName) no_faults st).2
  = IDB.set_projects
      (os_put (Project.mk (Project.id p) (JsString.trim newName) (Project.createdAt p)))
      (ProjectManager.db st).
Proof.
  intros Hp Hname. unfold ProjectManager.editProject.
  rewrite getProject_fault. unfold no_faults, no_fault. rewrite Hp.
  rewrite (truthy_trim _ Hname), Hname. cbn [andb].
  by rewrite saveProject_fault.
Qed.

(** C7. For a stored project and a new name that is not empty once
    trimmed, and with storage that does not fail, [editProject]
    followed by [getProject] of the same id yields the record with the
    trimmed new name and the id and [createdAt] it had; every other
    project record, the content and the counters are as before. *)
Theorem editProject_frame (projectId : Z) (newName : jsstring)
    (st : ProjectManager.t) (p : Project.t) :
  os_wf (IDB.projects (ProjectManager.db st)) →
  IDB.projects (ProjectManager.db st) !! projectId = Some p →
  JsString.truthy (JsString.trim newName) = true →
  let st' := (ProjectManager.editProject projectId (Some newName) no_faults st).2 in
  ∃ p',
    transaction (DatabaseManager.getProject projectId) no_fault (ProjectManager.db st')
    = (Resolved (Some p'), ProjectManager.db st')
    ∧ Project.name p' = JsString.trim newName
    ∧ Project.id p' = Project.id p ∧ Project.id p' = projectId
    ∧ Project.createdAt p' = Project.createdAt p
    ∧ (∀ k, k ≠ projectId →
            IDB.projects (ProjectManager.db st') !! k
            = IDB.projects (ProjectManager.db st) !! k)
    ∧ IDB.content (ProjectManager.db st') = IDB.content (ProjectManager.db st)
    ∧ IDB.counters (ProjectManager.db st') = IDB.counters (ProjectManager.db st)
    ∧ os_wf (IDB.projects (ProjectManager.db st')).
Proof.
  intros Hwf Hp Hname st'. subst st'. rewrite (editProject_ok _ _ _ p) by done.
  pose proof (Hwf _ _ Hp) as Hid. unfold key_path, project_keyPath in Hid.
  exists (Project.mk (Project.id p) (JsString.trim newName) (Project.createdAt p)).
  split.
  { rewrite getProject_fault. unfold no_fault. simpl.
    unfold os_put, key_path, project_keyPath. simpl.
    by rewrite Hid, lookup_insert_eq. }
  do 4 (split; [done |]).
  split.
  { intros k Hk. simpl. unfold os_put, key_path, project_keyPath. simpl.
    rewrite Hid. by rewrite lookup_insert_ne. }
  do 2 (split; [done |]).
  by apply (os_wf_put (Project.mk _ _ _)).
Qed.

Definition ideas : Project.t := Project.mk 1 (js "Ideas") (js "2024-05-01T10:00:00.000Z").

Definition ideasStored : ProjectManager.t :=
  ProjectManager.mk (IDB.set_projects (os_put ideas) DatabaseManager.init)
    [ideas] None None [].

Lemma editProject_frame_witness :
  ∃ p',
    transaction (DatabaseManager.getProject 1) no_fault
      (ProjectManager.db
         (ProjectManager.editProject 1 (Some (js " New Name ")) no_faults ideasStored).2)
    = (Resolved (Some p'),
       ProjectManager.db
         (ProjectManager.editProject 1 (Some (js " New Name ")) no_faults ideasStored).2)
    ∧ Project.name p' = js "New Name"
    ∧ Project.createdAt p' = js "2024-05-01T10:00:00.000Z".
Proof.
  assert (Hwf : os_wf (IDB.projects (ProjectManager.db ideasStored))) by by_computation.
  destruct (editProject_frame 1 (js " New Name ") ideasStored ideas Hwf eq_refl eq_refl)
    as (p' & H1 & H2 & _ & _ & H5 & _).
  exists p'. split; [exact H1 |]. split; [exact H2 | exact H5].
Defined.

(** *** Invariants of the stored records *)

Lemma deleteProject_projects_sub id f s k p :
  IDB.projects (transaction (DatabaseManager.deleteProject id) f s).2 !! k = Some p →
  IDB.projects s !! k = Some p.
Proof.
  destruct (deleteProject_atomic id f s) as [-> | ->]; [| done].
  unfold cascade, os_delete. simpl. rewrite lookup_delete.
  by case_decide.
Qed.

Section record_invariant.
Variable P : Z → Project.t → Prop.
Variable Q : Z → Content.t → Prop.
(** What the time of an action has to satisfy. *)
Variable G : jsstring → Prop.

Hypothesis P_new : ∀ id name now, G now → P id (Project.mk id name now).
Hypothesis P_rename : ∀ k p name,
  P k p → P (Project.id p) (Project.mk (Project.id p) name (Project.createdAt p)).
Hypothesis Q_new : ∀ id projectId text now file,
  G now → Q id (Content.mk id projectId text now file None).
Hypothesis Q_edit : ∀ k c text file now,
  Q k c →
  Q (Content.id c)
    (Content.mk (Content.id c) (Content.projectId c) text (Content.createdAt c)
                file (Some now)).

Definition records_ok (d : db) : Prop :=
  map_Forall P (IDB.projects d) ∧ map_Forall Q (IDB.content d).

Definition created_ok (a : App.action) : Prop :=
  match a with
  | App.CreateProject _ now _ | App.AddContent _ now _ => G now
  | _ => True
  end.

Lemma records_ok_getNextId counterName f d :
  records_ok d →
  records_ok (transaction (DatabaseManager.getNextId counterName) f d).2.
Proof.
  intros [Hp Hc]. destruct (getNextId_frame counterName f d) as [E1 E2].
  split; [by rewrite E1 | by rewrite E2].
Qed.

Lemma records_ok_saveProject p f d :
  P (Project.id p) p → records_ok d →
  records_ok (transaction (DatabaseManager.saveProject p) f d).2.
Proof.
  intros Hp [Hps Hcs]. rewrite saveProject_fault. destruct (f 0%nat); [done |].
  split; [by apply map_Forall_insert_2 | done].
Qed.

Lemma records_ok_saveContent c f d :
  Q (Content.id c) c → records_ok d →
  records_ok (transaction (DatabaseManager.saveContent c) f d).2.
Proof.
  intros Hc [Hps Hcs]. rewrite saveContent_fault. destruct (f 0%nat); [done |].
  split; [done | by apply map_Forall_insert_2].
Qed.

Lemma records_ok_deleteProject id f d :
  records_ok d → records_ok (transaction (DatabaseManager.deleteProject id) f d).2.
Proof.
  intros [Hps Hcs]. split.
  - intros k p Hk%deleteProject_projects_sub. by apply Hps.
  - intros k c Hk%deleteProject_content_sub. by apply Hcs.
Qed.

Lemma records_ok_deleteContent id f d :
  records_ok d → records_ok (transaction (DatabaseManager.deleteContent id) f d).2.
Proof.
  intros [Hps Hcs]. rewrite deleteContent_fault. destruct (f 0%nat); [done |].
  split; [done | by apply map_Forall_delete].
Qed.

Lemma step_records_ok a st :
  created_ok a →
  records_ok (ProjectManager.db st) → records_ok (ProjectManager.db (App.step a st)).
Proof.
  intros Ha Hok. destruct a; simpl in *; try done.
  - unfold ProjectManager.createProject. destruct (negb _); [done |].
    pose proof (records_ok_getNextId "projectId" (fl 0%nat) _ Hok) as H1.
    destruct (transaction (DatabaseManager.getNextId _) _ _) as [[projectId' | e] d];
      [| done].
    match goal with
    | |- context [transaction (DatabaseManager.saveProject ?p) ?f ?d0] =>
        pose proof (records_ok_saveProject p f d0 (P_new _ _ _ Ha) H1) as H2;
        by destruct (transaction (DatabaseManager.saveProject p) f d0) as [[r | e] d']
    end.
  - by rewrite openProject_db.
  - unfold ProjectManager.addContent.
    destruct (ProjectManager.currentProject st) as [cur |]; [| done].
    destruct (negb _ && _); [done |].
    pose proof (records_ok_getNextId "contentId" (fl 0%nat) _ Hok) as H1.
    destruct (transaction (DatabaseManager.getNextId _) _ _) as [[contentId' | e] d];
      [| done].
    match goal with
    | |- context [transaction (DatabaseManager.saveContent ?c) ?f ?d0] =>
        pose proof (records_ok_saveContent c f d0 (Q_new _ _ _ _ _ Ha) H1) as H2;
        by destruct (transaction (DatabaseManager.saveContent c) f d0) as [[r | e] d']
    end.
  - unfold ProjectManager.editProject.
    rewrite getProject_fault. destruct (fl 0%nat 0%nat); [done |].
    destruct (IDB.projects _ !! projectId) as [project |] eqn:Hproject; [| done].
    destruct answer as [newName |]; [| done].
    destruct (JsString.truthy newName && _); [| done].
    pose proof (proj1 Hok _ _ Hproject) as Hp.
    match goal with
    | |- context [transaction (DatabaseManager.saveProject ?p) ?f ?d0] =>
        pose proof (records_ok_saveProject p f d0 (P_rename _ _ _ Hp) Hok) as H2;
        by destruct (transaction (DatabaseManager.saveProject p) f d0) as [[r | e] d']
    end.
  - unfold ProjectManager.deleteProject.
    set (st1 := match ProjectManager.currentProject st with
                | Some cur => _ | None => _ end).
    assert (Hst1 : ProjectManager.db st1 = ProjectManager.db st).
    { subst st1. destruct (ProjectManager.currentProject st); [| done].
      by case_bool_decide. }
    rewrite <- Hst1 in Hok.
    pose proof (records_ok_deleteProject projectId (fl 0%nat) _ Hok) as H1.
    by destruct (transaction (DatabaseManager.deleteProject _) _ _) as [[r | e] d].
  - unfold ProjectManager.saveContentEdit.
    destruct (ProjectManager.currentProject st) as [cur |]; [| done].
    rewrite getProjectContent_fault. destruct (fl 0%nat 0%nat); [done |].
    destruct (ProjectManager.findContent _ _) as [c |] eqn:Hfind; [| done].
    destruct textarea as [value |]; [| done].
    destruct (negb _ && _); [done |].
    apply findContent_stored in Hfind as [k Hk].
    pose proof (proj2 Hok _ _ Hk) as Hc.
    match goal with
    | |- context [transaction (DatabaseManager.saveContent ?c') ?f ?d0] =>
        pose proof (records_ok_saveContent c' f d0 (Q_edit _ _ _ _ _ Hc) Hok) as H2;
        by destruct (transaction (DatabaseManager.saveContent c') f d0) as [[r | e] d']
    end.
  - unfold FileHandler.saveContentFileEdit.
    destruct textarea as [newFileContent |]; [| done].
    destruct (ProjectManager.currentProject st) as [cur |]; [| done].
    rewrite getProjectContent_fault. destruct (fl 0%nat 0%nat); [done |].
    destruct (ProjectManager.findContent _ _) as [c |] eqn:Hfind; [| done].
    destruct (Content.file c) as [file |]; [| done].
    apply findContent_stored in Hfind as [k Hk].
    pose proof (proj2 Hok _ _ Hk) as Hc.
    match goal with
    | |- context [transaction (DatabaseManager.saveContent ?c') ?f ?d0] =>
        pose proof (records_ok_saveContent c' f d0 (Q_edit _ _ _ _ _ Hc) Hok) as H2;
        by destruct (transaction (DatabaseManager.saveContent c') f d0) as [[r | e] d']
    end.
  - unfold ProjectManager.deleteContent.
    destruct (ProjectManager.currentProject st); [| done].
    pose proof (records_ok_deleteContent contentId (fl 0%nat) _ Hok) as H1.
    by destruct (transaction (DatabaseManager.deleteContent _) _ _) as [[r | e] d].
Qed.

Lemma run_records_ok actions st :
  Forall created_ok actions →
  records_ok (ProjectManager.db st) →
  records_ok (ProjectManager.db (App.run actions st)).
Proof.
  revert st. induction actions as [| a actions IH]; intros st Has Hok; [done |].
  apply Forall_cons in Has as [Ha Has]. apply IH; [done |].
  by apply step_records_ok.
Qed.

End record_invariant.

(** Every record of a database the application reaches is filed under
    its own id. *)
Lemma reachable_wf actions :
  os_wf (IDB.projects (ProjectManager.db (App.run actions ProjectManager.initial)))
  ∧ os_wf (IDB.content (ProjectManager.db (App.run actions ProjectManager.initial))).
Proof.
  apply (run_records_ok (λ k p, Project.id p = k) (λ k c, Content.id c = k)
           (λ _, True)); try done.
  apply Forall_forall. intros a _. by destruct a.
Qed.

(** With a clock that never goes back, no record of a database the
    application reaches is stamped later than now. *)
Lemma reachable_no_future nowISO actions :
  Forall (created_ok (λ now, JsString.leb now nowISO = true)) actions →
  no_future nowISO (ProjectManager.db (App.run actions ProjectManager.initial)).
Proof.
  intros Has.
  apply (run_records_ok
           (λ _ p, JsString.leb (Project.createdAt p) nowISO = true)
           (λ _ c, JsString.leb (Content.createdAt c) nowISO = true)
           (λ now, JsString.leb now nowISO = true)); done.
Qed.

(** The counters, too, stay filed under their names. *)
Lemma deleteProject_counters id f s :
  IDB.counters (transaction (DatabaseManager.deleteProject id) f s).2 = IDB.counters s.
Proof. by destruct (deleteProject_atomic id f s) as [-> | ->]. Qed.

Lemma step_counters_wf a st :
  os_wf (IDB.counters (ProjectManager.db st)) →
  os_wf (IDB.counters (ProjectManager.db (App.step a st))).
Proof.
  intros Hwf. destruct a; simpl; try done.
  - unfold ProjectManager.createProject. destruct (negb _); [done |].
    pose proof (getNextId_wf "projectId" (fl 0%nat) _ Hwf) as H1.
    destruct (transaction (DatabaseManager.getNextId _) _ _) as [[projectId' | e] d];
      [| done].
    rewrite saveProject_fault. by destruct (fl 1%nat 0%nat).
  - by rewrite openProject_db.
  - unfold ProjectManager.addContent.
    destruct (ProjectManager.currentProject st) as [cur |]; [| done].
    destruct (negb _ && _); [done |].
    pose proof (getNextId_wf "contentId" (fl 0%nat) _ Hwf) as H1.
    destruct (transaction (DatabaseManager.getNextId _) _ _) as [[contentId' | e] d];
      [| done].
    rewrite saveContent_fault. by destruct (fl 1%nat 0%nat).
  - unfold ProjectManager.editProject.
    rewrite getProject_fault. destruct (fl 0%nat 0%nat); [done |].
    destruct (IDB.projects _ !! projectId) as [project |]; [| done].
    destruct answer as [newName |]; [| done].
    destruct (JsString.truthy newName && _); [| done].
    rewrite saveProject_fault. by destruct (fl 1%nat 0%nat).
  - unfold ProjectManager.deleteProject.
    set (st1 := match ProjectManager.currentProject st with
                | Some cur => _ | None => _ end).
    assert (Hst1 : ProjectManager.db st1 = ProjectManager.db st).
    { subst st1. destruct (ProjectManager.currentProject st); [| done].
      by case_bool_decide. }
    pose proof (deleteProject_counters projectId (fl 0%nat) (ProjectManager.db st1)) as H1.
    rewrite Hst1 in H1 at 2.
    destruct (transaction (DatabaseManager.deleteProject _) _ _) as [[r | e] d];
      simpl in *; by rewrite H1.
  - unfold ProjectManager.saveContentEdit.
    destruct (ProjectManager.currentProject st) as [cur |]; [| done].
    rewrite getProjectContent_fault. destruct (fl 0%nat 0%nat); [done |].
    destruct (ProjectManager.findContent _ _) as [c |]; [| done].
    destruct textarea as [value |]; [| done].
    destruct (negb _ && _); [done |].
    rewrite saveContent_fault. by destruct (fl 1%nat 0%nat).
  - unfold FileHandler.saveContentFileEdit.
    destruct textarea as [newFileContent |]; [| done].
    destruct (ProjectManager.currentProject st) as [cur |]; [| done].
    rewrite getProjectContent_fault. destruct (fl 0%nat 0%nat); [done |].
    destruct (ProjectManager.findContent _ _) as [c |]; [| done].
    destruct (Content.file c) as [file |]; [| done].
    rewrite saveContent_fault. by destruct (fl 1%nat 0%nat).
  - unfold ProjectManager.deleteContent.
    destruct (ProjectManager.currentProject st); [| done].
    rewrite deleteContent_fault. by destruct (fl 0%nat 0%nat).
Qed.

Lemma reachable_counters_wf actions :
  os_wf (IDB.counters (ProjectManager.db (App.run actions ProjectManager.initial))).
Proof.
  unfold App.run. generalize init_wf.
  change DatabaseManager.init with (ProjectManager.db ProjectManager.initial).
  generalize ProjectManager.initial.
  induction actions as [| a actions IH]; intros st Hwf; [done |].
  apply IH. by apply step_counters_wf.
Qed.

End ProjectManagerFacts.

(** ** Facts about calls of [getNextId] in flight together *)

Module ConcurrentFacts.
Import Concurrent DatabaseManagerFacts.

Section omap_insert.
Context {A B : Type} (f : A → option B).




End omap_insert.


Lemma nextCounter_wf counterName (m : gmap string Counter.t) :
  os_wf m →
  DatabaseManager.nextCounter counterName (os_get counterName m)
  = (default 1%Z (Counter.value <$> m !! counterName),
     Counter.mk counterName (default 1%Z (Counter.value <$> m !! counterName) + 1)).
Proof.
  intros Hwf. unfold DatabaseManager.nextCounter, os_get.
  destruct (m !! counterName) as [c |] eqn:Hc; [| done].
  apply Hwf in Hc. unfold key_path, counter_keyPath in Hc. simpl. by rewrite Hc.
Qed.

Section invariant.
Variable counterName : string.
(** The value of the counter when the calls are made. *)
Variable v0 : Z.
Variable N : nat.







(** *** Every schedule can be carried on until every call is through *)








End invariant.



(** The three events of one call, fired in a row with no transaction
    running, are [getNextId] run on its own. *)
Lemma step3_getNextId counterName i σ :
  os_wf (IDB.counters (store σ)) →
  running σ = None → calls σ !! i = Some Waiting →
  store (run counterName [i; i; i] σ)
  = (transaction (DatabaseManager.getNextId counterName) no_fault (store σ)).2
  ∧ Resolved <$> (calls (run counterName [i; i; i] σ) !! i ≫= result)
    = Some (transaction (DatabaseManager.getNextId counterName) no_fault (store σ)).1.
Proof.
  intros Hwf Hr Hi. pose proof (lookup_lt_Some _ _ _ Hi) as Hlt.
  rewrite getNextId_ok by done.
  set (v := currentValue counterName (store σ)).
  assert (H1 : step counterName i σ
               = mk (store σ) (Some i) (<[i := Reading]> (calls σ))).
  { unfold step. by rewrite Hi, Hr. }
  assert (H2 : step counterName i (step counterName i σ)
               = mk (store σ) (Some i)
                    (<[i := Writing v (Counter.mk counterName (v + 1))]> (calls σ))).
  { rewrite H1. unfold step. cbn [calls store running].
    rewrite list_lookup_insert_eq by done.
    rewrite (nextCounter_wf _ _ Hwf). by rewrite list_insert_insert_eq. }
  assert (H3 : step counterName i (step counterName i (step counterName i σ))
               = mk (IDB.set_counters (os_put (Counter.mk counterName (v + 1))) (store σ))
                    None (<[i := Done v]> (calls σ))).
  { rewrite H2. unfold step. cbn [calls store running].
    rewrite list_lookup_insert_eq by done.
    by rewrite list_insert_insert_eq. }
  unfold run. simpl. rewrite H3. simpl.
  by rewrite list_lookup_insert_eq by done.
Qed.



End ConcurrentFacts.

(** ** More facts about [DatabaseManager] *)

Module DatabaseManagerMore.
Import DatabaseManager DatabaseManagerFacts.

Lemma saveProject_run p f s :
  transaction (saveProject p) f s
  = (if f 0%nat then (Rejected RequestError, s)
     else (Resolved p, IDB.set_projects (os_put p) s)).
Proof. unfold saveProject. unfold_txn. by destruct (f 0%nat). Qed.

Lemma saveContent_run c f s :
  transaction (saveContent c) f s
  = (if f 0%nat then (Rejected RequestError, s)
     else (Resolved c, IDB.set_content (os_put c) s)).
Proof. unfold saveContent. unfold_txn. by destruct (f 0%nat). Qed.

Lemma set_projects_put_twice p s :
  IDB.set_projects (os_put p) (IDB.set_projects (os_put p) s)
  = IDB.set_projects (os_put p) s.
Proof.
  destruct s as [ps cs ns]. unfold IDB.set_projects, os_put. simpl.
  by rewrite insert_insert_eq.
Qed.

(** X1. Once [saveProject(p)] has gone through, [getProject(p.id)]
    gives back [p], [getAllProjects] lists [p] and the projects that
    were stored under other ids and nothing else, saving [p] again
    changes nothing, and content and counters are untouched; when the
    request fails the promise is rejected and nothing is stored. *)
Theorem saveProject_roundtrip (p : Project.t) (s : db) :
  let s' := (transaction (saveProject p) no_fault s).2 in
  transaction (saveProject p) no_fault s = (Resolved p, s')
  ∧ transaction (getProject (Project.id p)) no_fault s' = (Resolved (Some p), s')
  ∧ (∃ l, transaction getAllProjects no_fault s' = (Resolved l, s')
          ∧ ∀ q, q ∈ l ↔ q = p ∨ ∃ k, k ≠ Project.id p ∧ IDB.projects s !! k = Some q)
  ∧ transaction (saveProject p) no_fault s' = (Resolved p, s')
  ∧ IDB.content s' = IDB.content s ∧ IDB.counters s' = IDB.counters s
  ∧ (∀ f, f 0%nat = true → transaction (saveProject p) f s = (Rejected RequestError, s)).
Proof.
  intros s'. subst s'. rewrite !saveProject_run. unfold no_fault. cbn [snd].
  split; [done |]. split.
  { unfold getProject. unfold_txn. unfold os_get, os_put. simpl.
    by rewrite lookup_insert_eq. }
  split.
  { eexists. split; [reflexivity |]. intros q. rewrite elem_of_os_getAll. simpl.
    unfold os_put, key_path, project_keyPath. split.
    - intros [k Hk]. apply lookup_insert_Some in Hk as [[_ <-] | [Hne Hk]];
        [by left | right; eauto].
    - intros [-> | (k & Hne & Hk)].
      + exists (Project.id p). apply lookup_insert_eq.
      + exists k. by rewrite lookup_insert_ne. }
  split; [by rewrite set_projects_put_twice |].
  split; [done |]. split; [done |].
  intros f Hf. by rewrite saveProject_run, Hf.
Qed.

Lemma saveProject_roundtrip_witness :
  ∃ l, transaction getAllProjects no_fault
         (transaction (saveProject second) no_fault
            (transaction (saveProject first) no_fault init).2).2
       = (Resolved l,
          (transaction (saveProject second) no_fault
             (transaction (saveProject first) no_fault init).2).2)
       ∧ first ∈ l ∧ second ∈ l.
Proof.
  destruct (saveProject_roundtrip second
              (transaction (saveProject first) no_fault init).2)
    as (_ & _ & (l & Hl & Hin) & _).
  exists l. split; [exact Hl |]. split.
  - apply Hin. right. exists 1%Z. split; [discriminate | reflexivity].
  - apply Hin. by left.
Defined.

(** X2. Once [saveContent(c)] has gone through, the listing of a
    project holds [c] exactly when [c.projectId] is that project, and
    besides it the records it held before whose id is not [c.id]: a
    record saved under an id that was listed elsewhere moves. *)
Theorem saveContent_listing (c : Content.t) (pid : Z) (s : db) :
  os_wf (IDB.content s) →
  let s' := (transaction (saveContent c) no_fault s).2 in
  ∃ l l',
    transaction (getProjectContent pid) no_fault s = (Resolved l, s)
    ∧ transaction (getProjectContent pid) no_fault s' = (Resolved l', s')
    ∧ ∀ r, r ∈ l' ↔ (r = c ∧ Content.projectId c = pid)
                     ∨ (r ∈ l ∧ Content.id r ≠ Content.id c).
Proof.
  intros Hwf s'. subst s'. rewrite saveContent_run. unfold no_fault. cbn [snd].
  eexists _, _. split; [reflexivity |]. split; [reflexivity |].
  intros r. rewrite !elem_of_index_getAll. simpl.
  unfold os_put, key_path, content_keyPath. split.
  - intros (k & Hk & Hpid).
    apply lookup_insert_Some in Hk as [[_ <-] | [Hne Hk]]; [by left |].
    right. split; [eauto |]. pose proof (Hwf _ _ Hk) as Hid.
    unfold key_path, content_keyPath in Hid. congruence.
  - intros [[-> Hpid] | [(k & Hk & Hpid) Hne]].
    + exists (Content.id c). split; [apply lookup_insert_eq | done].
    + exists k. split; [| done]. rewrite lookup_insert_ne; [done |].
      pose proof (Hwf _ _ Hk) as Hid. unfold key_path, content_keyPath in Hid.
      congruence.
Qed.

Lemma saveContent_listing_witness :
  ∃ l l',
    transaction (getProjectContent 1) no_fault twoProjects = (Resolved l, twoProjects)
    ∧ transaction (getProjectContent 1) no_fault
        (transaction (saveContent (idea 2 2)) no_fault twoProjects).2
      = (Resolved l', (transaction (saveContent (idea 2 2)) no_fault twoProjects).2)
    ∧ idea 2 1 ∈ l ∧ idea 1 1 ∈ l' ∧ (idea 2 1 ∉ l') ∧ (idea 2 2 ∉ l').
Proof.
  assert (Hwf : os_wf (IDB.content twoProjects)) by by_computation.
  destruct (saveContent_listing (idea 2 2) 1 twoProjects Hwf)
    as (l & l' & Hl & Hl' & Hin).
  assert (Hl0 : l = index_getAll Content.projectId 1 (IDB.content twoProjects)).
  { rewrite ProjectManagerFacts.getProjectContent_fault in Hl.
    unfold no_fault in Hl. by injection Hl as <-. }
  assert (H1 : idea 1 1 ∈ l).
  { rewrite Hl0. apply elem_of_index_getAll. exists 1%Z. split; reflexivity. }
  assert (H2 : idea 2 1 ∈ l).
  { rewrite Hl0. apply elem_of_index_getAll. exists 2%Z. split; reflexivity. }
  exists l, l'. split; [exact Hl |]. split; [exact Hl' |].
  split; [exact H2 |]. split; [| split].
  - apply Hin. right. split; [exact H1 | discriminate].
  - intros [[? _] | [_ Hne]]%Hin; [discriminate | by apply Hne].
  - intros [[_ ?] | [_ Hne]]%Hin; [discriminate | by apply Hne].
Defined.

(** *** Counting the ideas *)

Lemma getTotalIdeasCount_run f s :
  transaction getTotalIdeasCount f s
  = (if f 0%nat then Rejected RequestError else Resolved (os_count (IDB.content s)), s).
Proof. unfold getTotalIdeasCount. unfold_txn. by destruct (f 0%nat). Qed.

Lemma content_cascade_filter id s :
  IDB.content (cascade id s)
  = filter (λ kc, Content.projectId kc.2 ≠ id) (IDB.content s).
Proof.
  apply map_eq. intros k. rewrite lookup_content_cascade.
  destruct (IDB.content s !! k) as [c |] eqn:Hk.
  - case_decide as Hc; symmetry.
    + apply map_lookup_filter_None_2. right.
      intros c' Hk' Hne; simplify_eq/=; done.
    + by apply map_lookup_filter_Some_2.
  - symmetry. apply map_lookup_filter_None_2. by left.
Qed.

Lemma length_index_getAll pid (m : gmap Z Content.t) :
  length (index_getAll Content.projectId pid m)
  = size (filter (λ kc : Z * Content.t, Content.projectId kc.2 = pid) m).
Proof.
  unfold index_getAll. rewrite length_fmap, <- length_map_to_list, map_filter_alt.
  symmetry. apply Permutation_length, map_to_list_to_map.
  apply (sublist_NoDup _ (map_to_list m).*1); [apply NoDup_fst_map_to_list |].
  apply fmap_sublist, sublist_filter.
Qed.

Lemma size_cascade pid s :
  (size (IDB.content (cascade pid s))
   + length (index_getAll Content.projectId pid (IDB.content s))
   = size (IDB.content s))%nat.
Proof.
  rewrite content_cascade_filter, length_index_getAll.
  rewrite <- (map_filter_union_complement
                (λ kc : Z * Content.t, Content.projectId kc.2 = pid) (IDB.content s))
    at 3.
  rewrite map_size_disj_union by apply map_disjoint_filter_complement. lia.
Qed.

(** X3. [getTotalIdeasCount] is the number of content records: it
    grows by one when [saveContent] stores a record under a new id and
    stays when the id was taken, it drops by one when [deleteContent]
    deletes a stored id and stays for an absent one, and [deleteProject]
    lowers it by the length of the project's listing. *)
Theorem getTotalIdeasCount_compose (s : db) :
  ∃ n,
    transaction getTotalIdeasCount no_fault s = (Resolved n, s)
    ∧ (0 ≤ n)%Z
    ∧ (∀ c, (transaction getTotalIdeasCount no_fault
               (transaction (saveContent c) no_fault s).2).1
            = Resolved (if decide (is_Some (IDB.content s !! Content.id c))
                        then n else n + 1)%Z)
    ∧ (∀ id, (transaction getTotalIdeasCount no_fault
                (transaction (deleteContent id) no_fault s).2).1
             = Resolved (if decide (is_Some (IDB.content s !! id))
                         then n - 1 else n)%Z)
    ∧ (∀ pid l,
          transaction (getProjectContent pid) no_fault s = (Resolved l, s) →
          (transaction getTotalIdeasCount no_fault
             (transaction (deleteProject pid) no_fault s).2).1
          = Resolved (n - Z.of_nat (length l))%Z).
Proof.
  exists (os_count (IDB.content s)). unfold os_count.
  split; [by rewrite getTotalIdeasCount_run |]. split; [lia |].
  split; [| split].
  - intros c. rewrite saveContent_run, getTotalIdeasCount_run. unfold no_fault. simpl.
    unfold os_count, os_put, key_path, content_keyPath. rewrite map_size_insert.
    f_equal. case_decide as Hc.
    + destruct Hc as [c' ->]. done.
    + destruct (IDB.content s !! Content.id c) eqn:E; [by destruct Hc |]. lia.
  - intros id. rewrite deleteContent_fault, getTotalIdeasCount_run. unfold no_fault. simpl.
    unfold os_count, os_delete. rewrite map_size_delete.
    f_equal. case_decide as Hc.
    + destruct Hc as [c' Hc]. rewrite Hc.
      pose proof (map_size_ne_0_lookup_2 (IDB.content s) id (mk_is_Some _ _ Hc)). lia.
    + destruct (IDB.content s !! id) eqn:E; [by destruct Hc |]. done.
  - intros pid l Hl. rewrite ProjectManagerFacts.getProjectContent_fault in Hl.
    unfold no_fault in Hl. injection Hl as <-.
    rewrite deleteProject_ok, getTotalIdeasCount_run. unfold no_fault. cbn [fst snd].
    f_equal. unfold os_count. pose proof (size_cascade pid s). lia.
Qed.

Lemma getTotalIdeasCount_compose_witness :
  transaction getTotalIdeasCount no_fault twoProjects = (Resolved 3%Z, twoProjects)
  ∧ (transaction getTotalIdeasCount no_fault
       (transaction (deleteProject 1) no_fault twoProjects).2).1 = Resolved 1%Z.
Proof.
  destruct (getTotalIdeasCount_compose twoProjects) as (n & Hn & _ & _ & _ & Hdel).
  assert (n = 3%Z) as -> by (vm_compute in Hn; congruence).
  split; [exact Hn |].
  exact (Hdel 1%Z (index_getAll Content.projectId 1 (IDB.content twoProjects)) eq_refl).
Defined.

(** *** The window of the recent activity *)


Section recent_window.
Variable isoDaysAgo : Z → jsstring.


End recent_window.



End DatabaseManagerMore.

(** ** Facts about a session

    What holds of every state the application reaches when each action
    is awaited before the next, from the moment the database has been
    opened and its projects loaded. *)

Module SessionFacts.
Import DatabaseManagerFacts ProjectManagerFacts.

(** The database once [getNextId] has gone through. *)
Definition bump (counterName : string) (d : db) : db :=
  IDB.set_counters
    (<[counterName := Counter.mk counterName (currentValue counterName d + 1)]>) d.

(** Every stored id is below the counter that hands out such ids. *)
Definition ids_fresh (d : db) : Prop :=
  (∀ k, is_Some (IDB.projects d !! k) → (k < currentValue "projectId" d)%Z)
  ∧ (∀ k, is_Some (IDB.content d !! k) → (k < currentValue "contentId" d)%Z).

(** Every content record belongs to a stored project. *)
Definition references_ok (d : db) : Prop :=
  ∀ k c, IDB.content d !! k = Some c → is_Some (IDB.projects d !! Content.projectId c).

Definition store_ok (d : db) : Prop :=
  os_wf (IDB.projects d) ∧ os_wf (IDB.content d) ∧ os_wf (IDB.counters d)
  ∧ ids_fresh d ∧ references_ok d.

(** [this.projects] holds the stored projects, each once. *)
Definition listed (l : list Project.t) (d : db) : Prop :=
  NoDup (Project.id <$> l) ∧ ∀ p, p ∈ l ↔ ∃ k, IDB.projects d !! k = Some p.

(** The open project, if any, is the record stored under its id. *)
Definition open_stored (cur : option Project.t) (d : db) : Prop :=
  ∀ p, cur = Some p → IDB.projects d !! Project.id p = Some p.

Definition session_ok (st : ProjectManager.t) : Prop :=
  store_ok (ProjectManager.db st)
  ∧ listed (ProjectManager.projects st) (ProjectManager.db st)
  ∧ open_stored (ProjectManager.currentProject st) (ProjectManager.db st).

(** *** The counters *)

Lemma getNextId_cases counterName f d :
  os_wf (IDB.counters d) →
  transaction (DatabaseManager.getNextId counterName) f d
  = (Resolved (currentValue counterName d), bump counterName d)
  ∨ transaction (DatabaseManager.getNextId counterName) f d = (Rejected RequestError, d).
Proof.
  intros Hwf. destruct (getNextId_atomic counterName f d) as [-> | ->]; [| by right].
  left. by apply getNextId_ok.
Qed.

Lemma currentValue_bump counterName name d :
  currentValue name (bump counterName d)
  = (if decide (counterName = name) then currentValue name d + 1
     else currentValue name d)%Z.
Proof.
  unfold bump, currentValue. simpl. rewrite lookup_insert.
  by case_decide; simplify_eq.
Qed.

Lemma currentValue_bump_le counterName name d :
  (currentValue name d ≤ currentValue name (bump counterName d))%Z.
Proof. rewrite currentValue_bump. case_decide; lia. Qed.

Lemma store_ok_bump counterName d : store_ok d → store_ok (bump counterName d).
Proof.
  intros (Hp & Hc & Hn & [Hfp Hfc] & Hr).
  split; [done |]. split; [done |].
  split; [by apply os_wf_counters_next |]. split; [| done]. split.
  - intros k Hk. pose proof (Hfp k Hk).
    pose proof (currentValue_bump_le counterName "projectId" d). lia.
  - intros k Hk. pose proof (Hfc k Hk).
    pose proof (currentValue_bump_le counterName "contentId" d). lia.
Qed.

Lemma store_ok_getNextId counterName f d :
  store_ok d → store_ok (transaction (DatabaseManager.getNextId counterName) f d).2.
Proof.
  intros Hok. pose proof Hok as (_ & _ & Hn & _).
  destruct (getNextId_cases counterName f d Hn) as [-> | ->]; [| done].
  by apply store_ok_bump.
Qed.

(** *** Writing records *)

Lemma store_ok_new_project name now d :
  store_ok d →
  store_ok (IDB.set_projects
              (os_put (Project.mk (currentValue "projectId" d) name now))
              (bump "projectId" d)).
Proof.
  intros Hok. apply (store_ok_bump "projectId") in Hok.
  pose proof (currentValue_bump "projectId" "projectId" d) as Hv.
  rewrite decide_True in Hv by done.
  destruct Hok as (Hp & Hc & Hn & [Hfp Hfc] & Hr).
  split; [by apply (os_wf_put (Project.mk _ _ _)) |].
  split; [done |]. split; [done |]. split; [split |].
  - intros k [p Hk]. simpl in Hk. unfold os_put, key_path, project_keyPath in Hk.
    simpl in Hk. change (currentValue "projectId" (IDB.set_projects _ _))
      with (currentValue "projectId" (bump "projectId" d)).
    apply lookup_insert_Some in Hk as [[<- _] | [_ Hk]]; [lia |].
    apply Hfp. by eexists.
  - exact Hfc.
  - intros k c Hk. destruct (Hr k c Hk) as [p Hp'].
    simpl. unfold os_put, key_path, project_keyPath. simpl.
    rewrite lookup_insert. case_decide; by eexists.
Qed.

Lemma store_ok_put_project p d :
  store_ok d → is_Some (IDB.projects d !! Project.id p) →
  store_ok (IDB.set_projects (os_put p) d).
Proof.
  intros (Hp & Hc & Hn & [Hfp Hfc] & Hr) Hin.
  split; [by apply os_wf_put |]. split; [done |]. split; [done |]. split; [split |].
  - intros k [q Hk]. simpl in Hk. unfold os_put in Hk.
    apply lookup_insert_Some in Hk as [[<- _] | [_ Hk]]; [by apply Hfp |].
    apply Hfp. by eexists.
  - exact Hfc.
  - intros k c Hk. destruct (Hr k c Hk) as [q Hq].
    simpl. unfold os_put. rewrite lookup_insert. case_decide; by eexists.
Qed.

Lemma store_ok_new_content pid text now file d :
  store_ok d → is_Some (IDB.projects d !! pid) →
  store_ok (IDB.set_content
              (os_put (Content.mk (currentValue "contentId" d) pid text now file None))
              (bump "contentId" d)).
Proof.
  intros Hok Hpid. apply (store_ok_bump "contentId") in Hok.
  pose proof (currentValue_bump "contentId" "contentId" d) as Hv.
  rewrite decide_True in Hv by done.
  destruct Hok as (Hp & Hc & Hn & [Hfp Hfc] & Hr).
  split; [done |]. split; [by apply (os_wf_put (Content.mk _ _ _ _ _ _)) |].
  split; [done |]. split; [split |].
  - exact Hfp.
  - intros k [c Hk]. simpl in Hk. unfold os_put, key_path, content_keyPath in Hk.
    simpl in Hk. change (currentValue "contentId" (IDB.set_content _ _))
      with (currentValue "contentId" (bump "contentId" d)).
    apply lookup_insert_Some in Hk as [[<- _] | [_ Hk]]; [lia |].
    apply Hfc. by eexists.
  - intros k c Hk. simpl in Hk. unfold os_put, key_path, content_keyPath in Hk.
    simpl in Hk. apply lookup_insert_Some in Hk as [[_ <-] | [_ Hk]]; [done |].
    by apply (Hr k c).
Qed.

Lemma store_ok_put_content c c0 d :
  store_ok d → IDB.content d !! Content.id c = Some c0 →
  Content.projectId c = Content.projectId c0 →
  store_ok (IDB.set_content (os_put c) d).
Proof.
  intros (Hp & Hc & Hn & [Hfp Hfc] & Hr) Hc0 Hpid.
  split; [done |]. split; [by apply os_wf_put |]. split; [done |]. split; [split |].
  - exact Hfp.
  - intros k [c' Hk]. simpl in Hk. unfold os_put in Hk.
    apply lookup_insert_Some in Hk as [[<- _] | [_ Hk]]; apply Hfc; by eexists.
  - intros k c' Hk. simpl in Hk. unfold os_put in Hk.
    apply lookup_insert_Some in Hk as [[_ <-] | [_ Hk]]; [| by apply (Hr k c')].
    rewrite Hpid. by apply (Hr _ _ Hc0).
Qed.

Lemma store_ok_delete_content id d :
  store_ok d → store_ok (IDB.set_content (os_delete id) d).
Proof.
  intros (Hp & Hc & Hn & [Hfp Hfc] & Hr).
  split; [done |]. split; [by apply os_wf_delete |]. split; [done |]. split; [split |].
  - exact Hfp.
  - intros k [c Hk]. simpl in Hk. unfold os_delete in Hk.
    apply lookup_delete_Some in Hk as [_ Hk]. apply Hfc. by eexists.
  - intros k c Hk. simpl in Hk. unfold os_delete in Hk.
    apply lookup_delete_Some in Hk as [_ Hk]. by apply (Hr k c).
Qed.

Lemma store_ok_cascade pid d : store_ok d → store_ok (cascade pid d).
Proof.
  intros (Hp & Hc & Hn & [Hfp Hfc] & Hr).
  assert (Hsub : ∀ k c, IDB.content (cascade pid d) !! k = Some c →
                        IDB.content d !! k = Some c ∧ Content.projectId c ≠ pid).
  { intros k c. rewrite lookup_content_cascade.
    destruct (IDB.content d !! k); [| done]. case_decide; naive_solver. }
  split; [by apply os_wf_delete |].
  split; [intros k c [Hk _]%Hsub; by apply Hc |].
  split; [done |]. split; [split |].
  - intros k [p Hk]. unfold cascade, os_delete in Hk. simpl in Hk.
    apply lookup_delete_Some in Hk as [_ Hk]. apply Hfp. by eexists.
  - intros k [c [Hk _]%Hsub]. apply Hfc. by eexists.
  - intros k c [Hk Hne]%Hsub. destruct (Hr k c Hk) as [p Hp'].
    exists p. unfold cascade, os_delete. simpl. by rewrite lookup_delete_ne.
Qed.

(** *** The list of projects *)

Lemma ids_renameLocal pid name l :
  Project.id <$> ProjectManager.renameLocal pid name l = Project.id <$> l.
Proof.
  induction l as [| p l IH]; [done |]. simpl.
  case_bool_decide; csimpl; [done | by rewrite IH].
Qed.

Lemma elem_of_renameLocal pid name l q :
  NoDup (Project.id <$> l) →
  q ∈ ProjectManager.renameLocal pid name l
  ↔ (q ∈ l ∧ Project.id q ≠ pid)
    ∨ ∃ q0, q0 ∈ l ∧ Project.id q0 = pid
            ∧ q = Project.mk (Project.id q0) name (Project.createdAt q0).
Proof.
  induction l as [| p l IH]; csimpl.
  - intros _. split; [by intros ?%not_elem_of_nil |].
    intros [[?%not_elem_of_nil _] | (q0 & ?%not_elem_of_nil & _)]; done.
  - intros [Hp Hl]%NoDup_cons. specialize (IH Hl).
    assert (Hother : ∀ x, x ∈ l → Project.id x ≠ Project.id p).
    { intros x Hx Heq. apply Hp. rewrite <- Heq. apply list_elem_of_fmap. eauto. }
    case_bool_decide as Hpid.
    + rewrite elem_of_cons. split.
      * intros [-> | Hq]; [right; exists p; split; [left |]; done |].
        left. split; [by right |]. rewrite <- Hpid. by apply Hother.
      * intros [[[-> | Hq]%elem_of_cons Hne] | (q0 & [-> | Hq0]%elem_of_cons & Hid & ->)];
          [done | by right | by left |].
        exfalso. apply (Hother q0 Hq0). congruence.
    + rewrite elem_of_cons, IH. split.
      * intros [-> | [[Hq Hne] | (q0 & Hq0 & Hid & ->)]].
        -- left. split; [left |]; done.
        -- left. split; [by right | done].
        -- right. exists q0. split; [by right | done].
      * intros [[[-> | Hq]%elem_of_cons Hne] | (q0 & [-> | Hq0]%elem_of_cons & Hid & ->)].
        -- by left.
        -- right; left. done.
        -- done.
        -- right; right. eauto.
Qed.

Lemma elem_of_removeLocal pid l q :
  NoDup (Project.id <$> l) →
  q ∈ ProjectManager.removeLocal pid l ↔ q ∈ l ∧ Project.id q ≠ pid.
Proof.
  induction l as [| p l IH]; csimpl.
  - intros _. split; [by intros ?%not_elem_of_nil | by intros [?%not_elem_of_nil _]].
  - intros [Hp Hl]%NoDup_cons. specialize (IH Hl).
    assert (Hother : ∀ x, x ∈ l → Project.id x ≠ Project.id p).
    { intros x Hx Heq. apply Hp. rewrite <- Heq. apply list_elem_of_fmap. eauto. }
    case_bool_decide as Hpid.
    + split.
      * intros Hq. split; [by right |]. rewrite <- Hpid. by apply Hother.
      * intros [[-> | Hq]%elem_of_cons Hne]; done.
    + rewrite !elem_of_cons, IH. split.
      * intros [-> | [Hq Hne]]; [split; [left |]; done | split; [by right | done]].
      * intros [[-> | Hq] Hne]; [by left | by right].
Qed.

Lemma ids_removeLocal pid l :
  NoDup (Project.id <$> l) → NoDup (Project.id <$> ProjectManager.removeLocal pid l).
Proof.
  induction l as [| p l IH]; csimpl; [done |].
  intros [Hp Hl]%NoDup_cons. case_bool_decide; [done |]. csimpl.
  apply NoDup_cons. split; [| by apply IH].
  intros (x & Hid & Hx)%list_elem_of_fmap. apply Hp.
  apply elem_of_removeLocal in Hx as [Hx _]; [| done].
  apply list_elem_of_fmap. eauto.
Qed.

Lemma listed_eq l d d' : IDB.projects d' = IDB.projects d → listed l d → listed l d'.
Proof. intros Heq [Hnd Hin]. split; [done |]. intros p. by rewrite Heq. Qed.

Lemma listed_new name now l d :
  store_ok d → listed l d →
  listed (l ++ [Project.mk (currentValue "projectId" d) name now])
    (IDB.set_projects
       (os_put (Project.mk (currentValue "projectId" d) name now))
       (bump "projectId" d)).
Proof.
  intros (Hp & _ & _ & [Hfp _] & _) [Hnd Hin].
  assert (Hlow : ∀ k q, IDB.projects d !! k = Some q →
                        k ≠ currentValue "projectId" d ∧ Project.id q = k).
  { intros k q Hk. split; [| by apply Hp]. pose proof (Hfp k (mk_is_Some _ _ Hk)). lia. }
  split.
  - rewrite fmap_app. apply NoDup_app. split; [done |]. split; [| apply NoDup_singleton].
    intros x (q & -> & [k Hk]%Hin)%list_elem_of_fmap
             (q' & Heq & ->%list_elem_of_singleton)%list_elem_of_fmap.
    destruct (Hlow k q Hk) as [Hne Hid]. simpl in *. congruence.
  - intros q. rewrite elem_of_app, list_elem_of_singleton, Hin. simpl.
    unfold os_put, key_path, project_keyPath. simpl. split.
    + intros [[k Hk] | ->].
      * exists k. rewrite lookup_insert_ne; [done |].
        destruct (Hlow k q Hk) as [Hne _]. congruence.
      * eexists. apply lookup_insert_eq.
    + intros [k Hk]. apply lookup_insert_Some in Hk as [[_ <-] | [_ Hk]]; [by right |].
      left. eauto.
Qed.

Lemma listed_rename pid name l d p0 :
  os_wf (IDB.projects d) → listed l d →
  IDB.projects d !! pid = Some p0 →
  listed (ProjectManager.renameLocal pid name l)
    (IDB.set_projects
       (os_put (Project.mk (Project.id p0) name (Project.createdAt p0))) d).
Proof.
  intros Hp [Hnd Hin] Hp0. pose proof (Hp _ _ Hp0) as Hid0.
  unfold key_path, project_keyPath in Hid0.
  split; [by rewrite ids_renameLocal |].
  intros q. rewrite elem_of_renameLocal by done. simpl.
  unfold os_put, key_path, project_keyPath. simpl. rewrite Hid0. split.
  - intros [[[k Hk]%Hin Hne] | (q0 & [k Hk]%Hin & Hid & ->)].
    + exists k. rewrite lookup_insert_ne; [done |].
      pose proof (Hp _ _ Hk) as Hidq. unfold key_path, project_keyPath in Hidq. congruence.
    + exists pid. pose proof (Hp _ _ Hk) as Hidq.
      unfold key_path, project_keyPath in Hidq.
      assert (k = pid) as -> by congruence. rewrite Hp0 in Hk.
      injection Hk as <-. rewrite Hid0. apply lookup_insert_eq.
  - intros [k Hk]. apply lookup_insert_Some in Hk as [[<- <-] | [Hne Hk]].
    + right. exists p0. split; [apply Hin; eauto |]. by rewrite Hid0.
    + left. split; [apply Hin; eauto |].
      pose proof (Hp _ _ Hk) as Hidq. unfold key_path, project_keyPath in Hidq. congruence.
Qed.

Lemma listed_cascade pid l d :
  os_wf (IDB.projects d) → listed l d →
  listed (ProjectManager.removeLocal pid l) (cascade pid d).
Proof.
  intros Hp [Hnd Hin]. split; [by apply ids_removeLocal |].
  intros q. rewrite elem_of_removeLocal by done. rewrite Hin.
  unfold cascade, os_delete. simpl. split.
  - intros [[k Hk] Hne]. exists k. rewrite lookup_delete_ne; [done |].
    pose proof (Hp _ _ Hk) as Hidq. unfold key_path, project_keyPath in Hidq. congruence.
  - intros [k [Hne Hk]%lookup_delete_Some]. split; [eauto |].
    pose proof (Hp _ _ Hk) as Hidq. unfold key_path, project_keyPath in Hidq. congruence.
Qed.

Lemma listed_load d : os_wf (IDB.projects d) → listed (os_getAll (IDB.projects d)) d.
Proof.
  intros Hp. split; [| intros p; apply elem_of_os_getAll].
  unfold os_getAll. rewrite <- list_fmap_compose.
  assert (Heq : (Project.id ∘ snd) <$> map_to_list (IDB.projects d)
                = (map_to_list (IDB.projects d)).*1).
  { apply list_fmap_ext. intros i [k p] Hkp. simpl.
    apply list_elem_of_lookup_2, elem_of_map_to_list in Hkp. by apply Hp. }
  rewrite Heq. apply NoDup_fst_map_to_list.
Qed.

(** *** Every action keeps the session in order *)

Lemma open_stored_grow cur d d' :
  (∀ k q, IDB.projects d !! k = Some q → IDB.projects d' !! k = Some q) →
  open_stored cur d → open_stored cur d'.
Proof. intros Hsub Ho p Hp. by apply Hsub, Ho. Qed.

Lemma createProject_session_ok value now fl st :
  session_ok st → session_ok (ProjectManager.createProject value now fl st).2.
Proof.
  intros (Hs & Hl & Ho). unfold ProjectManager.createProject.
  destruct (negb _); [done |].
  pose proof Hs as (_ & _ & Hn & _).
  destruct (getNextId_cases "projectId" (fl 0%nat) _ Hn) as [-> | ->]; [| done].
  rewrite saveProject_fault. destruct (fl 1%nat 0%nat).
  - split; [by apply store_ok_bump | done].
  - split; [by apply store_ok_new_project |]. split; [by apply listed_new |].
    apply (open_stored_grow _ (ProjectManager.db st)); [| done].
    intros k q Hk. simpl. unfold os_put, key_path, project_keyPath. simpl.
    rewrite lookup_insert_ne; [done |]. intros <-.
    destruct Hs as (_ & _ & _ & [Hfp _] & _).
    pose proof (Hfp _ (mk_is_Some _ _ Hk)). lia.
Qed.

Lemma addContent_session_ok value now fl st :
  session_ok st → session_ok (ProjectManager.addContent value now fl st).2.
Proof.
  intros (Hs & Hl & Ho). unfold ProjectManager.addContent.
  destruct (ProjectManager.currentProject st) as [cur |] eqn:Hcur; [| by rewrite <- Hcur in Ho].
  destruct (negb _ && _); [by rewrite <- Hcur in Ho |].
  pose proof Hs as (_ & _ & Hn & _).
  destruct (getNextId_cases "contentId" (fl 0%nat) _ Hn) as [-> | ->];
    [| by rewrite <- Hcur in Ho].
  rewrite saveContent_fault. destruct (fl 1%nat 0%nat).
  - split; [by apply store_ok_bump |]. split; [done |]. simpl. by rewrite Hcur.
  - split; [apply store_ok_new_content; [done | eexists; by apply Ho] |].
    split; [done |]. simpl. by rewrite Hcur.
Qed.

Lemma openProject_session_ok projectId fl st :
  session_ok st → session_ok (ProjectManager.openProject projectId fl st).2.
Proof.
  intros (Hs & Hl & Ho). unfold ProjectManager.openProject.
  rewrite getProject_fault. destruct (fl 0%nat 0%nat); [done |].
  destruct (IDB.projects _ !! projectId) as [project |] eqn:Hproject; [| done].
  split; [done |]. split; [done |]. intros p [= <-]. simpl.
  destruct Hs as (Hp & _). pose proof (Hp _ _ Hproject) as Hid.
  unfold key_path, project_keyPath in Hid. by rewrite Hid.
Qed.

Lemma editProject_session_ok projectId answer fl st :
  session_ok st → session_ok (ProjectManager.editProject projectId answer fl st).2.
Proof.
  intros (Hs & Hl & Ho). unfold ProjectManager.editProject.
  rewrite getProject_fault. destruct (fl 0%nat 0%nat); [done |].
  destruct (IDB.projects _ !! projectId) as [project |] eqn:Hproject; [| done].
  destruct answer as [newName |]; [| done].
  destruct (JsString.truthy newName && _); [| done].
  rewrite saveProject_fault. destruct (fl 1%nat 0%nat); [done |].
  pose proof Hs as (Hp & _). pose proof (Hp _ _ Hproject) as Hid.
  unfold key_path, project_keyPath in Hid.
  split; [| split].
  - apply store_ok_put_project; [done |]. simpl. rewrite Hid. by eexists.
  - by apply listed_rename.
  - intros p Hp'. simpl in Hp'. simpl. unfold os_put, key_path, project_keyPath. simpl.
    destruct (ProjectManager.currentProject st) as [cur |]; [| done].
    pose proof (Ho cur eq_refl) as Hcur.
    case_bool_decide as Hpid; injection Hp' as <-; simpl.
    + rewrite Hpid, Hproject in Hcur. injection Hcur as ->.
      rewrite Hpid. apply lookup_insert_eq.
    + rewrite lookup_insert_ne; [done |]. by rewrite Hid.
Qed.

Lemma deleteProject_session_ok projectId fl st :
  session_ok st → session_ok (ProjectManager.deleteProject projectId fl st).2.
Proof.
  intros (Hs & Hl & Ho). unfold ProjectManager.deleteProject.
  set (st1 := match ProjectManager.currentProject st with
              | Some cur => _ | None => _ end).
  assert (Hdb : ProjectManager.db st1 = ProjectManager.db st
                ∧ ProjectManager.projects st1 = ProjectManager.projects st).
  { subst st1. destruct (ProjectManager.currentProject st); [| done].
    by case_bool_decide. }
  assert (Hcur : ∀ p, ProjectManager.currentProject st1 = Some p →
                      ProjectManager.currentProject st = Some p
                      ∧ Project.id p ≠ projectId).
  { subst st1. intros p.
    destruct (ProjectManager.currentProject st) as [cur |] eqn:E; [| by rewrite E].
    case_bool_decide; [done |]. rewrite E. by intros [= <-]. }
  destruct Hdb as [Hdb Hprojects]. clearbody st1.
  destruct (deleteProject_atomic projectId (fl 0%nat) (ProjectManager.db st1))
    as [-> | ->]; unfold session_ok;
    cbn [snd ProjectManager.db ProjectManager.projects ProjectManager.currentProject
         ProjectManager.showToast ProjectManager.set_db];
    rewrite ?Hdb, ?Hprojects.
  - pose proof Hs as (Hp & _).
    split; [by apply store_ok_cascade |]. split; [by apply listed_cascade |].
    intros p [Hp' Hne]%Hcur.
    unfold cascade, os_delete. simpl. rewrite lookup_delete_ne; [by apply Ho | done].
  - split; [done |]. split; [done |]. intros p [Hp' _]%Hcur. by apply Ho.
Qed.

Lemma saveContentEdit_session_ok contentId textarea now fl st :
  session_ok st →
  session_ok (ProjectManager.saveContentEdit contentId textarea now fl st).2.
Proof.
  intros (Hs & Hl & Ho). unfold ProjectManager.saveContentEdit.
  destruct (ProjectManager.currentProject st) as [cur |] eqn:Hcur; [| by rewrite <- Hcur in Ho].
  rewrite getProjectContent_fault.
  destruct (fl 0%nat 0%nat); [by rewrite <- Hcur in Ho |].
  destruct (ProjectManager.findContent _ _) as [c |] eqn:Hfind; [| by rewrite <- Hcur in Ho].
  destruct textarea as [value |]; [| by rewrite <- Hcur in Ho].
  destruct (negb _ && _); [by rewrite <- Hcur in Ho |].
  rewrite saveContent_fault. destruct (fl 1%nat 0%nat); [by rewrite <- Hcur in Ho |].
  apply findContent_stored in Hfind as [k Hk].
  pose proof Hs as (_ & Hc & _). pose proof (Hc _ _ Hk) as Hid.
  unfold key_path, content_keyPath in Hid. subst k.
  split; [by apply (store_ok_put_content _ c) |].
  split; [done |]. simpl. by rewrite Hcur.
Qed.

Lemma saveContentFileEdit_session_ok contentId textarea now fl st :
  session_ok st →
  session_ok (FileHandler.saveContentFileEdit contentId textarea now fl st).2.
Proof.
  intros (Hs & Hl & Ho). unfold FileHandler.saveContentFileEdit.
  destruct textarea as [newFileContent |]; [| done].
  destruct (ProjectManager.currentProject st) as [cur |] eqn:Hcur; [| by rewrite <- Hcur in Ho].
  rewrite getProjectContent_fault.
  destruct (fl 0%nat 0%nat); [by rewrite <- Hcur in Ho |].
  destruct (ProjectManager.findContent _ _) as [c |] eqn:Hfind; [| by rewrite <- Hcur in Ho].
  destruct (Content.file c) as [file |]; [| by rewrite <- Hcur in Ho].
  rewrite saveContent_fault. destruct (fl 1%nat 0%nat); [by rewrite <- Hcur in Ho |].
  apply findContent_stored in Hfind as [k Hk].
  pose proof Hs as (_ & Hc & _). pose proof (Hc _ _ Hk) as Hid.
  unfold key_path, content_keyPath in Hid. subst k.
  split; [by apply (store_ok_put_content _ c) |].
  split; [done |]. simpl. by rewrite Hcur.
Qed.

Lemma deleteContent_session_ok contentId fl st :
  session_ok st → session_ok (ProjectManager.deleteContent contentId fl st).2.
Proof.
  intros (Hs & Hl & Ho). unfold ProjectManager.deleteContent.
  destruct (ProjectManager.currentProject st) as [cur |] eqn:Hcur; [| by rewrite <- Hcur in Ho].
  rewrite deleteContent_fault. destruct (fl 0%nat 0%nat); [by rewrite <- Hcur in Ho |].
  split; [by apply store_ok_delete_content |]. split; [done |]. simpl. by rewrite Hcur.
Qed.

Lemma step_session_ok a st : session_ok st → session_ok (App.step a st).
Proof.
  destruct a; simpl.
  - apply createProject_session_ok.
  - done.
  - done.
  - apply openProject_session_ok.
  - intros (Hs & Hl & Ho). by split; [| split].
  - apply addContent_session_ok.
  - apply editProject_session_ok.
  - apply deleteProject_session_ok.
  - apply saveContentEdit_session_ok.
  - apply saveContentFileEdit_session_ok.
  - apply deleteContent_session_ok.
Qed.

Lemma run_session_ok actions st : session_ok st → session_ok (App.run actions st).
Proof.
  revert st. induction actions as [| a actions IH]; intros st Hok; [done |].
  apply IH. by apply step_session_ok.
Qed.

Lemma opened_session_ok d :
  store_ok d → session_ok (ProjectManagerView.opened no_faults d).
Proof.
  intros Hs. unfold ProjectManagerView.opened, ProjectManagerView.loadProjects.
  unfold DatabaseManager.getAllProjects. unfold_txn. unfold no_faults, no_fault. simpl.
  split; [done |]. split; [| done]. apply listed_load, Hs.
Qed.

(** The database of a first start satisfies what a session needs. *)
Lemma store_ok_init : store_ok DatabaseManager.init.
Proof.
  split; [apply os_wf_empty |]. split; [apply os_wf_empty |].
  split; [apply init_wf |]. split; [split |].
  - intros k [p Hp]. cbn in Hp. by rewrite lookup_empty in Hp.
  - intros k [c Hc]. cbn in Hc. by rewrite lookup_empty in Hc.
  - intros k c Hc. cbn in Hc. by rewrite lookup_empty in Hc.
Qed.

Lemma opened_init : ProjectManagerView.opened no_faults DatabaseManager.init
                    = ProjectManager.initial.
Proof. reflexivity. Qed.

(** Every state reached from a database that a session may have left. *)
Lemma reached_session_ok d actions :
  store_ok d → session_ok (App.run actions (ProjectManagerView.opened no_faults d)).
Proof. intros Hs. by apply run_session_ok, opened_session_ok. Qed.

(** *** What a session guarantees *)

Lemma listed_Permutation l l' d : listed l d → listed l' d → l ≡ₚ l'.
Proof.
  intros [Hnd Hin] [Hnd' Hin']. apply NoDup_Permutation.
  - by apply (NoDup_fmap_1 Project.id).
  - by apply (NoDup_fmap_1 Project.id).
  - intros p. by rewrite Hin, Hin'.
Qed.

Lemma listed_length l d :
  os_wf (IDB.projects d) → listed l d → length l = size (IDB.projects d).
Proof.
  intros Hp Hl.
  rewrite (Permutation_length (listed_Permutation _ _ _ Hl (listed_load d Hp))).
  unfold os_getAll. by rewrite length_fmap, length_map_to_list.
Qed.

Definition morning : jsstring := js "2024-05-02T08:00:00.000Z".

(** Two projects are created, the first is opened, gets an idea and a
    new name, and the second is deleted. *)
Definition demo : list App.action :=
  [App.CreateProject (js " Garden ") morning no_faults;
   App.CreateProject (js "Travel") morning no_faults;
   App.OpenProject 1 no_faults;
   App.AddContent (js "plant tomatoes") morning no_faults;
   App.EditProject 1 (Some (js "Allotment")) no_faults;
   App.DeleteProject 2 no_faults].

Definition afterDemo : ProjectManager.t :=
  App.run demo (ProjectManagerView.opened no_faults DatabaseManager.init).

(** X5. In a session whose actions are awaited one after the other,
    whatever requests fail, every content record belongs to a project
    that is stored and the open project is the record stored under its
    id; the database is left fit for the next session. *)
Theorem session_references (d : db) (actions : list App.action) :
  store_ok d →
  let st := App.run actions (ProjectManagerView.opened no_faults d) in
  (∀ k c, IDB.content (ProjectManager.db st) !! k = Some c →
          is_Some (IDB.projects (ProjectManager.db st) !! Content.projectId c))
  ∧ (∀ cur, ProjectManager.currentProject st = Some cur →
            IDB.projects (ProjectManager.db st) !! Project.id cur = Some cur)
  ∧ store_ok (ProjectManager.db st).
Proof.
  intros Hs st. destruct (reached_session_ok d actions Hs) as (Hs' & _ & Ho).
  split; [apply Hs' |]. split; [exact Ho | exact Hs'].
Qed.

Lemma session_references_witness :
  store_ok DatabaseManager.init
  ∧ size (IDB.content (ProjectManager.db afterDemo)) = 1%nat
  ∧ ∀ k c, IDB.content (ProjectManager.db afterDemo) !! k = Some c →
           is_Some (IDB.projects (ProjectManager.db afterDemo) !! Content.projectId c).
Proof.
  split; [exact store_ok_init |]. split; [reflexivity |].
  exact (proj1 (session_references DatabaseManager.init demo store_ok_init)).
Defined.

(** X6. In such a session [this.projects] holds exactly the stored
    projects, each once: it is a rearrangement of what [getAllProjects]
    lists, its length is the number of stored projects, and
    [loadProjects] gives the same projects again. *)
Theorem projects_mirror (d : db) (actions : list App.action) :
  store_ok d →
  let st := App.run actions (ProjectManagerView.opened no_faults d) in
  ProjectManager.projects st ≡ₚ os_getAll (IDB.projects (ProjectManager.db st))
  ∧ NoDup (Project.id <$> ProjectManager.projects st)
  ∧ Z.of_nat (length (ProjectManager.projects st))
    = os_count (IDB.projects (ProjectManager.db st))
  ∧ ProjectManager.projects (ProjectManagerView.loadProjects no_faults st).2
    ≡ₚ ProjectManager.projects st.
Proof.
  intros Hs st. destruct (reached_session_ok d actions Hs) as (Hs' & Hl & _).
  fold st in Hs', Hl. pose proof Hs' as (Hp & _).
  pose proof (listed_Permutation _ _ _ Hl (listed_load _ Hp)) as Hperm.
  split; [exact Hperm |]. split; [apply Hl |].
  split; [unfold os_count; f_equal; by apply listed_length |].
  unfold ProjectManagerView.loadProjects, DatabaseManager.getAllProjects.
  unfold_txn. unfold no_faults, no_fault. by cbn [snd ProjectManager.projects].
Qed.

Lemma projects_mirror_witness :
  store_ok DatabaseManager.init
  ∧ ProjectManager.projects afterDemo
    ≡ₚ os_getAll (IDB.projects (ProjectManager.db afterDemo))
  ∧ Project.name <$> ProjectManager.projects afterDemo = [js "Allotment"].
Proof.
  split; [exact store_ok_init |].
  split; [exact (proj1 (projects_mirror DatabaseManager.init demo store_ok_init)) |].
  reflexivity.
Defined.

(** *** New records get new ids *)

Lemma createProject_run value now st :
  os_wf (IDB.counters (ProjectManager.db st)) →
  JsString.truthy (JsString.trim value) = true →
  let p := Project.mk (currentValue "projectId" (ProjectManager.db st))
                      (JsString.trim value) now in
  ProjectManager.createProject value now no_faults st
  = (Resolved tt,
     ProjectManager.mk
       (IDB.set_projects (os_put p) (bump "projectId" (ProjectManager.db st)))
       (ProjectManager.projects st ++ [p]) (ProjectManager.currentProject st)
       (ProjectManager.currentFileContent st) (ProjectManager.notices st)).
Proof.
  intros Hn Ht p. unfold ProjectManager.createProject. rewrite Ht. cbn [negb].
  unfold no_faults. rewrite getNextId_ok by done. by rewrite saveProject_fault.
Qed.

(** X7. [createProject] with a name that is not blank, on storage that
    does not fail, files the new project under an id no stored project
    has: nothing is overwritten, every earlier project is still there,
    the list gains the project at its end, and the counter is one past
    the id. *)
Theorem createProject_fresh (value now : jsstring) (st : ProjectManager.t) :
  store_ok (ProjectManager.db st) →
  JsString.truthy (JsString.trim value) = true →
  let id := currentValue "projectId" (ProjectManager.db st) in
  let p := Project.mk id (JsString.trim value) now in
  let st' := (ProjectManager.createProject value now no_faults st).2 in
  IDB.projects (ProjectManager.db st) !! id = None
  ∧ IDB.projects (ProjectManager.db st') = <[id := p]> (IDB.projects (ProjectManager.db st))
  ∧ (∀ k q, IDB.projects (ProjectManager.db st) !! k = Some q →
            IDB.projects (ProjectManager.db st') !! k = Some q)
  ∧ os_count (IDB.projects (ProjectManager.db st'))
    = (os_count (IDB.projects (ProjectManager.db st)) + 1)%Z
  ∧ ProjectManager.projects st' = ProjectManager.projects st ++ [p]
  ∧ currentValue "projectId" (ProjectManager.db st') = (id + 1)%Z
  ∧ IDB.content (ProjectManager.db st') = IDB.content (ProjectManager.db st)
  ∧ ProjectManager.notices st' = ProjectManager.notices st.
Proof.
  intros (_ & _ & Hn & [Hfp _] & _) Ht id p st'.
  assert (Hnew : IDB.projects (ProjectManager.db st) !! id = None).
  { apply eq_None_not_Some. intros Hk%Hfp. subst id. lia. }
  subst st'. rewrite createProject_run by done. cbn [snd].
  split; [done |]. split; [done |]. split.
  { intros k q Hk. simpl. unfold os_put, key_path, project_keyPath. simpl.
    rewrite lookup_insert_ne; [done |]. intros <-. fold id in Hk. congruence. }
  split.
  { simpl. unfold os_count, os_put, key_path, project_keyPath. simpl.
    rewrite map_size_insert_None by done. lia. }
  split; [done |]. split; [| done].
  simpl. change (currentValue "projectId" (IDB.set_projects _ _))
    with (currentValue "projectId" (bump "projectId" (ProjectManager.db st))).
  rewrite currentValue_bump. by rewrite decide_True.
Qed.

Lemma createProject_fresh_witness :
  store_ok (ProjectManager.db afterDemo)
  ∧ IDB.projects (ProjectManager.db afterDemo) !! 3%Z = None
  ∧ Project.id <$> ProjectManager.projects
                     (ProjectManager.createProject (js "Books") morning no_faults
                        afterDemo).2
    = [1; 3]%Z.
Proof.
  assert (Hs : store_ok (ProjectManager.db afterDemo))
    by exact (proj1 (reached_session_ok DatabaseManager.init demo store_ok_init)).
  split; [exact Hs |].
  destruct (createProject_fresh (js "Books") morning afterDemo Hs eq_refl)
    as (H1 & _ & _ & _ & H5 & _).
  split; [exact H1 |]. rewrite H5. reflexivity.
Defined.

(** X8. [addContent] with a text or a file, a project open and storage
    that does not fail files the new record under an id no content
    record has: the count of ideas grows by one, the listing of the open
    project gains the record and keeps the others, the file preview is
    cleared and the counter is one past the id. *)
Theorem addContent_fresh (value now : jsstring) (st : ProjectManager.t)
    (cur : Project.t) :
  store_ok (ProjectManager.db st) →
  ProjectManager.currentProject st = Some cur →
  JsString.truthy (JsString.trim value) = true
  ∨ is_Some (ProjectManager.currentFileContent st) →
  let id := currentValue "contentId" (ProjectManager.db st) in
  let c := newContent id cur (JsString.trim value) now
             (ProjectManager.currentFileContent st) in
  let st' := (ProjectManager.addContent value now no_faults st).2 in
  IDB.content (ProjectManager.db st) !! id = None
  ∧ IDB.content (ProjectManager.db st') = <[id := c]> (IDB.content (ProjectManager.db st))
  ∧ (transaction DatabaseManager.getTotalIdeasCount no_fault (ProjectManager.db st')).1
    = Resolved (os_count (IDB.content (ProjectManager.db st)) + 1)%Z
  ∧ (∃ l l',
        transaction (DatabaseManager.getProjectContent (Project.id cur)) no_fault
          (ProjectManager.db st) = (Resolved l, ProjectManager.db st)
        ∧ transaction (DatabaseManager.getProjectContent (Project.id cur)) no_fault
            (ProjectManager.db st') = (Resolved l', ProjectManager.db st')
        ∧ ∀ r, r ∈ l' ↔ r = c ∨ r ∈ l)
  ∧ ProjectManager.currentFileContent st' = None
  ∧ currentValue "contentId" (ProjectManager.db st') = (id + 1)%Z
  ∧ IDB.projects (ProjectManager.db st') = IDB.projects (ProjectManager.db st)
  ∧ ProjectManager.notices st' = ProjectManager.notices st.
Proof.
  intros (_ & _ & Hn & [_ Hfc] & _) Hcur Hin id c st'.
  assert (Hnew : IDB.content (ProjectManager.db st) !! id = None).
  { apply eq_None_not_Some. intros Hk%Hfc. subst id. lia. }
  subst st'. rewrite (addContent_ok value now st cur) by done. cbn [snd].
  fold id. fold c. fold (bump "contentId" (ProjectManager.db st)).
  cbn [ProjectManager.db ProjectManager.currentFileContent ProjectManager.notices].
  split; [done |]. split; [done |]. split.
  { rewrite DatabaseManagerMore.getTotalIdeasCount_run. unfold no_fault. cbn [fst].
    f_equal. simpl. unfold os_count, os_put, key_path, content_keyPath. simpl.
    rewrite map_size_insert_None by done. lia. }
  split.
  { rewrite !getProjectContent_fault. unfold no_fault. eexists _, _.
    split; [reflexivity |]. split; [reflexivity |].
    intros r. rewrite !elem_of_index_getAll. simpl.
    unfold os_put, key_path, content_keyPath. simpl. split.
    - intros (k & Hk & Hpid).
      apply lookup_insert_Some in Hk as [[_ <-] | [_ Hk]]; [by left | right; eauto].
    - intros [-> | (k & Hk & Hpid)].
      + exists id. split; [apply lookup_insert_eq | done].
      + exists k. split; [| done]. rewrite lookup_insert_ne; [done |].
        intros <-. congruence. }
  split; [done |]. split; [| done].
  change (currentValue "contentId" (IDB.set_content _ _))
    with (currentValue "contentId" (bump "contentId" (ProjectManager.db st))).
  rewrite currentValue_bump. by rewrite decide_True.
Qed.

Lemma addContent_fresh_witness :
  store_ok (ProjectManager.db afterDemo)
  ∧ IDB.content (ProjectManager.db afterDemo) !! 2%Z = None
  ∧ (transaction DatabaseManager.getTotalIdeasCount no_fault
       (ProjectManager.db
          (ProjectManager.addContent (js "water daily") morning no_faults afterDemo).2)).1
    = Resolved 2%Z.
Proof.
  assert (Hs : store_ok (ProjectManager.db afterDemo))
    by exact (proj1 (reached_session_ok DatabaseManager.init demo store_ok_init)).
  split; [exact Hs |].
  destruct (addContent_fresh (js "water daily") morning afterDemo
              (Project.mk 1 (js "Allotment") morning) Hs eq_refl (or_introl eq_refl))
    as (H1 & _ & H3 & _).
  split; [exact H1 | exact H3].
Defined.

(** *** The statistics *)

Section statistics.
Variable isoDaysAgo : Z → jsstring.

Lemma getRecentProjectsCount_run days f s :
  transaction (DatabaseManager.getRecentProjectsCount isoDaysAgo days) f s
  = (if f 0%nat || f 1%nat then Rejected RequestError
     else Resolved
            (Z.of_nat (size (DatabaseManager.recentProjectIds
                               (isoDaysAgo (default 7%Z days))
                               (os_getAll (IDB.projects s))
                               (os_getAll (IDB.content s))))), s).
Proof.
  unfold DatabaseManager.getRecentProjectsCount. unfold_txn.
  destruct (f 0%nat); [done |]. by destruct (f 1%nat).
Qed.

Lemma recentProjectIds_stored w d :
  os_wf (IDB.projects d) → references_ok d →
  DatabaseManager.recentProjectIds w (os_getAll (IDB.projects d))
    (os_getAll (IDB.content d)) ⊆ dom (IDB.projects d).
Proof.
  intros Hp Hr v [(k & p & Hk & _ & <-) | (k & c & Hk & _ & <-)]%elem_of_recentProjectIds;
    apply elem_of_dom.
  - pose proof (Hp _ _ Hk) as Hid. unfold key_path, project_keyPath in Hid.
    rewrite Hid. by eexists.
  - by apply (Hr k c).
Qed.

(** X9. [updateStatistics] in a session: the projects shown are as many
    as are stored; when no request fails the ideas shown are the number
    of content records and the recent activity is a number between zero
    and the number of projects; when a request of either count fails
    both show ['?'], also the one that had been read. *)
Theorem updateStatistics_shown (fl : faults) (st : ProjectManager.t) :
  session_ok st →
  let total := os_count (IDB.projects (ProjectManager.db st)) in
  let shown := ProjectManagerView.updateStatistics isoDaysAgo fl st in
  ProjectManagerView.totalProjects shown = total
  ∧ (fl 0%nat 0%nat || fl 1%nat 0%nat || fl 1%nat 1%nat = true →
     ProjectManagerView.totalIdeas shown = ProjectManagerView.QuestionMark
     ∧ ProjectManagerView.recentActivity shown = ProjectManagerView.QuestionMark)
  ∧ (fl 0%nat 0%nat || fl 1%nat 0%nat || fl 1%nat 1%nat = false →
     ProjectManagerView.totalIdeas shown
     = ProjectManagerView.Number (os_count (IDB.content (ProjectManager.db st)))
     ∧ ∃ recent, ProjectManagerView.recentActivity shown
                 = ProjectManagerView.Number recent
                 ∧ (0 ≤ recent ≤ total)%Z).
Proof.
  intros ((Hp & _ & _ & _ & Hr) & Hl & _) total shown. subst shown.
  unfold ProjectManagerView.updateStatistics.
  rewrite DatabaseManagerMore.getTotalIdeasCount_run, getRecentProjectsCount_run.
  rewrite (listed_length _ _ Hp Hl). fold (os_count (IDB.projects (ProjectManager.db st))).
  fold total.
  destruct (fl 0%nat 0%nat); [by split; [| split] |].
  destruct (fl 1%nat 0%nat || fl 1%nat 1%nat) eqn:E; cbn [orb];
    rewrite ?E; [by split; [| split] |].
  split; [done |]. split; [done |]. intros _. split; [done |].
  eexists. split; [reflexivity |]. split; [lia |].
  subst total. unfold os_count.
  pose proof (subseteq_size _ _ (recentProjectIds_stored (isoDaysAgo 7) _ Hp Hr)) as Hle.
  rewrite size_dom in Hle. simpl. lia.
Qed.

End statistics.

Lemma updateStatistics_shown_witness :
  session_ok afterDemo
  ∧ ProjectManagerView.totalIdeas
      (ProjectManagerView.updateStatistics (λ _, js "2024-04-25T08:00:00.000Z")
         no_faults afterDemo)
    = ProjectManagerView.Number 1
  ∧ ProjectManagerView.recentActivity
      (ProjectManagerView.updateStatistics (λ _, js "2024-04-25T08:00:00.000Z")
         (λ k, if bool_decide (k = 1%nat) then λ _, true else no_fault) afterDemo)
    = ProjectManagerView.QuestionMark.
Proof.
  assert (Hs : session_ok afterDemo)
    by exact (reached_session_ok DatabaseManager.init demo store_ok_init).
  split; [exact Hs |]. split.
  - exact (proj1 (proj2 (proj2 (updateStatistics_shown
                                  (λ _, js "2024-04-25T08:00:00.000Z")
                                  no_faults afterDemo Hs)) eq_refl)).
  - exact (proj2 (proj1 (proj2 (updateStatistics_shown
                                  (λ _, js "2024-04-25T08:00:00.000Z")
                                  (λ k, if bool_decide (k = 1%nat) then λ _, true
                                        else no_fault)
                                  afterDemo Hs)) eq_refl)).
Defined.

(** *** Failures *)

(** Neither record store nor [this.projects] differs between the two
    states. *)
Definition records_kept (st st' : ProjectManager.t) : Prop :=
  IDB.projects (ProjectManager.db st') = IDB.projects (ProjectManager.db st)
  ∧ IDB.content (ProjectManager.db st') = IDB.content (ProjectManager.db st)
  ∧ ProjectManager.projects st' = ProjectManager.projects st.

Ltac notice_kept := left; reflexivity.
Ltac notice_failure :=
  right; eexists; split; [reflexivity |]; right; by split; [| split].

Lemma step_notice a st :
  ProjectManager.notices (App.step a st) = ProjectManager.notices st
  ∨ ∃ n, ProjectManager.notices (App.step a st) = ProjectManager.notices st ++ [n]
         ∧ (n = Toast "File content saved!" ∨ records_kept st (App.step a st)).
Proof.
  destruct a; simpl; try notice_kept.
  - unfold ProjectManager.createProject. destruct (negb _); [notice_kept |].
    destruct (getNextId_frame "projectId" (fl 0%nat) (ProjectManager.db st)) as [E1 E2].
    destruct (transaction (DatabaseManager.getNextId _) _ _) as [[v | e] d1];
      simpl in E1, E2; [| notice_failure].
    rewrite saveProject_fault. destruct (fl 1%nat 0%nat); [notice_failure | notice_kept].
  - unfold ProjectManager.openProject. rewrite getProject_fault.
    destruct (fl 0%nat 0%nat); [notice_failure |].
    destruct (IDB.projects _ !! projectId); notice_kept.
  - unfold ProjectManager.addContent.
    destruct (ProjectManager.currentProject st) as [cur |]; [| notice_kept].
    destruct (negb _ && _); [notice_kept |].
    destruct (getNextId_frame "contentId" (fl 0%nat) (ProjectManager.db st)) as [E1 E2].
    destruct (transaction (DatabaseManager.getNextId _) _ _) as [[v | e] d1];
      simpl in E1, E2; [| notice_failure].
    rewrite saveContent_fault. destruct (fl 1%nat 0%nat); [notice_failure | notice_kept].
  - unfold ProjectManager.editProject. rewrite getProject_fault.
    destruct (fl 0%nat 0%nat); [notice_failure |].
    destruct (IDB.projects _ !! projectId) as [project |]; [| notice_kept].
    destruct answer as [newName |]; [| notice_kept].
    destruct (JsString.truthy newName && _); [| notice_kept].
    rewrite saveProject_fault. destruct (fl 1%nat 0%nat); [notice_failure | notice_kept].
  - unfold ProjectManager.deleteProject.
    set (st1 := match ProjectManager.currentProject st with
                | Some cur => _ | None => _ end).
    assert (Hst1 : ProjectManager.db st1 = ProjectManager.db st
                   ∧ ProjectManager.projects st1 = ProjectManager.projects st
                   ∧ ProjectManager.notices st1 = ProjectManager.notices st).
    { subst st1. destruct (ProjectManager.currentProject st); [| done].
      by case_bool_decide. }
    destruct Hst1 as (Hdb & Hprojects & Hnotices). clearbody st1.
    destruct (deleteProject_atomic projectId (fl 0%nat) (ProjectManager.db st1))
      as [-> | ->].
    + left. exact Hnotices.
    + right. eexists. split; [simpl; by rewrite Hnotices |]. right.
      split; [simpl; by rewrite Hdb |]. split; [simpl; by rewrite Hdb | exact Hprojects].
  - unfold ProjectManager.saveContentEdit.
    destruct (ProjectManager.currentProject st) as [cur |]; [| notice_kept].
    rewrite getProjectContent_fault. destruct (fl 0%nat 0%nat); [notice_failure |].
    destruct (ProjectManager.findContent _ _) as [c |]; [| notice_kept].
    destruct textarea as [value |]; [| notice_kept].
    destruct (negb _ && _); [notice_failure |].
    rewrite saveContent_fault. destruct (fl 1%nat 0%nat); [notice_failure | notice_kept].
  - unfold FileHandler.saveContentFileEdit.
    destruct textarea as [newFileContent |]; [| notice_kept].
    destruct (ProjectManager.currentProject st) as [cur |]; [| notice_failure].
    rewrite getProjectContent_fault. destruct (fl 0%nat 0%nat); [notice_failure |].
    destruct (ProjectManager.findContent _ _) as [c |]; [| notice_kept].
    destruct (Content.file c) as [file |]; [| notice_kept].
    rewrite saveContent_fault. destruct (fl 1%nat 0%nat); [notice_failure |].
    right. eexists. split; [reflexivity |]. by left.
  - unfold ProjectManager.deleteContent.
    destruct (ProjectManager.currentProject st); [| notice_kept].
    rewrite deleteContent_fault. destruct (fl 0%nat 0%nat); [notice_failure | notice_kept].
Qed.

(** X10. Whatever the action, the state and the requests that fail:
    when the action itself ends with a notice other than the toast of a
    saved file, that is with the toast of its [catch] or with the alert
    of an empty edit, no project and no content record has been written
    or deleted, and [this.projects] is what it was. The notices of the
    rendering that follows are not part of the state. *)
Theorem failure_keeps_records (a : App.action) (st : ProjectManager.t) (n : notice) :
  ProjectManager.notices (App.step a st) = ProjectManager.notices st ++ [n] →
  n ≠ Toast "File content saved!" →
  IDB.projects (ProjectManager.db (App.step a st)) = IDB.projects (ProjectManager.db st)
  ∧ IDB.content (ProjectManager.db (App.step a st)) = IDB.content (ProjectManager.db st)
  ∧ ProjectManager.projects (App.step a st) = ProjectManager.projects st.
Proof.
  intros Hn Hne. destruct (step_notice a st) as [Hkept | (n' & Hn' & Hcase)].
  - rewrite Hkept in Hn. apply (f_equal length) in Hn.
    rewrite length_app in Hn. simpl in Hn. lia.
  - rewrite Hn' in Hn. apply app_inv_head in Hn. injection Hn as ->.
    by destruct Hcase.
Qed.

(** The second request the action makes fails. *)
Definition secondFails : faults :=
  λ k, if bool_decide (k = 1%nat) then λ _, true else no_fault.

Lemma failure_keeps_records_witness :
  ProjectManager.notices
    (App.step (App.CreateProject (js "Books") morning secondFails) afterDemo)
  = ProjectManager.notices afterDemo
    ++ [Toast "Failed to create project. Please try again."]
  ∧ IDB.projects
      (ProjectManager.db
         (App.step (App.CreateProject (js "Books") morning secondFails) afterDemo))
    = IDB.projects (ProjectManager.db afterDemo).
Proof.
  split; [reflexivity |].
  refine (proj1 (failure_keeps_records
                   (App.CreateProject (js "Books") morning secondFails) afterDemo
                   (Toast "Failed to create project. Please try again.") eq_refl _)).
  discriminate.
Defined.

Lemma getNextId_run counterName f s :
  transaction (DatabaseManager.getNextId counterName) f s
  = (if f 0%nat || f 1%nat then (Rejected RequestError, s)
     else transaction (DatabaseManager.getNextId counterName) no_fault s).
Proof.
  unfold DatabaseManager.getNextId, DatabaseManager.nextCounter. unfold_txn.
  destruct (f 0%nat); [done |]. by destruct (f 1%nat).
Qed.

(** X11. [createProject] takes its id in a transaction of its own: when
    the id has been handed out and storing the project then fails, no
    project is stored and the failure is reported, but the counter has
    moved on, so the project created next skips that id. *)
Theorem createProject_failed_save (value now : jsstring) (fl : faults)
    (st : ProjectManager.t) :
  os_wf (IDB.counters (ProjectManager.db st)) →
  JsString.truthy (JsString.trim value) = true →
  fl 0%nat 0%nat = false → fl 0%nat 1%nat = false → fl 1%nat 0%nat = true →
  let id := currentValue "projectId" (ProjectManager.db st) in
  let st' := (ProjectManager.createProject value now fl st).2 in
  IDB.projects (ProjectManager.db st') = IDB.projects (ProjectManager.db st)
  ∧ ProjectManager.projects st' = ProjectManager.projects st
  ∧ ProjectManager.notices st'
    = ProjectManager.notices st ++ [Toast "Failed to create project. Please try again."]
  ∧ currentValue "projectId" (ProjectManager.db st') = (id + 1)%Z
  ∧ ∀ value' now',
      JsString.truthy (JsString.trim value') = true →
      ProjectManager.projects (ProjectManager.createProject value' now' no_faults st').2
      = ProjectManager.projects st
        ++ [Project.mk (id + 1) (JsString.trim value') now'].
Proof.
  intros Hn Ht H0 H1 H2 id st'.
  assert (Hst' : st' = ProjectManager.showToast "Failed to create project. Please try again."
                         (ProjectManager.set_db (bump "projectId" (ProjectManager.db st))
                            st)).
  { subst st'. unfold ProjectManager.createProject. rewrite Ht. cbn [negb].
    rewrite getNextId_run, H0, H1. cbn [orb]. rewrite getNextId_ok by done.
    by rewrite saveProject_fault, H2. }
  assert (Hid : currentValue "projectId" (ProjectManager.db st') = (id + 1)%Z).
  { rewrite Hst'. simpl. rewrite currentValue_bump. by rewrite decide_True. }
  split; [by rewrite Hst' |]. split; [by rewrite Hst' |]. split; [by rewrite Hst' |].
  split; [exact Hid |].
  intros value' now' Ht'. rewrite createProject_run; [| | done].
  - cbn [snd ProjectManager.projects]. rewrite Hid. by rewrite Hst'.
  - rewrite Hst'. simpl. by apply os_wf_counters_next.
Qed.

Lemma createProject_failed_save_witness :
  os_wf (IDB.counters (ProjectManager.db afterDemo))
  ∧ Project.id <$> ProjectManager.projects
       (ProjectManager.createProject (js "Films") morning no_faults
          (ProjectManager.createProject (js "Books") morning secondFails afterDemo).2).2
    = [1; 4]%Z.
Proof.
  assert (Hwf : os_wf (IDB.counters (ProjectManager.db afterDemo))) by by_computation.
  split; [exact Hwf |].
  destruct (createProject_failed_save (js "Books") morning secondFails afterDemo
              Hwf eq_refl eq_refl eq_refl eq_refl) as (_ & _ & _ & _ & Hnext).
  rewrite (Hnext (js "Films") morning eq_refl). reflexivity.
Defined.

(** *** Ids are not handed out twice *)

Lemma currentValue_counters name d d' :
  IDB.counters d' = IDB.counters d → currentValue name d' = currentValue name d.
Proof. unfold currentValue. by intros ->. Qed.

Lemma step_counters a st :
  os_wf (IDB.counters (ProjectManager.db st)) →
  IDB.counters (ProjectManager.db (App.step a st)) = IDB.counters (ProjectManager.db st)
  ∨ ∃ counterName,
      IDB.counters (ProjectManager.db (App.step a st))
      = IDB.counters (bump counterName (ProjectManager.db st)).
Proof.
  intros Hwf. destruct a; simpl; try (by left).
  - unfold ProjectManager.createProject. destruct (negb _); [by left |].
    destruct (getNextId_cases "projectId" (fl 0%nat) _ Hwf) as [-> | ->]; [| by left].
    rewrite saveProject_fault. destruct (fl 1%nat 0%nat); right; by exists "projectId".
  - left. by rewrite openProject_db.
  - unfold ProjectManager.addContent.
    destruct (ProjectManager.currentProject st) as [cur |]; [| by left].
    destruct (negb _ && _); [by left |].
    destruct (getNextId_cases "contentId" (fl 0%nat) _ Hwf) as [-> | ->]; [| by left].
    rewrite saveContent_fault. destruct (fl 1%nat 0%nat); right; by exists "contentId".
  - left. unfold ProjectManager.editProject.
    rewrite getProject_fault. destruct (fl 0%nat 0%nat); [done |].
    destruct (IDB.projects _ !! projectId) as [project |]; [| done].
    destruct answer as [newName |]; [| done].
    destruct (JsString.truthy newName && _); [| done].
    rewrite saveProject_fault. by destruct (fl 1%nat 0%nat).
  - left. unfold ProjectManager.deleteProject.
    set (st1 := match ProjectManager.currentProject st with
                | Some cur => _ | None => _ end).
    assert (Hst1 : ProjectManager.db st1 = ProjectManager.db st).
    { subst st1. destruct (ProjectManager.currentProject st); [| done].
      by case_bool_decide. }
    pose proof (deleteProject_counters projectId (fl 0%nat) (ProjectManager.db st1)) as H1.
    rewrite Hst1 in H1 at 2.
    destruct (transaction (DatabaseManager.deleteProject _) _ _) as [[r | e] d];
      simpl in *; by rewrite H1.
  - left. unfold ProjectManager.saveContentEdit.
    destruct (ProjectManager.currentProject st) as [cur |]; [| done].
    rewrite getProjectContent_fault. destruct (fl 0%nat 0%nat); [done |].
    destruct (ProjectManager.findContent _ _) as [c |]; [| done].
    destruct textarea as [value |]; [| done].
    destruct (negb _ && _); [done |].
    rewrite saveContent_fault. by destruct (fl 1%nat 0%nat).
  - left. unfold FileHandler.saveContentFileEdit.
    destruct textarea as [newFileContent |]; [| done].
    destruct (ProjectManager.currentProject st) as [cur |]; [| done].
    rewrite getProjectContent_fault. destruct (fl 0%nat 0%nat); [done |].
    destruct (ProjectManager.findContent _ _) as [c |]; [| done].
    destruct (Content.file c) as [file |]; [| done].
    rewrite saveContent_fault. by destruct (fl 1%nat 0%nat).
  - left. unfold ProjectManager.deleteContent.
    destruct (ProjectManager.currentProject st); [| done].
    rewrite deleteContent_fault. by destruct (fl 0%nat 0%nat).
Qed.

Lemma run_currentValue_le name actions st :
  os_wf (IDB.counters (ProjectManager.db st)) →
  (currentValue name (ProjectManager.db st)
   ≤ currentValue name (ProjectManager.db (App.run actions st)))%Z.
Proof.
  revert st. induction actions as [| a actions IH]; intros st Hwf; [done |].
  etrans; [| apply IH, step_counters_wf, Hwf].
  destruct (step_counters a st Hwf) as [E | [counterName E]].
  - by rewrite (currentValue_counters _ _ _ E).
  - rewrite (currentValue_counters _ _ _ E). apply currentValue_bump_le.
Qed.

(** The two projects of the example have been created. *)
Definition created : list App.action :=
  [App.CreateProject (js " Garden ") morning no_faults;
   App.CreateProject (js "Travel") morning no_faults].

Definition afterCreated : ProjectManager.t :=
  App.run created (ProjectManagerView.opened no_faults DatabaseManager.init).

(** X12. A counter never goes back, whatever is done and whatever
    fails; so an id that a record has at some time stays below its
    counter for good, also once the record has been deleted, and
    [getNextId] never hands it out again. *)
Theorem ids_never_reused (actions : list App.action) (st : ProjectManager.t) :
  os_wf (IDB.counters (ProjectManager.db st)) →
  ids_fresh (ProjectManager.db st) →
  let st' := App.run actions st in
  (∀ name, (currentValue name (ProjectManager.db st)
            ≤ currentValue name (ProjectManager.db st'))%Z)
  ∧ (∀ k, is_Some (IDB.projects (ProjectManager.db st) !! k) →
          (k < currentValue "projectId" (ProjectManager.db st'))%Z)
  ∧ (∀ k, is_Some (IDB.content (ProjectManager.db st) !! k) →
          (k < currentValue "contentId" (ProjectManager.db st'))%Z).
Proof.
  intros Hwf [Hfp Hfc] st'. subst st'. split; [| split].
  - intros name. by apply run_currentValue_le.
  - intros k Hk%Hfp. pose proof (run_currentValue_le "projectId" actions st Hwf). lia.
  - intros k Hk%Hfc. pose proof (run_currentValue_le "contentId" actions st Hwf). lia.
Qed.

Lemma ids_never_reused_witness :
  is_Some (IDB.projects (ProjectManager.db afterCreated) !! 2%Z)
  ∧ IDB.projects
      (ProjectManager.db
         (App.run [App.DeleteProject 2 no_faults;
                   App.CreateProject (js "Books") morning no_faults] afterCreated))
    !! 2%Z = None
  ∧ (2 < currentValue "projectId"
           (ProjectManager.db
              (App.run [App.DeleteProject 2 no_faults;
                        App.CreateProject (js "Books") morning no_faults]
                 afterCreated)))%Z.
Proof.
  assert (Hs : store_ok (ProjectManager.db afterCreated))
    by exact (proj1 (reached_session_ok DatabaseManager.init created store_ok_init)).
  assert (H2 : is_Some (IDB.projects (ProjectManager.db afterCreated) !! 2%Z))
    by (eexists; reflexivity).
  split; [exact H2 |]. split; [reflexivity |].
  destruct Hs as (_ & _ & Hwf & Hfresh & _).
  exact (proj1 (proj2 (ids_never_reused
                         [App.DeleteProject 2 no_faults;
                          App.CreateProject (js "Books") morning no_faults]
                         afterCreated Hwf Hfresh)) 2%Z H2).
Defined.

(** *** Editing content *)

(** Looking an id up in the listing of a project is looking it up in the
    store and checking the project. *)
Lemma findContent_lookup contentId pid d :
  os_wf (IDB.content d) →
  ProjectManager.findContent contentId
    (index_getAll Content.projectId pid (IDB.content d))
  = match IDB.content d !! contentId with
    | Some c => if decide (Content.projectId c = pid) then Some c else None
    | None => None
    end.
Proof.
  intros Hc. unfold ProjectManager.findContent.
  destruct (find _ _) as [x |] eqn:Hfind.
  - apply find_some in Hfind as [Hin Hid].
    apply list_elem_of_In, elem_of_index_getAll in Hin as (k & Hk & Hpid).
    apply bool_decide_eq_true in Hid. pose proof (Hc _ _ Hk) as Hkey.
    unfold key_path, content_keyPath in Hkey.
    assert (k = contentId) as -> by congruence.
    rewrite Hk. by rewrite decide_True.
  - destruct (IDB.content d !! contentId) as [c |] eqn:Hk; [| done].
    case_decide as Hpid; [| done]. exfalso.
    assert (Hin : c ∈ index_getAll Content.projectId pid (IDB.content d))
      by (apply elem_of_index_getAll; eauto).
    apply list_elem_of_In in Hin. apply (find_none _ _ Hfind) in Hin.
    apply bool_decide_eq_false in Hin. apply Hin. by apply Hc.
Qed.

(** The first idea of the example, and the state once a file has been
    added to the open project as a second idea. *)
Definition tomatoes : Content.t :=
  Content.mk 1 1 (js "plant tomatoes") morning None None.

Definition plan : File.t :=
  File.mk (js "plan.txt") (js "text/plain") 4 (js "beds") (js "txt") false.

Definition withFile : ProjectManager.t :=
  App.run [App.SelectFile plan; App.AddContent [] morning no_faults] afterDemo.

(** X13. [saveContentEdit], with a project open and storage that does
    not fail, touches at most the record with the given id, and only
    when it belongs to the open project: then the trimmed text and
    [updatedAt] are set and id, project, creation time and file are
    kept; a text that is blank on a record without a file is refused
    with an alert and the record stays; an id that is not stored, or
    belongs to another project, is passed over in silence. *)
Theorem saveContentEdit_frame (contentId : Z) (value now : jsstring)
    (st : ProjectManager.t) (cur : Project.t) :
  os_wf (IDB.content (ProjectManager.db st)) →
  ProjectManager.currentProject st = Some cur →
  let st' := (ProjectManager.saveContentEdit contentId (Some value) now no_faults st).2 in
  IDB.projects (ProjectManager.db st') = IDB.projects (ProjectManager.db st)
  ∧ IDB.counters (ProjectManager.db st') = IDB.counters (ProjectManager.db st)
  ∧ (∀ k, k ≠ contentId →
          IDB.content (ProjectManager.db st') !! k
          = IDB.content (ProjectManager.db st) !! k)
  ∧ match IDB.content (ProjectManager.db st) !! contentId with
    | Some c =>
        if decide (Content.projectId c = Project.id cur) then
          if negb (JsString.truthy (JsString.trim value))
             && negb (bool_decide (is_Some (Content.file c)))
          then
            IDB.content (ProjectManager.db st') !! contentId = Some c
            ∧ ProjectManager.notices st'
              = ProjectManager.notices st
                ++ [Alert "Content cannot be empty unless it has a file attachment!"]
          else
            IDB.content (ProjectManager.db st') !! contentId
            = Some (Content.mk contentId (Content.projectId c) (JsString.trim value)
                      (Content.createdAt c) (Content.file c) (Some now))
            ∧ ProjectManager.notices st' = ProjectManager.notices st
        else
          IDB.content (ProjectManager.db st') !! contentId = Some c
          ∧ ProjectManager.notices st' = ProjectManager.notices st
    | None =>
        IDB.content (ProjectManager.db st') !! contentId = None
        ∧ ProjectManager.notices st' = ProjectManager.notices st
    end.
Proof.
  intros Hc Hcur st'. subst st'. unfold ProjectManager.saveContentEdit.
  rewrite Hcur, getProjectContent_fault. unfold no_faults, no_fault.
  rewrite findContent_lookup by done.
  destruct (IDB.content (ProjectManager.db st) !! contentId) as [c |] eqn:Hk;
    [| by rewrite <- Hk].
  case_decide as Hpid; [| by rewrite <- Hk].
  destruct (negb _ && _); [by rewrite <- Hk |].
  rewrite saveContent_fault. cbn [snd].
  pose proof (Hc _ _ Hk) as Hid. unfold key_path, content_keyPath in Hid.
  simpl. unfold os_put, key_path, content_keyPath. simpl. rewrite Hid.
  split; [done |]. split; [done |].
  split; [intros k Hne; by rewrite lookup_insert_ne |].
  split; [apply lookup_insert_eq | done].
Qed.

Lemma saveContentEdit_frame_witness :
  os_wf (IDB.content (ProjectManager.db afterDemo))
  ∧ (Content.text <$>
       IDB.content
         (ProjectManager.db
            (ProjectManager.saveContentEdit 1 (Some (js " plant beans ")) morning
               no_faults afterDemo).2) !! 1%Z)
    = Some (js "plant beans")
  ∧ ProjectManager.notices
      (ProjectManager.saveContentEdit 1 (Some (js "  ")) morning no_faults afterDemo).2
    = [Alert "Content cannot be empty unless it has a file attachment!"].
Proof.
  assert (Hwf : os_wf (IDB.content (ProjectManager.db afterDemo))) by by_computation.
  split; [exact Hwf |]. split.
  - destruct (saveContentEdit_frame 1 (js " plant beans ") morning afterDemo
                (Project.mk 1 (js "Allotment") morning) Hwf eq_refl)
      as (_ & _ & _ & H).
    change (IDB.content (ProjectManager.db afterDemo) !! 1%Z) with (Some tomatoes) in H.
    destruct H as [H _]. rewrite H. reflexivity.
  - destruct (saveContentEdit_frame 1 (js "  ") morning afterDemo
                (Project.mk 1 (js "Allotment") morning) Hwf eq_refl)
      as (_ & _ & _ & H).
    change (IDB.content (ProjectManager.db afterDemo) !! 1%Z) with (Some tomatoes) in H.
    exact (proj2 H).
Defined.

(** X14. [saveContentFileEdit], with a project open and storage that
    does not fail, touches at most the record with the given id, and
    only when it belongs to the open project and has a file: then the
    file gets the new content and its size in bytes, [updatedAt] is set,
    the text and everything else of the record stay, and the toast of a
    saved file is shown; otherwise nothing is stored and nothing shown. *)
Theorem saveContentFileEdit_frame (contentId : Z) (newFileContent now : jsstring)
    (st : ProjectManager.t) (cur : Project.t) :
  os_wf (IDB.content (ProjectManager.db st)) →
  ProjectManager.currentProject st = Some cur →
  let st' := (FileHandler.saveContentFileEdit contentId (Some newFileContent) now
                no_faults st).2 in
  IDB.projects (ProjectManager.db st') = IDB.projects (ProjectManager.db st)
  ∧ IDB.counters (ProjectManager.db st') = IDB.counters (ProjectManager.db st)
  ∧ (∀ k, k ≠ contentId →
          IDB.content (ProjectManager.db st') !! k
          = IDB.content (ProjectManager.db st) !! k)
  ∧ match IDB.content (ProjectManager.db st) !! contentId with
    | Some c =>
        match (if decide (Content.projectId c = Project.id cur)
               then Content.file c else None) with
        | Some file =>
            IDB.content (ProjectManager.db st') !! contentId
            = Some (Content.mk contentId (Content.projectId c) (Content.text c)
                      (Content.createdAt c)
                      (Some (File.mk (File.name file) (File.type file)
                               (JsString.blob_size newFileContent) newFileContent
                               (File.extension file) (File.isImage file)))
                      (Some now))
            ∧ ProjectManager.notices st'
              = ProjectManager.notices st ++ [Toast "File content saved!"]
        | None =>
            IDB.content (ProjectManager.db st') !! contentId = Some c
            ∧ ProjectManager.notices st' = ProjectManager.notices st
        end
    | None =>
        IDB.content (ProjectManager.db st') !! contentId = None
        ∧ ProjectManager.notices st' = ProjectManager.notices st
    end.
Proof.
  intros Hc Hcur st'. subst st'. unfold FileHandler.saveContentFileEdit.
  rewrite Hcur, getProjectContent_fault. unfold no_faults, no_fault.
  rewrite findContent_lookup by done.
  destruct (IDB.content (ProjectManager.db st) !! contentId) as [c |] eqn:Hk;
    [| by rewrite <- Hk].
  case_decide as Hpid; [| by rewrite <- Hk].
  destruct (Content.file c) as [file |]; [| by rewrite <- Hk].
  rewrite saveContent_fault. cbn [snd].
  pose proof (Hc _ _ Hk) as Hid. unfold key_path, content_keyPath in Hid.
  simpl. unfold os_put, key_path, content_keyPath. simpl. rewrite Hid.
  split; [done |]. split; [done |].
  split; [intros k Hne; by rewrite lookup_insert_ne |].
  split; [apply lookup_insert_eq | done].
Qed.

Lemma saveContentFileEdit_frame_witness :
  os_wf (IDB.content (ProjectManager.db withFile))
  ∧ (Content.file <$>
       IDB.content
         (ProjectManager.db
            (FileHandler.saveContentFileEdit 2 (Some (js "beds and paths")) morning
               no_faults withFile).2) !! 2%Z)
    = Some (Some (File.mk (js "plan.txt") (js "text/plain") 14 (js "beds and paths")
                    (js "txt") false)).
Proof.
  assert (Hwf : os_wf (IDB.content (ProjectManager.db withFile))) by by_computation.
  split; [exact Hwf |].
  destruct (saveContentFileEdit_frame 2 (js "beds and paths") morning withFile
              (Project.mk 1 (js "Allotment") morning) Hwf eq_refl)
    as (_ & _ & _ & H).
  change (IDB.content (ProjectManager.db withFile) !! 2%Z)
    with (Some (Content.mk 2 1 [] morning (Some plan) None)) in H.
  destruct H as [H _]. rewrite H. reflexivity.
Defined.

(** *** Deleting a project *)

(** X15. [deleteProject] in a session, on storage that does not fail:
    the project leaves the store and [this.projects] while every other
    project stays in both, the content records left are those of the
    other projects, no notice is shown, and the session stays in order.
    The detail view is closed before the database is asked: it closes
    when the open project is the one to delete, whether or not the
    deletion then goes through. *)
Theorem deleteProject_session (projectId : Z) (st : ProjectManager.t) :
  session_ok st →
  let st' := (ProjectManager.deleteProject projectId no_faults st).2 in
  IDB.projects (ProjectManager.db st') !! projectId = None
  ∧ (∀ p, p ∈ ProjectManager.projects st'
          ↔ p ∈ ProjectManager.projects st ∧ Project.id p ≠ projectId)
  ∧ (∀ k c, IDB.content (ProjectManager.db st') !! k = Some c
            ↔ IDB.content (ProjectManager.db st) !! k = Some c
              ∧ Content.projectId c ≠ projectId)
  ∧ ProjectManager.notices st' = ProjectManager.notices st
  ∧ session_ok st'
  ∧ ∀ fl, ProjectManager.currentProject (ProjectManager.deleteProject projectId fl st).2
          = match ProjectManager.currentProject st with
            | Some cur => if bool_decide (Project.id cur = projectId) then None
                          else Some cur
            | None => None
            end.
Proof.
  intros Hok st'.
  assert (Hrun : ∃ st1,
             ProjectManager.db st1 = ProjectManager.db st
             ∧ ProjectManager.projects st1 = ProjectManager.projects st
             ∧ ProjectManager.notices st1 = ProjectManager.notices st
             ∧ st' = ProjectManager.mk (cascade projectId (ProjectManager.db st))
                       (ProjectManager.removeLocal projectId (ProjectManager.projects st))
                       (ProjectManager.currentProject st1)
                       (ProjectManager.currentFileContent st1)
                       (ProjectManager.notices st1)).
  { subst st'. unfold ProjectManager.deleteProject.
    set (st1 := match ProjectManager.currentProject st with
                | Some cur => _ | None => _ end).
    assert (Hst1 : ProjectManager.db st1 = ProjectManager.db st
                   ∧ ProjectManager.projects st1 = ProjectManager.projects st
                   ∧ ProjectManager.notices st1 = ProjectManager.notices st).
    { subst st1. destruct (ProjectManager.currentProject st); [| done].
      by case_bool_decide. }
    destruct Hst1 as (Hdb & Hprojects & Hnotices). clearbody st1.
    exists st1. unfold no_faults. rewrite deleteProject_ok, Hdb, Hprojects. done. }
  destruct Hrun as (st1 & Hdb & Hprojects & Hnotices & Hst').
  pose proof (deleteProject_session_ok projectId no_faults st Hok) as Hok'.
  fold st' in Hok'. destruct Hok as ((Hp & _) & [Hnd _] & _).
  split; [rewrite Hst'; unfold cascade, os_delete; simpl; apply lookup_delete_eq |].
  split; [intros p; rewrite Hst'; by apply elem_of_removeLocal |].
  split.
  { intros k c. rewrite Hst'. cbn [ProjectManager.db]. rewrite lookup_content_cascade.
    destruct (IDB.content (ProjectManager.db st) !! k) as [c' |];
      [| split; [done | by intros [? _]]].
    case_decide as Hpid.
    - split; [done | by intros [[= ->] Hne]].
    - split; [by intros [= ->] | by intros [? _]]. }
  split; [by rewrite Hst' |]. split; [exact Hok' |].
  intros fl. unfold ProjectManager.deleteProject.
  set (st2 := match ProjectManager.currentProject st with
              | Some cur => _ | None => _ end).
  assert (Hcur : ProjectManager.currentProject st2
                 = match ProjectManager.currentProject st with
                   | Some cur => if bool_decide (Project.id cur = projectId) then None
                                 else Some cur
                   | None => None
                   end).
  { subst st2. destruct (ProjectManager.currentProject st) as [cur |] eqn:E; [| done].
    by case_bool_decide. }
  clearbody st2.
  by destruct (transaction (DatabaseManager.deleteProject _) _ _) as [[r | e] d'].
Qed.

Lemma deleteProject_session_witness :
  session_ok withFile
  ∧ ProjectManager.currentProject withFile = Some (Project.mk 1 (js "Allotment") morning)
  ∧ ProjectManager.currentProject
      (ProjectManager.deleteProject 1 (λ _ _, true) withFile).2 = None
  ∧ ProjectManager.projects (ProjectManager.deleteProject 1 no_faults withFile).2 = []
  ∧ ∀ k c,
      IDB.content (ProjectManager.db (ProjectManager.deleteProject 1 no_faults withFile).2)
        !! k = Some c →
      Content.projectId c ≠ 1%Z.
Proof.
  assert (Hs : session_ok withFile).
  { apply run_session_ok.
    exact (reached_session_ok DatabaseManager.init demo store_ok_init). }
  destruct (deleteProject_session 1 withFile Hs) as (_ & _ & Hcontent & _ & _ & Hcur).
  split; [exact Hs |]. split; [reflexivity |].
  split; [exact (Hcur (λ _ _, true)) |]. split; [reflexivity |].
  intros k c Hk. exact (proj2 (proj1 (Hcontent k c) Hk)).
Defined.

(** *** The preview of a project card *)

(** X16. In every database the application reaches, the preview
    computed from the listing of a project is the text of its last
    record when that has one and names the kind of its file otherwise;
    the fallback for a record with neither is never taken. *)
Theorem previewText_reachable (actions : list App.action) (projectId : Z) :
  let d := ProjectManager.db (App.run actions ProjectManager.initial) in
  let l := index_getAll Content.projectId projectId (IDB.content d) in
  match last l with
  | None => l = [] ∧ ProjectManagerView.previewText l = js "No ideas added yet..."
  | Some c =>
      (JsString.truthy (Content.text c) = true
       ∧ ProjectManagerView.previewText l = Content.text c)
      ∨ (Content.text c = []
         ∧ ∃ file, Content.file c = Some file
                   ∧ ProjectManagerView.previewText l
                     = if File.isImage file then js "Image attachment"
                       else js "File attachment")
  end.
Proof.
  intros d l. unfold ProjectManagerView.previewText.
  destruct (last l) as [c |] eqn:Hlast; [| by apply last_None in Hlast].
  assert (Hin : c ∈ l).
  { apply last_Some in Hlast as [l' ->]. apply elem_of_app. right. by left. }
  apply elem_of_index_getAll in Hin as (k & Hk & _).
  pose proof (run_content_ok actions ProjectManager.initial content_ok_init k c Hk)
    as [Ht | [file Hf]].
  - left. by rewrite Ht.
  - destruct (JsString.truthy (Content.text c)) eqn:Ht; [by left |].
    right. split; [by apply not_truthy |]. exists file. by rewrite Hf.
Qed.

(** *** What is stored has been trimmed *)

Lemma trimStart_head s :
  match JsString.trimStart s with
  | [] => True
  | c :: _ => JsString.is_white_space c = false
  end.
Proof.
  induction s as [| c s IH]; [done |]. cbn [JsString.trimStart].
  destruct (JsString.is_white_space c) eqn:E; [exact IH | exact E].
Qed.

Lemma trimStart_fixed c s :
  JsString.is_white_space c = false → JsString.trimStart (c :: s) = c :: s.
Proof. intros E. cbn [JsString.trimStart]. by rewrite E. Qed.

Lemma trimStart_idem s :
  JsString.trimStart (JsString.trimStart s) = JsString.trimStart s.
Proof.
  pose proof (trimStart_head s) as Hs.
  destruct (JsString.trimStart s) as [| c r]; [done | by apply trimStart_fixed].
Qed.

Lemma trimStart_snoc s c :
  JsString.is_white_space c = false → ∃ u, JsString.trimStart (s ++ [c]) = u ++ [c].
Proof.
  intros E. induction s as [| x s [u IH]].
  - exists []. by apply trimStart_fixed.
  - cbn [app JsString.trimStart]. destruct (JsString.is_white_space x).
    + by exists u.
    + by exists (x :: s).
Qed.

Lemma trim_idem s : JsString.trim (JsString.trim s) = JsString.trim s.
Proof.
  unfold JsString.trim, JsString.trimEnd.
  pose proof (trimStart_head s) as Hs.
  destruct (JsString.trimStart s) as [| c r]; [done |].
  cbn [rev]. destruct (trimStart_snoc (rev r) c Hs) as [u Hu].
  rewrite Hu, rev_app_distr. cbn [rev app].
  rewrite trimStart_fixed by done. cbn [rev].
  rewrite rev_involutive, <- Hu, trimStart_idem, Hu. by rewrite rev_app_distr.
Qed.

Section string_invariant.
(** What holds of a name, and of a text, once it has been trimmed. *)
Variable N : jsstring → Prop.
Variable T : jsstring → Prop.
Hypothesis N_trim : ∀ value,
  JsString.truthy (JsString.trim value) = true → N (JsString.trim value).
Hypothesis T_trim : ∀ value, T (JsString.trim value).

Definition strings_ok (d : db) : Prop :=
  map_Forall (λ _ p, N (Project.name p)) (IDB.projects d)
  ∧ map_Forall (λ _ c, T (Content.text c)) (IDB.content d).

Lemma strings_ok_getNextId counterName f d :
  strings_ok d → strings_ok (transaction (DatabaseManager.getNextId counterName) f d).2.
Proof.
  intros [Hp Hc]. destruct (getNextId_frame counterName f d) as [E1 E2].
  split; [by rewrite E1 | by rewrite E2].
Qed.

Lemma strings_ok_saveProject p f d :
  N (Project.name p) → strings_ok d →
  strings_ok (transaction (DatabaseManager.saveProject p) f d).2.
Proof.
  intros Hp [Hps Hcs]. rewrite saveProject_fault. destruct (f 0%nat); [done |].
  split; [by apply map_Forall_insert_2 | done].
Qed.

Lemma strings_ok_saveContent c f d :
  T (Content.text c) → strings_ok d →
  strings_ok (transaction (DatabaseManager.saveContent c) f d).2.
Proof.
  intros Hc [Hps Hcs]. rewrite saveContent_fault. destruct (f 0%nat); [done |].
  split; [done | by apply map_Forall_insert_2].
Qed.

Lemma step_strings_ok a st :
  strings_ok (ProjectManager.db st) → strings_ok (ProjectManager.db (App.step a st)).
Proof.
  intros Hok. destruct a; simpl; try done.
  - unfold ProjectManager.createProject. destruct (negb _) eqn:Ht; [done |].
    apply negb_false_iff in Ht.
    pose proof (strings_ok_getNextId "projectId" (fl 0%nat) _ Hok) as H1.
    destruct (transaction (DatabaseManager.getNextId _) _ _) as [[projectId' | e] d];
      [| done].
    match goal with
    | |- context [transaction (DatabaseManager.saveProject ?p) ?f ?d0] =>
        pose proof (strings_ok_saveProject p f d0 (N_trim _ Ht) H1) as H2;
        by destruct (transaction (DatabaseManager.saveProject p) f d0) as [[r | e] d']
    end.
  - by rewrite openProject_db.
  - unfold ProjectManager.addContent.
    destruct (ProjectManager.currentProject st) as [cur |]; [| done].
    destruct (negb _ && _); [done |].
    pose proof (strings_ok_getNextId "contentId" (fl 0%nat) _ Hok) as H1.
    destruct (transaction (DatabaseManager.getNextId _) _ _) as [[contentId' | e] d];
      [| done].
    match goal with
    | |- context [transaction (DatabaseManager.saveContent ?c) ?f ?d0] =>
        pose proof (strings_ok_saveContent c f d0 (T_trim _) H1) as H2;
        by destruct (transaction (DatabaseManager.saveContent c) f d0) as [[r | e] d']
    end.
  - unfold ProjectManager.editProject.
    rewrite getProject_fault. destruct (fl 0%nat 0%nat); [done |].
    destruct (IDB.projects _ !! projectId) as [project |] eqn:Hproject; [| done].
    destruct answer as [newName |]; [| done].
    destruct (JsString.truthy newName && _) eqn:Ht; [| done].
    apply andb_true_iff in Ht as [_ Ht].
    match goal with
    | |- context [transaction (DatabaseManager.saveProject ?p) ?f ?d0] =>
        pose proof (strings_ok_saveProject p f d0 (N_trim _ Ht) Hok) as H2;
        by destruct (transaction (DatabaseManager.saveProject p) f d0) as [[r | e] d']
    end.
  - unfold ProjectManager.deleteProject.
    set (st1 := match ProjectManager.currentProject st with
                | Some cur => _ | None => _ end).
    assert (Hst1 : ProjectManager.db st1 = ProjectManager.db st).
    { subst st1. destruct (ProjectManager.currentProject st); [| done].
      by case_bool_decide. }
    rewrite <- Hst1 in Hok. destruct Hok as [Hps Hcs].
    assert (H1 : strings_ok (transaction (DatabaseManager.deleteProject projectId)
                               (fl 0%nat) (ProjectManager.db st1)).2).
    { split.
      - intros k p Hk%deleteProject_projects_sub. by apply (Hps k).
      - intros k c Hk%deleteProject_content_sub. by apply (Hcs k). }
    by destruct (transaction (DatabaseManager.deleteProject _) _ _) as [[r | e] d].
  - unfold ProjectManager.saveContentEdit.
    destruct (ProjectManager.currentProject st) as [cur |]; [| done].
    rewrite getProjectContent_fault. destruct (fl 0%nat 0%nat); [done |].
    destruct (ProjectManager.findContent _ _) as [c |] eqn:Hfind; [| done].
    destruct textarea as [value |]; [| done].
    destruct (negb _ && _); [done |].
    match goal with
    | |- context [transaction (DatabaseManager.saveContent ?c') ?f ?d0] =>
        pose proof (strings_ok_saveContent c' f d0 (T_trim _) Hok) as H2;
        by destruct (transaction (DatabaseManager.saveContent c') f d0) as [[r | e] d']
    end.
  - unfold FileHandler.saveContentFileEdit.
    destruct textarea as [newFileContent |]; [| done].
    destruct (ProjectManager.currentProject st) as [cur |]; [| done].
    rewrite getProjectContent_fault. destruct (fl 0%nat 0%nat); [done |].
    destruct (ProjectManager.findContent _ _) as [c |] eqn:Hfind; [| done].
    destruct (Content.file c) as [file |]; [| done].
    apply findContent_stored in Hfind as [k Hk].
    pose proof (proj2 Hok _ _ Hk) as Hc. simpl in Hc.
    match goal with
    | |- context [transaction (DatabaseManager.saveContent ?c') ?f ?d0] =>
        pose proof (strings_ok_saveContent c' f d0 Hc Hok) as H2;
        by destruct (transaction (DatabaseManager.saveContent c') f d0) as [[r | e] d']
    end.
  - unfold ProjectManager.deleteContent.
    destruct (ProjectManager.currentProject st); [| done].
    rewrite deleteContent_fault. destruct (fl 0%nat 0%nat); [done |].
    destruct Hok as [Hps Hcs]. split; [done | by apply map_Forall_delete].
Qed.

Lemma run_strings_ok actions st :
  strings_ok (ProjectManager.db st) →
  strings_ok (ProjectManager.db (App.run actions st)).
Proof.
  revert st. induction actions as [| a actions IH]; intros st Hok; [done |].
  apply IH. by apply step_strings_ok.
Qed.

End string_invariant.

(** X17. In every database the application reaches, whatever failed on
    the way, the name of a project is not empty and is its own trimmed
    form, and so is the text of a content record, which may be empty;
    trimming twice is trimming once. *)
Theorem stored_strings_trimmed (actions : list App.action) :
  let d := ProjectManager.db (App.run actions ProjectManager.initial) in
  (∀ k p, IDB.projects d !! k = Some p →
          JsString.truthy (Project.name p) = true
          ∧ JsString.trim (Project.name p) = Project.name p)
  ∧ (∀ k c, IDB.content d !! k = Some c →
            JsString.trim (Content.text c) = Content.text c)
  ∧ ∀ value, JsString.trim (JsString.trim value) = JsString.trim value.
Proof.
  intros d.
  destruct (run_strings_ok
              (λ s, JsString.truthy s = true ∧ JsString.trim s = s)
              (λ s, JsString.trim s = s)
              (λ value Ht, conj Ht (trim_idem value)) trim_idem
              actions ProjectManager.initial) as [Hp Hc].
  { split; apply map_Forall_empty. }
  split; [exact Hp |]. split; [exact Hc | exact trim_idem].
Qed.

(** *** The ideas, project by project *)

Lemma size_by_project (ids : list Z) (m : gmap Z Content.t) :
  NoDup ids →
  (∀ k c, m !! k = Some c → Content.projectId c ∈ ids) →
  size m
  = sum_list ((λ pid, size (filter (λ kc : Z * Content.t,
                                      Content.projectId kc.2 = pid) m)) <$> ids).
Proof.
  revert m. induction ids as [| pid ids IH]; intros m Hnd Hin.
  - csimpl. apply map_size_empty_iff, map_empty. intros k.
    destruct (m !! k) as [c |] eqn:Hk; [| done].
    by apply Hin, elem_of_nil in Hk.
  - apply NoDup_cons in Hnd as [Hpid Hnd]. csimpl.
    rewrite <- (map_filter_union_complement
                  (λ kc : Z * Content.t, Content.projectId kc.2 = pid) m) at 1.
    rewrite map_size_disj_union by apply map_disjoint_filter_complement. f_equal.
    rewrite (IH (filter (λ kc : Z * Content.t, ¬ Content.projectId kc.2 = pid) m)).
    + f_equal. apply list_fmap_ext. intros i q Hq. f_equal.
      apply map_filter_strong_ext. intros k c. rewrite map_lookup_filter_Some. simpl.
      split; [by intros (? & ? & ?) |]. intros [Hc Hk].
      split; [done |]. split; [done |]. intros Heq. apply Hpid.
      apply (list_elem_of_lookup_2 _ i). congruence.
    + done.
    + intros k c [Hk Hne]%map_lookup_filter_Some. simpl in Hne.
      apply Hin, elem_of_cons in Hk as [Hk | Hk]; done.
Qed.

(** X18. In a session the ideas counted on the cards of the projects
    add up to the total: [getTotalIdeasCount] is the sum, over
    [this.projects], of the lengths of what [getProjectContent] lists
    for them. *)
Theorem ideas_by_project (d : db) (actions : list App.action) :
  store_ok d →
  let st := App.run actions (ProjectManagerView.opened no_faults d) in
  let listing (p : Project.t) :=
    index_getAll Content.projectId (Project.id p) (IDB.content (ProjectManager.db st)) in
  (∀ p, transaction (DatabaseManager.getProjectContent (Project.id p)) no_fault
          (ProjectManager.db st) = (Resolved (listing p), ProjectManager.db st))
  ∧ transaction DatabaseManager.getTotalIdeasCount no_fault (ProjectManager.db st)
    = (Resolved (Z.of_nat (sum_list ((λ p, length (listing p))
                                       <$> ProjectManager.projects st))),
       ProjectManager.db st).
Proof.
  intros Hs st listing. split; [intros p; by rewrite getProjectContent_fault |].
  destruct (reached_session_ok d actions Hs) as ((Hp & _ & _ & _ & Hr) & [Hnd Hin] & _).
  fold st in Hp, Hr, Hnd, Hin.
  rewrite DatabaseManagerMore.getTotalIdeasCount_run. unfold no_fault, os_count.
  do 3 f_equal.
  rewrite (size_by_project (Project.id <$> ProjectManager.projects st)); [| done |].
  - rewrite <- list_fmap_compose. f_equal. apply list_fmap_ext. intros i p _. simpl.
    subst listing. simpl. by rewrite DatabaseManagerMore.length_index_getAll.
  - intros k c Hk. destruct (Hr k c Hk) as [p Hp'].
    apply list_elem_of_fmap. exists p. split; [| apply Hin; eauto].
    symmetry. by apply Hp.
Qed.

Lemma ideas_by_project_witness :
  store_ok DatabaseManager.init
  ∧ transaction DatabaseManager.getTotalIdeasCount no_fault (ProjectManager.db withFile)
    = (Resolved 2%Z, ProjectManager.db withFile)
  ∧ length (index_getAll Content.projectId 1 (IDB.content (ProjectManager.db withFile)))
    = 2%nat.
Proof.
  split; [exact store_ok_init |].
  split; [| reflexivity].
  exact (proj2 (ideas_by_project DatabaseManager.init
                  (demo ++ [App.SelectFile plan; App.AddContent [] morning no_faults])
                  store_ok_init)).
Defined.

End SessionFacts.

(** ** Facts about [Utils.simpleHash] *)

Module UtilsFacts.
Import Utils.

(** *** 32-bit integers *)

Lemma toInt32_spec z : ∃ k, toInt32 z = (z + 2 ^ 32 * k)%Z.
Proof.
  unfold toInt32. exists (- ((z + 2 ^ 31) / 2 ^ 32))%Z.
  pose proof (Z.div_mod (z + 2 ^ 31) (2 ^ 32)). lia.
Qed.

Lemma toInt32_shift z k : toInt32 (z + 2 ^ 32 * k) = toInt32 z.
Proof.
  unfold toInt32. f_equal.
  replace (z + 2 ^ 32 * k + 2 ^ 31)%Z with (z + 2 ^ 31 + k * 2 ^ 32)%Z by lia.
  apply Z_mod_plus_full.
Qed.

Lemma toInt32_range z : (- 2 ^ 31 ≤ toInt32 z < 2 ^ 31)%Z.
Proof. unfold toInt32. pose proof (Z.mod_pos_bound (z + 2 ^ 31) (2 ^ 32)). lia. Qed.

Lemma toInt32_small z : (- 2 ^ 31 ≤ z < 2 ^ 31)%Z → toInt32 z = z.
Proof. intros Hz. unfold toInt32. rewrite Z.mod_small by lia. lia. Qed.

Lemma toInt32_idem z : toInt32 (toInt32 z) = toInt32 z.
Proof. apply toInt32_small, toInt32_range. Qed.

(** One turn of the loop multiplies by 31 and adds the code unit, in
    32-bit arithmetic; [hash & hash] changes nothing but the width. *)
Lemma hashStep_eq hash char : hashStep hash char = toInt32 (31 * hash + Z.of_N char).
Proof.
  unfold hashStep, bitand, shl.
  rewrite Z.land_diag, toInt32_idem, Z.shiftl_mul_pow2 by lia.
  destruct (toInt32_spec (toInt32 hash * 2 ^ 5)) as [k2 Hk2]. rewrite Hk2.
  destruct (toInt32_spec hash) as [k1 Hk1]. rewrite Hk1.
  replace ((hash + 2 ^ 32 * k1) * 2 ^ 5 + 2 ^ 32 * k2 - hash + Z.of_N char)%Z
    with (31 * hash + Z.of_N char + 2 ^ 32 * (32 * k1 + k2))%Z by lia.
  apply toInt32_shift.
Qed.

(** The hash before it is cut to 32 bits: the code units as the
    coefficients of a polynomial in 31. *)
Definition polynomial (content : jsstring) : Z :=
  foldl (λ h c, (31 * h + Z.of_N c)%Z) 0%Z content.

Lemma foldl_hashStep content : foldl hashStep 0%Z content = toInt32 (polynomial content).
Proof.
  induction content as [| c content IH] using rev_ind; [reflexivity |].
  unfold polynomial. rewrite !foldl_app. cbn [foldl]. rewrite IH, hashStep_eq.
  fold (polynomial content).
  destruct (toInt32_spec (polynomial content)) as [k Hk]. rewrite Hk.
  replace (31 * (polynomial content + 2 ^ 32 * k) + Z.of_N c)%Z
    with (31 * polynomial content + Z.of_N c + 2 ^ 32 * (31 * k))%Z by lia.
  apply toInt32_shift.
Qed.

(** X19. The loop of [simpleHash] computes the polynomial hash with
    base 31 of the code units, cut to a signed 32-bit integer; the
    result is the hexadecimal form of its absolute value, and ["0"] for
    the empty string. *)
Theorem simpleHash_polynomial (content : jsstring) :
  foldl hashStep 0%Z content = toInt32 (polynomial content)
  ∧ (∀ hash char, hashStep hash char = toInt32 (31 * hash + Z.of_N char))
  ∧ (- 2 ^ 31 ≤ foldl hashStep 0%Z content < 2 ^ 31)%Z
  ∧ simpleHash content
    = match content with
      | [] => js "0"
      | _ :: _ => toString16 (Z.to_N (Z.abs (toInt32 (polynomial content))))
      end.
Proof.
  split; [apply foldl_hashStep |]. split; [apply hashStep_eq |].
  split; [rewrite foldl_hashStep; apply toInt32_range |].
  unfold simpleHash. destruct content as [| c content]; [done |].
  rewrite bool_decide_eq_false_2 by done. by rewrite foldl_hashStep.
Qed.

(** *** Hexadecimal digits *)

(** The number a string of hexadecimal digits stands for. *)
Definition digitValue (c : N) : N := (if c <? 58 then c - 48 else c - 87)%N.

Definition hexValue (s : jsstring) : N :=
  foldl (λ n c, (16 * n + digitValue c)%N) 0%N s.

(** ['0'] to ['9'] and ['a'] to ['f']. *)
Definition isHexDigit (c : N) : Prop := (48 ≤ c ≤ 57 ∨ 97 ≤ c ≤ 102)%N.

Lemma digitValue_hexDigit d : (d < 16)%N → digitValue (hexDigit d) = d.
Proof.
  intros Hd. unfold digitValue, hexDigit.
  destruct (N.ltb_spec d 10).
  - destruct (N.ltb_spec (48 + d) 58); lia.
  - destruct (N.ltb_spec (87 + d) 58); lia.
Qed.

Lemma isHexDigit_hexDigit d : (d < 16)%N → isHexDigit (hexDigit d).
Proof.
  intros Hd. unfold isHexDigit, hexDigit. destruct (N.ltb_spec d 10); lia.
Qed.

Lemma hexDigits_acc fuel n acc : hexDigits fuel n acc = hexDigits fuel n [] ++ acc.
Proof.
  revert n acc. induction fuel as [| fuel IH]; intros n acc; [done |].
  cbn [hexDigits]. destruct (n / 16 =? 0)%N; [done |].
  rewrite (IH _ (_ :: acc)), (IH _ [_]). by rewrite <- app_assoc.
Qed.

Lemma hexValue_snoc s c : hexValue (s ++ [c]) = (16 * hexValue s + digitValue c)%N.
Proof. unfold hexValue. by rewrite foldl_app. Qed.

Lemma hexValue_hexDigits fuel n :
  (n < 16 ^ N.of_nat fuel)%N → hexValue (hexDigits fuel n []) = n.
Proof.
  revert n. induction fuel as [| fuel IH]; intros n Hn.
  - simpl in Hn. cbn [hexDigits]. unfold hexValue. simpl. lia.
  - rewrite Nat2N.inj_succ, N.pow_succ_r' in Hn.
    pose proof (N.div_mod n 16) as Hdiv. pose proof (N.mod_lt n 16) as Hmod.
    cbn [hexDigits]. destruct (N.eqb_spec (n / 16) 0) as [E | E].
    + change [hexDigit (n mod 16)] with ([] ++ [hexDigit (n mod 16)]).
      rewrite hexValue_snoc, digitValue_hexDigit by lia.
      unfold hexValue. simpl. lia.
    + rewrite hexDigits_acc, hexValue_snoc, digitValue_hexDigit by lia.
      rewrite IH; [lia |]. apply N.Div0.div_lt_upper_bound; lia.
Qed.

Lemma hexDigits_length fuel n k acc :
  (n < 16 ^ N.of_nat (S k))%N →
  (length (hexDigits fuel n acc) ≤ S k + length acc)%nat.
Proof.
  revert n k acc. induction fuel as [| fuel IH]; intros n k acc Hn; [simpl; lia |].
  cbn [hexDigits]. destruct (N.eqb_spec (n / 16) 0) as [E | E]; [simpl; lia |].
  rewrite Nat2N.inj_succ, N.pow_succ_r' in Hn.
  destruct k as [| k].
  - exfalso. apply E. apply N.div_small. simpl in Hn. lia.
  - etrans; [apply (IH _ k) |]; [apply N.Div0.div_lt_upper_bound; lia | simpl; lia].
Qed.

Lemma hexDigits_nonempty fuel n : (1 ≤ length (hexDigits (S fuel) n []))%nat.
Proof.
  cbn [hexDigits]. destruct (n / 16 =? 0)%N; [simpl; lia |].
  rewrite hexDigits_acc, length_app. simpl. lia.
Qed.

Lemma hexDigits_Forall fuel n acc :
  Forall isHexDigit acc → Forall isHexDigit (hexDigits fuel n acc).
Proof.
  revert n acc. induction fuel as [| fuel IH]; intros n acc Hacc; [done |].
  assert (Hd : Forall isHexDigit (hexDigit (n mod 16) :: acc)).
  { apply Forall_cons. split; [| done]. apply isHexDigit_hexDigit.
    by apply N.mod_lt. }
  cbn [hexDigits]. destruct (n / 16 =? 0)%N; [done | by apply IH].
Qed.

Lemma toString16_fuel n : (n < 16 ^ N.of_nat (S (N.to_nat (N.log2 n))))%N.
Proof.
  rewrite Nat2N.inj_succ, N2Nat.id.
  destruct (decide (n = 0%N)) as [-> | Hn]; [done |].
  pose proof (N.log2_spec n) as [_ Hlt]; [lia |].
  eapply N.lt_le_trans; [exact Hlt |].
  apply N.pow_le_mono_l. lia.
Qed.

(** X20. What [simpleHash] returns is made of one to eight digits out
    of ['0'] to ['9'] and ['a'] to ['f'], and read as a hexadecimal
    number it is the absolute value of the 32-bit hash. *)
Theorem simpleHash_hex (content : jsstring) :
  (1 ≤ length (simpleHash content) ≤ 8)%nat
  ∧ Forall isHexDigit (simpleHash content)
  ∧ hexValue (simpleHash content) = Z.to_N (Z.abs (toInt32 (polynomial content)))
  ∧ ∀ n, hexValue (toString16 n) = n.
Proof.
  assert (Hvalue : ∀ n, hexValue (toString16 n) = n).
  { intros n. apply hexValue_hexDigits, toString16_fuel. }
  unfold simpleHash. case_bool_decide as Hlen.
  - apply nil_length_inv in Hlen as ->.
    split; [simpl; lia |]. split; [| by split].
    apply Forall_singleton. unfold isHexDigit. simpl. lia.
  - rewrite foldl_hashStep. pose proof (toInt32_range (polynomial content)) as Hr.
    split; [split |]; [apply hexDigits_nonempty | | split; [| by split]].
    + unfold toString16.
      etrans; [apply (hexDigits_length _ _ 7) |]; [| simpl; lia].
      change (16 ^ N.of_nat 8)%N with 4294967296%N. lia.
    + apply hexDigits_Forall, Forall_nil_2.
Qed.

End UtilsFacts.

(** ** Facts about the file preview *)

Module FilePreviewFacts.
Import FilePreview.

(** *** Splitting at a separator *)

Lemma split_nonempty sep s : split sep s ≠ [].
Proof.
  destruct s as [| c r]; [done |]. cbn [split].
  destruct (c =? sep)%N; [done |]. by destruct (split sep r).
Qed.

Lemma split_no_sep sep s : sep ∉ s → split sep s = [s].
Proof.
  induction s as [| c r IH]; [done |].
  intros [Hc Hr]%not_elem_of_cons. cbn [split].
  destruct (N.eqb_spec c sep) as [-> | _]; [done |]. by rewrite IH.
Qed.

Lemma split_app sep stem rest :
  split sep (stem ++ sep :: rest) = split sep stem ++ split sep rest.
Proof.
  induction stem as [| c stem IH]; cbn [app split].
  - by rewrite N.eqb_refl.
  - destruct (c =? sep)%N; [by rewrite IH |].
    rewrite IH. pose proof (split_nonempty sep stem) as Hne.
    by destruct (split sep stem).
Qed.

Lemma last_split_ext stem ext :
  0x2E%N ∉ ext → last (split 0x2E (stem ++ 0x2E%N :: ext)) = Some ext.
Proof. intros Hext. by rewrite split_app, (split_no_sep _ ext), last_snoc. Qed.

Section lower_case.
Variable toLowerCase : jsstring → jsstring.

(** *** What holds of the preview at all times *)

Definition preview_ok (st : t) : Prop :=
  match currentFileContent st, originalFileContent st with
  | None, None => True
  | Some file, Some original =>
      File.type file = File.type original
      ∧ File.isImage file = File.isImage original
      ∧ File.isImage file = startsWith (js "image/") (File.type file)
      ∧ (File.content file = File.content original
         ∧ File.size file = File.size original
         ∨ File.size file = JsString.blob_size (File.content file))
  | _, _ => False
  end.

Lemma fileLoaded_ok name type size result st :
  preview_ok (fileLoaded toLowerCase name type size result st).
Proof.
  unfold preview_ok, fileLoaded.
  cbn [currentFileContent originalFileContent].
  destruct (startsWith (js "image/") type) eqn:E.
  - cbn [File.type File.isImage File.content File.size]. rewrite E.
    do 3 (split; [done |]). by left.
  - cbn [File.type File.isImage File.content File.size].
    destruct (JsString.truthy type); [rewrite E |]; do 3 (split; [done |]); by left.
Qed.

Lemma step_preview_ok a st : preview_ok st → preview_ok (step toLowerCase a st).
Proof.
  intros Hok. destruct a; cbn [step]; try done.
  - apply fileLoaded_ok.
  - unfold toggleFileEdit.
    destruct (currentFileContent st) as [file |] eqn:Hf; [| done].
    destruct (File.isImage file) eqn:E; [done |].
    unfold preview_ok in *. cbn [currentFileContent originalFileContent].
    by rewrite Hf in Hok.
  - unfold saveFileEdit. destruct editor as [newContent |]; [| done].
    destruct (currentFileContent st) as [file |] eqn:Hf; [| done].
    unfold preview_ok in *. cbn [currentFileContent originalFileContent].
    rewrite Hf in Hok. destruct (originalFileContent st) as [original |]; [| done].
    cbn [File.type File.isImage File.content File.size].
    destruct Hok as (Htype & Himage & Hstarts & _). do 3 (split; [done |]). by right.
  - unfold resetFileContent.
    destruct (originalFileContent st) as [original |] eqn:Ho; cbn [default]; [| done].
    destruct (currentFileContent st) as [file |] eqn:Hf; cbn [default]; [| done].
    unfold preview_ok in *. cbn [currentFileContent originalFileContent].
    rewrite Hf, Ho in Hok. cbn [File.type File.isImage File.content File.size].
    destruct Hok as (Htype & Himage & Hstarts & _). do 3 (split; [done |]). by left.
  - unfold updateFileName.
    destruct (currentFileContent st) as [file |] eqn:Hf; [| done].
    destruct (negb _); [done |].
    unfold preview_ok in *. cbn [currentFileContent originalFileContent].
    rewrite Hf in Hok. by destruct (originalFileContent st) as [original |].
Qed.

Lemma run_preview_ok actions st :
  preview_ok st → preview_ok (run toLowerCase actions st).
Proof.
  revert st. induction actions as [| a actions IH]; intros st Hok; [done |].
  apply IH. by apply step_preview_ok.
Qed.

(** X21. Whatever is done to the preview from the start: the file as
    it was read is kept exactly when there is a current file, so
    [resetFileContent] never fails on a missing one; the current file
    has the type of the file read and is an image exactly when that
    type starts with ["image/"]; and its size is either the size read,
    its content being the content read, or the length in bytes of its
    content. *)
Theorem preview_invariant (actions : list action) :
  let st := run toLowerCase actions initial in
  (currentFileContent st = None ↔ originalFileContent st = None)
  ∧ is_Some (resetFileContent st)
  ∧ ∀ file original,
      currentFileContent st = Some file → originalFileContent st = Some original →
      File.type file = File.type original
      ∧ File.isImage file = File.isImage original
      ∧ File.isImage file = startsWith (js "image/") (File.type file)
      ∧ (File.content file = File.content original
         ∧ File.size file = File.size original
         ∨ File.size file = JsString.blob_size (File.content file)).
Proof.
  intros st. assert (Hok : preview_ok st) by by apply run_preview_ok.
  unfold preview_ok, resetFileContent in *.
  destruct (currentFileContent st) as [file |], (originalFileContent st) as [original |];
    try done.
  split; [done |]. split; [by eexists |]. by intros ? ? [= <-] [= <-].
Qed.

(** *** Resetting *)

Lemma step_editing a st original :
  editing a = true →
  originalFileContent st = Some original → is_Some (currentFileContent st) →
  originalFileContent (step toLowerCase a st) = Some original
  ∧ is_Some (currentFileContent (step toLowerCase a st)).
Proof.
  intros Ha Ho [file Hf]. destruct a; try done; cbn [step].
  - unfold toggleFileEdit. rewrite Hf. destruct (File.isImage file);
      cbn [currentFileContent originalFileContent]; rewrite ?Ho, ?Hf; eauto.
  - unfold saveFileEdit. rewrite Hf. destruct editor as [newContent |];
      cbn [currentFileContent originalFileContent]; rewrite ?Ho, ?Hf; eauto.
  - unfold resetFileContent. rewrite Ho, Hf. cbn [default].
    cbn [currentFileContent originalFileContent]. rewrite ?Ho. eauto.
  - unfold updateFileName. rewrite Hf. destruct (negb _);
      cbn [currentFileContent originalFileContent]; rewrite ?Ho, ?Hf; eauto.
Qed.

Lemma run_editing actions st original :
  forallb editing actions = true →
  originalFileContent st = Some original → is_Some (currentFileContent st) →
  originalFileContent (run toLowerCase actions st) = Some original
  ∧ is_Some (currentFileContent (run toLowerCase actions st)).
Proof.
  revert st. induction actions as [| a actions IH]; intros st Has Ho Hf; [done |].
  cbn [forallb] in Has. apply andb_true_iff in Has as [Ha Has].
  destruct (step_editing a st original Ha Ho Hf) as [Ho' Hf'].
  by apply IH.
Qed.

(** X22. Once a file has been read, and whatever is then done to it by
    editing, saving edits, cancelling, renaming and resetting,
    [resetFileContent] goes through and brings back the content and the
    size that were read; the file as read is kept throughout. *)
Theorem reset_restores (name type : jsstring) (size : Z) (result : jsstring)
    (actions : list action) (st : t) :
  forallb editing actions = true →
  let loaded := fileLoaded toLowerCase name type size result st in
  let edited := run toLowerCase actions loaded in
  originalFileContent edited = originalFileContent loaded
  ∧ ∃ st' file,
      resetFileContent edited = Some st'
      ∧ currentFileContent st' = Some file
      ∧ File.content file = result ∧ File.size file = size
      ∧ originalFileContent st' = originalFileContent loaded.
Proof.
  intros Has loaded edited.
  assert (Hloaded : ∃ original,
             originalFileContent loaded = Some original
             ∧ currentFileContent loaded = Some original
             ∧ File.content original = result ∧ File.size original = size).
  { subst loaded. unfold fileLoaded. cbn [currentFileContent originalFileContent].
    eexists. split; [reflexivity |]. split; [reflexivity |].
    by destruct (startsWith (js "image/") type). }
  destruct Hloaded as (original & Ho & Hf & Hcontent & Hsize).
  destruct (run_editing actions loaded original Has Ho) as [Ho' [file Hf']];
    [by rewrite Hf |].
  fold edited in Ho', Hf'. rewrite Ho. split; [exact Ho' |].
  unfold resetFileContent. rewrite Ho', Hf'.
  eexists _, _. split; [reflexivity |].
  cbn [currentFileContent originalFileContent]. by split.
Qed.

(** *** Renaming *)

(** X23. [updateFileName] with a name that is not blank sets the
    trimmed name and leaves type, size, content and the file as read
    alone. The extension becomes the lower-cased part after the last
    ['.'] when that is not empty; a name without ['.'] is taken whole,
    so it becomes the extension unless it is its own lower case; in
    the remaining cases the extension stays. *)
Theorem updateFileName_extension (newName : jsstring) (st : t) (file : File.t) :
  currentFileContent st = Some file →
  JsString.truthy (JsString.trim newName) = true →
  let trimmedName := JsString.trim newName in
  ∃ file',
    currentFileContent (updateFileName toLowerCase newName st) = Some file'
    ∧ File.name file' = trimmedName
    ∧ File.type file' = File.type file ∧ File.size file' = File.size file
    ∧ File.content file' = File.content file ∧ File.isImage file' = File.isImage file
    ∧ originalFileContent (updateFileName toLowerCase newName st)
      = originalFileContent st
    ∧ (∀ stem ext,
          trimmedName = stem ++ 0x2E%N :: ext → 0x2E%N ∉ ext →
          File.extension file'
          = if JsString.truthy (toLowerCase ext)
               && negb (bool_decide (toLowerCase ext = trimmedName))
            then toLowerCase ext else File.extension file)
    ∧ (0x2E%N ∉ trimmedName →
       File.extension file'
       = if JsString.truthy (toLowerCase trimmedName)
            && negb (bool_decide (toLowerCase trimmedName = trimmedName))
         then toLowerCase trimmedName else File.extension file).
Proof.
  intros Hf Ht trimmedName. unfold updateFileName. rewrite Hf, Ht. cbn [negb].
  cbn [currentFileContent originalFileContent]. fold trimmedName.
  eexists. split; [reflexivity |].
  cbn [File.name File.type File.size File.content File.isImage File.extension].
  do 6 (split; [done |]). unfold extensionOf. split.
  - intros stem ext -> Hext. by rewrite last_split_ext.
  - intros Hdot. by rewrite split_no_sep.
Qed.

End lower_case.

(** [toLowerCase] on the letters [A] to [Z], for the examples. *)
Definition lowerCaseLatin (s : jsstring) : jsstring :=
  (λ c, if (0x41 <=? c)%N && (c <=? 0x5A)%N then (c + 0x20)%N else c) <$> s.

Definition report : t :=
  fileLoaded lowerCaseLatin (js "Report.TXT") (js "") 5 (js "draft") initial.

Lemma reset_restores_witness :
  (File.content <$>
     currentFileContent
       (run lowerCaseLatin
          [ToggleFileEdit; SaveFileEdit (Some (js "final")); UpdateFileName (js "README")]
          report))
  = Some (js "final")
  ∧ ∃ st' file,
      resetFileContent
        (run lowerCaseLatin
           [ToggleFileEdit; SaveFileEdit (Some (js "final")); UpdateFileName (js "README")]
           report) = Some st'
      ∧ currentFileContent st' = Some file
      ∧ File.content file = js "draft" ∧ File.size file = 5%Z.
Proof.
  split; [reflexivity |].
  destruct (reset_restores lowerCaseLatin (js "Report.TXT") (js "") 5 (js "draft")
              [ToggleFileEdit; SaveFileEdit (Some (js "final"));
               UpdateFileName (js "README")] initial eq_refl)
    as (_ & st' & file & H1 & H2 & H3 & H4 & _).
  exists st', file. by split; [| split; [| split]].
Defined.

Lemma updateFileName_extension_witness :
  ∃ file',
    currentFileContent (updateFileName lowerCaseLatin (js " README ") report) = Some file'
    ∧ File.name file' = js "README"
    ∧ File.extension file' = js "readme".
Proof.
  destruct (updateFileName_extension lowerCaseLatin (js " README ") report
              (File.mk (js "Report.TXT") (js "text/plain") 5 (js "draft")
                 (js "txt") false) eq_refl eq_refl)
    as (file' & H1 & H2 & _ & _ & _ & _ & _ & _ & H9).
  exists file'. split; [exact H1 |]. split; [exact H2 |].
  rewrite H9; [reflexivity |]. by_computation.
Defined.

End FilePreviewFacts.
